(** * Ship-art bundle builder: manifest validation and bundle assembly

    A shallow embedding of [scripts/build_ship_art.py]: the manifest
    validator ([read_manifest], [ensure_relative_path], [parse_module]) and
    the bundle assembler ([copy_into_bundle], [build_bundle], [main]),
    together with the properties of the design document that concern them.

    Modelling conventions.
    - A decoded JSON document is a value of [JSON]; a Python [dict] is an
      association list in insertion order, looked up by first match.
    - A Python [str] is the string of the bytes of its UTF-8 encoding; a
      loop over it yields its code points ([chars]).  Strings with a lone
      surrogate have no such encoding and are not modelled.
    - A [pathlib] path is a root marker and a list of parts, as
      [PurePosixPath] keeps them; building a path from a string goes through
      [parse_path], joining through [pjoin].
    - The operating system is an interface ([FileSystem]): resolving a path,
      probing it, creating directories, copying a file, reading and writing
      the manifest. What the assembler needs to know about it is stated as
      laws ([FileSystemLaws]); [SimFS] is a small symlink-free instance.
    - A Python call ends in a value, in a [ValidationError], or in another
      exception that nothing in the script catches ([outcome]).  Code that
      changes the file system threads a [World]: the file system and the
      trace of what the run did to it.
    - Not modelled: a probe that raises.  [resolve()] and [exists()] are
      total here; in Python they raise on a path string with a NUL
      character (ValueError) and when the operating system refuses the
      probe (a name that is too long, permissions, symlink loops: OSError).
      What is proved of [ensure_relative_path] and of its callers holds of
      the runs in which these two calls return.
    - Not modelled either: the text of [repr] for floats and containers,
      which is a parameter ([PyRepr]). *)

From Stdlib Require Import String Ascii List ZArith Lia Bool.
From Stdlib Require Import Numbers.DecimalString.
From Stdlib Require Import Floats.PrimFloat.
Import ListNotations.

Open Scope list_scope.
Open Scope string_scope.

(* ================================================================= *)
(** ** Strings *)

Definition slash : ascii := "/"%char.

(** [str(n)] for a Python integer. *)
Definition Z_to_string (z : Z) : string :=
  NilZero.string_of_int (Z.to_int z).

Definition nat_to_string (n : nat) : string :=
  Z_to_string (Z.of_nat n).

(** ["sep".join(items)]. *)
Definition join (sep : string) (items : list string) : string :=
  String.concat sep items.

(** [t in s] for strings, as a proposition. *)
Definition contains (s t : string) : Prop :=
  exists before after, s = before ++ t ++ after.

(** [s.split("/")]. *)
Fixpoint split_slash (s : string) : list string :=
  match s with
  | EmptyString => [EmptyString]
  | String c rest =>
      if Ascii.eqb c slash then EmptyString :: split_slash rest
      else match split_slash rest with
           | [] => [String c EmptyString]
           | seg :: segs => String c seg :: segs
           end
  end.

Fixpoint has_slash (s : string) : bool :=
  match s with
  | EmptyString => false
  | String c rest => Ascii.eqb c slash || has_slash rest
  end.

(** A continuation byte of UTF-8: [10xxxxxx]. *)
Definition is_continuation (c : ascii) : bool :=
  match c with
  | Ascii _ _ _ _ _ _ b6 b7 => b7 && negb b6
  end.

Definition starts_with_continuation (s : string) : bool :=
  match s with
  | String c _ => is_continuation c
  | EmptyString => false
  end.

(** The one-character strings a [for] loop over a Python string yields:
    one per code point, that is a leading byte with the continuation bytes
    that follow it. *)
Fixpoint chars (s : string) : list string :=
  match s with
  | EmptyString => []
  | String c rest =>
      if starts_with_continuation rest then
        match chars rest with
        | first :: others => String c first :: others
        | [] => [String c EmptyString]
        end
      else String c EmptyString :: chars rest
  end.

(* ================================================================= *)
(** ** Decoded JSON values and the Python operations used on them *)

#[warnings="-register-all"]
Inductive JSON : Type :=
| JNull
| JBool (b : bool)
| JInt (z : Z)
| JFloat (f : float)
| JStr (s : string)
| JList (items : list JSON)
| JObj (fields : list (string * JSON)).

Definition Dict : Type := list (string * JSON).

Fixpoint dict_get (key : string) (d : Dict) : option JSON :=
  match d with
  | [] => None
  | (k, v) :: rest => if String.eqb k key then Some v else dict_get key rest
  end.

(** [key in d]. *)
Definition dict_mem (key : string) (d : Dict) : bool :=
  match dict_get key d with Some _ => true | None => false end.

(** [d.get(key)]. *)
Definition py_get (d : Dict) (key : string) : JSON :=
  match dict_get key d with Some v => v | None => JNull end.

(** [d.get(key, default)]. *)
Definition py_get_default (d : Dict) (key : string) (default : JSON) : JSON :=
  match dict_get key d with Some v => v | None => default end.

(** [d[key] = v]: replaces in place, or appends a new key. *)
Fixpoint dict_set (key : string) (v : JSON) (d : Dict) : Dict :=
  match d with
  | [] => [(key, v)]
  | (k, v0) :: rest =>
      if String.eqb k key then (k, v) :: rest
      else (k, v0) :: dict_set key v rest
  end.

(** Truth value of a decoded JSON value. *)
Definition truthy (v : JSON) : bool :=
  match v with
  | JNull => false
  | JBool b => b
  | JInt z => negb (Z.eqb z 0)
  | JFloat f => negb (PrimFloat.eqb f 0%float)
  | JStr s => negb (String.eqb s "")
  | JList l => match l with [] => false | _ => true end
  | JObj d => match d with [] => false | _ => true end
  end.

(** [isinstance(v, int)] and the integer it stands for: [bool] is a
    subclass of [int], with [False == 0] and [True == 1]. *)
Definition py_int (v : JSON) : option Z :=
  match v with
  | JInt z => Some z
  | JBool b => Some (if b then 1%Z else 0%Z)
  | _ => None
  end.

(** [v == 1]. *)
Definition py_eq_one (v : JSON) : bool :=
  match v with
  | JInt z => Z.eqb z 1
  | JBool b => b
  | JFloat f => PrimFloat.eqb f 1%float
  | _ => false
  end.

(** What a [for] loop iterates over; [None] is the [TypeError] of a value
    that is not iterable. *)
Definition py_iter (v : JSON) : option (list JSON) :=
  match v with
  | JList l => Some l
  | JStr s => Some (map JStr (chars s))
  | JObj d => Some (map (fun kv => JStr (fst kv)) d)
  | _ => None
  end.

(** The text Python prints for floats and containers is not modelled; it is
    left to the run-time. *)
Class PyRepr := py_repr : JSON -> string.

(** [str(v)], as an f-string formats a value. *)
Definition py_str `{PyRepr} (v : JSON) : string :=
  match v with
  | JNull => "None"
  | JBool true => "True"
  | JBool false => "False"
  | JInt z => Z_to_string z
  | JStr s => s
  | _ => py_repr v
  end.

(* ================================================================= *)
(** ** Paths, after [pathlib.PurePosixPath] *)

Inductive Root : Type :=
| Rel    (* no root: a relative path *)
| Abs    (* "/" *)
| Abs2.  (* "//", which POSIX keeps apart *)

Record Path : Type := mkPath { root : Root; parts : list string }.

Definition root_eqb (a b : Root) : bool :=
  match a, b with
  | Rel, Rel | Abs, Abs | Abs2, Abs2 => true
  | _, _ => false
  end.

Definition root_of (s : string) : Root :=
  match s with
  | String c1 rest1 =>
      if Ascii.eqb c1 slash then
        match rest1 with
        | String c2 rest2 =>
            if Ascii.eqb c2 slash then
              match rest2 with
              | String c3 _ => if Ascii.eqb c3 slash then Abs else Abs2
              | EmptyString => Abs2
              end
            else Abs
        | EmptyString => Abs
        end
      else Rel
  | EmptyString => Rel
  end.

(** A part [pathlib] keeps: not empty and not ["."]. *)
Definition keep_part (s : string) : bool :=
  negb (String.eqb s "") && negb (String.eqb s ".").

(** [Path(s)]. *)
Definition parse_path (s : string) : Path :=
  mkPath (root_of s) (filter keep_part (split_slash s)).

(** [p / q] for two paths: an absolute right operand replaces the left. *)
Definition pjoin (p q : Path) : Path :=
  match root q with
  | Rel => mkPath (root p) (parts p ++ parts q)%list
  | _ => q
  end.

(** [p / s] for a path and a string. *)
Definition pdiv (p : Path) (s : string) : Path := pjoin p (parse_path s).

(** [p.name]. *)
Definition name (p : Path) : string := last (parts p) "".

(** [p.parent]. *)
Definition parent (p : Path) : Path := mkPath (root p) (removelast (parts p)).

Definition root_str (r : Root) : string :=
  match r with Rel => "" | Abs => "/" | Abs2 => "//" end.

(** [str(p)] and [p.as_posix()]. *)
Definition as_posix (p : Path) : string :=
  match root p, parts p with
  | Rel, [] => "."
  | r, ps => root_str r ++ join "/" ps
  end.

Fixpoint prefixb (p l : list string) : bool :=
  match p, l with
  | [], _ => true
  | x :: p', y :: l' => String.eqb x y && prefixb p' l'
  | _ :: _, [] => false
  end.

(** [p.relative_to(q)] returns (rather than raising [ValueError]). *)
Definition is_relative_to (p q : Path) : bool :=
  root_eqb (root p) (root q) && prefixb (parts q) (parts p).

(** A single path component. *)
Definition valid_part (s : string) : bool := keep_part s && negb (has_slash s).

Definition wf_path (p : Path) : Prop := Forall (fun s => valid_part s = true) (parts p).

(* ================================================================= *)
(** ** Results of a Python call *)

(** The exceptions the script can raise and never catches. *)
Inductive exn : Type :=
| TypeError   (* a value of the wrong kind: not iterable, not hashable, not subscriptable *)
| KeyError    (* a missing dictionary key *)
| OSError.    (* a failed file-system call *)

Inductive outcome (A : Type) : Type :=
| Ok (a : A)
| Invalid (msg : string)   (* raise ValidationError(msg) *)
| Crash (e : exn).

Arguments Ok {A} a.
Arguments Invalid {A} msg.
Arguments Crash {A} e.

Definition bind {A B : Type} (o : outcome A) (k : A -> outcome B) : outcome B :=
  match o with
  | Ok a => k a
  | Invalid msg => Invalid msg
  | Crash e => Crash e
  end.

Notation "x <- c ;; k" := (bind c (fun x => k))
  (at level 61, c at next level, right associativity).

(* ================================================================= *)
(** ** The file system *)

(** What opening and decoding the manifest file can give. *)
Inductive load_result : Type :=
| LoadNotFound                 (* FileNotFoundError *)
| LoadBadJson (diag : string)  (* json.JSONDecodeError, with its text *)
| LoadFailed                   (* any other error of open() or read() *)
| Loaded (data : JSON).

Class FileSystem (FS : Type) : Type := {
  (** [p.resolve()] *)
  fs_resolve : FS -> Path -> Path;
  (** [p.exists()] *)
  fs_exists : FS -> Path -> bool;
  (** [p.mkdir(parents=True, exist_ok=True)]; [None] when it raises *)
  fs_mkdir_p : FS -> Path -> option FS;
  (** [shutil.copy2(src, dest)]; [None] when it raises *)
  fs_copy2 : FS -> Path -> Path -> option FS;
  (** [json.load] of the file opened at [p] *)
  fs_load_json : FS -> Path -> load_result;
  (** [json.dump(doc, handle, indent=2)] and a newline into the file at [p] *)
  fs_write_json : FS -> Path -> JSON -> option FS
}.

(** [b] is [a] after some files and directories were added: paths resolve
    as before and whatever existed still exists. *)
Definition fs_le {FS} `{FileSystem FS} (a b : FS) : Prop :=
  (forall p, fs_resolve b p = fs_resolve a p) /\
  (forall p, fs_exists a p = true -> fs_exists b p = true).

(** Two file systems that resolve every path alike. *)
Definition same_resolve {FS} `{FileSystem FS} (a b : FS) : Prop :=
  forall p, fs_resolve a p = fs_resolve b p.

Class FileSystemLaws (FS : Type) `{FileSystem FS} : Prop := {
  mkdir_p_le : forall a p b, fs_mkdir_p a p = Some b -> fs_le a b;
  copy2_le : forall a src dest b, fs_copy2 a src dest = Some b -> fs_le a b;
  copy2_exists : forall a src dest b, fs_copy2 a src dest = Some b -> fs_exists b dest = true;
  write_json_le : forall a p doc b, fs_write_json a p doc = Some b -> fs_le a b;
  resolve_wf : forall a p, wf_path p -> wf_path (fs_resolve a p)
}.

(** What a run did, in program order. *)
Inductive event : Type :=
| EvValidate (module_def : JSON)      (* parse_module(module_def, ...) was called *)
| EvMkdir (dir : Path)
| EvCopy (src dest : Path)
| EvWrite (file : Path) (doc : JSON).

Record World (FS : Type) : Type := mkWorld { fs : FS; log : list event }.

Arguments mkWorld {FS} fs log.
Arguments fs {FS} w.
Arguments log {FS} w.

(* ================================================================= *)
(** ** The data model of the script *)

Definition MODULE_TYPES : list string := ["hull"; "wing"; "exhaust"; "interior"].

Record LodEntry : Type := mkLodEntry {
  level : JSON;
  mesh : Path;
  collision : option Path
}.

Record ModuleAsset : Type := mkModuleAsset {
  module_id : string;
  module_type : string;
  display_name : JSON;
  source : Dict;
  lods : list LodEntry;
  materials : list Path;
  thumbnails : list Path;
  extra_files : list Path
}.

(* ================================================================= *)
(** ** The validator *)

Section Validator.

Context {FS : Type} `{FileSystem FS} `{PyRepr}.

Definition manifest_not_found_msg (manifest_path : Path) : string :=
  "Manifest not found: " ++ as_posix manifest_path.

Definition manifest_bad_json_msg (diag : string) : string :=
  "Manifest JSON is invalid: " ++ diag.

Definition root_not_object_msg : string := "Manifest root must be an object".

Definition version_msg : string :=
  "Manifest version 1 expected. Update the pipeline if schema changes.".

Definition modules_msg : string := "Manifest requires a non-empty 'modules' array".

(** [read_manifest(manifest_path)] *)
Definition read_manifest (f : FS) (manifest_path : Path) : outcome JSON :=
  match fs_load_json f manifest_path with
  | LoadNotFound => Invalid (manifest_not_found_msg manifest_path)
  | LoadBadJson diag => Invalid (manifest_bad_json_msg diag)
  | LoadFailed => Crash OSError
  | Loaded data =>
      match data with
      | JObj d =>
          let version := py_get d "version" in
          if negb (py_eq_one version) then Invalid version_msg
          else
            match py_get d "modules" with
            | JList (_ :: _) => Ok data
            | _ => Invalid modules_msg
            end
      | _ => Invalid root_not_object_msg
      end
  end.

Definition invalid_path_msg (field module_id : string) : string :=
  "Module '" ++ module_id ++ "' has invalid " ++ field ++ ": expected string path".

Definition missing_file_msg (relative_path : Path) (field module_id : string) : string :=
  "Module '" ++ module_id ++ "' references missing file for " ++ field ++ ": "
    ++ as_posix relative_path.

Definition path_escape_msg (base_dir relative_path : Path) (field module_id : string) : string :=
  "Module '" ++ module_id ++ "' " ++ field ++ " must stay within " ++ as_posix base_dir
    ++ ". Got: " ++ as_posix relative_path.

(** [ensure_relative_path(base_dir, relative_str, field, module_id)] *)
Definition ensure_relative_path (f : FS) (base_dir : Path) (relative_str : JSON)
    (field module_id : string) : outcome Path :=
  match relative_str with
  | JStr s =>
      if String.eqb s "" then Invalid (invalid_path_msg field module_id)
      else
        let relative_path := parse_path s in
        let resolved := fs_resolve f (pjoin base_dir relative_path) in
        if negb (fs_exists f resolved) then
          Invalid (missing_file_msg relative_path field module_id)
        else if negb (is_relative_to resolved (fs_resolve f base_dir)) then
          Invalid (path_escape_msg base_dir relative_path field module_id)
        else Ok resolved
  | _ => Invalid (invalid_path_msg field module_id)
  end.

(** A [for] loop that resolves every entry of a list and appends the
    result (the loops over materials, thumbnails and extra files). *)
Fixpoint resolve_all (f : FS) (assets_dir : Path) (field module_id : string)
    (entries : list JSON) (acc : list Path) : outcome (list Path) :=
  match entries with
  | [] => Ok acc
  | entry :: rest =>
      p <- ensure_relative_path f assets_dir entry field module_id ;;
      resolve_all f assets_dir field module_id rest (acc ++ [p])%list
  end.

Definition missing_id_msg : string := "Module missing string 'id'".

Definition unsupported_type_msg (module_id : string) (module_type : JSON) : string :=
  "Module '" ++ module_id ++ "' has unsupported type '" ++ py_str module_type ++ "'."
    ++ " Allowed: ['exhaust', 'hull', 'interior', 'wing']".

Definition lods_required_msg (module_id : string) : string :=
  "Module '" ++ module_id ++ "' requires a non-empty 'lods' array".

Definition lod_not_object_msg (module_id : string) (idx : nat) : string :=
  "Module '" ++ module_id ++ "' LOD #" ++ nat_to_string idx ++ " must be an object".

Definition invalid_level_msg (module_id : string) (level : JSON) : string :=
  "Module '" ++ module_id ++ "' has invalid LOD level: " ++ py_str level.

Definition reused_level_msg (module_id : string) (level : JSON) : string :=
  "Module '" ++ module_id ++ "' reuses LOD level " ++ py_str level.

(** [module_id = defn.get("id")] and its check. *)
Definition check_module_id (defn : Dict) : outcome string :=
  match py_get defn "id" with
  | JStr s => if String.eqb s "" then Invalid missing_id_msg else Ok s
  | _ => Invalid missing_id_msg
  end.

(** [module_type not in MODULE_TYPES]: a list or an object is not hashable,
    and the membership test itself raises [TypeError]. *)
Definition check_module_type (module_id : string) (defn : Dict) : outcome string :=
  match py_get defn "type" with
  | JStr s =>
      if existsb (String.eqb s) MODULE_TYPES then Ok s
      else Invalid (unsupported_type_msg module_id (JStr s))
  | JList _ | JObj _ => Crash TypeError
  | other => Invalid (unsupported_type_msg module_id other)
  end.

(** [lod_raw = defn.get("lods")] and its check. *)
Definition check_lods_field (module_id : string) (defn : Dict) : outcome (list JSON) :=
  match py_get defn "lods" with
  | JList (lod :: rest) => Ok (lod :: rest)
  | _ => Invalid (lods_required_msg module_id)
  end.

(** One turn of the loop over [enumerate(lod_raw)]: the entry and the
    levels seen so far give the parsed entry and its level. *)
Definition parse_lod (f : FS) (assets_dir : Path) (module_id : string) (idx : nat)
    (lod : JSON) (seen_levels : list Z) : outcome (LodEntry * Z) :=
  match lod with
  | JObj fields =>
      let level := py_get fields "level" in
      match py_int level with
      | Some z =>
          if (z <? 0)%Z then Invalid (invalid_level_msg module_id level)
          else if existsb (Z.eqb z) seen_levels then
            Invalid (reused_level_msg module_id level)
          else
            mesh_path <- ensure_relative_path f assets_dir (py_get fields "mesh")
                           "mesh" module_id ;;
            collision_path <-
              (if truthy (py_get fields "collision") then
                 c <- ensure_relative_path f assets_dir (py_get fields "collision")
                        "collision" module_id ;;
                 Ok (Some c)
               else Ok None) ;;
            Ok (mkLodEntry level mesh_path collision_path, z)
      | None => Invalid (invalid_level_msg module_id level)
      end
  | _ => Invalid (lod_not_object_msg module_id idx)
  end.

Fixpoint parse_lods (f : FS) (assets_dir : Path) (module_id : string) (idx : nat)
    (lod_raw : list JSON) (lods : list LodEntry) (seen_levels : list Z)
    : outcome (list LodEntry) :=
  match lod_raw with
  | [] => Ok lods
  | lod :: rest =>
      r <- parse_lod f assets_dir module_id idx lod seen_levels ;;
      parse_lods f assets_dir module_id (S idx) rest
        (lods ++ [fst r])%list (snd r :: seen_levels)
  end.

(** [for x in defn.get(key, [])]: what the loop will run over. *)
Definition iter_field (defn : Dict) (key : string) : outcome (list JSON) :=
  match py_iter (py_get_default defn key (JList [])) with
  | Some entries => Ok entries
  | None => Crash TypeError
  end.

(** The thumbnails of a module: the list under ["thumbnails"], or else the
    legacy string under ["thumbnail"]. *)
Definition parse_thumbnails (f : FS) (assets_dir : Path) (module_id : string)
    (defn : Dict) : outcome (list Path) :=
  match py_get defn "thumbnails" with
  | JList thumb_field => resolve_all f assets_dir "thumbnail" module_id thumb_field []
  | _ =>
      match py_get defn "thumbnail" with
      | JStr s =>
          p <- ensure_relative_path f assets_dir (JStr s) "thumbnail" module_id ;;
          Ok [p]
      | _ => Ok []
      end
  end.

Definition module_not_object_msg : string := "Each module entry must be an object".

(** [parse_module(defn, assets_dir)] *)
Definition parse_module (f : FS) (defn : JSON) (assets_dir : Path) : outcome ModuleAsset :=
  match defn with
  | JObj d =>
      module_id <- check_module_id d ;;
      module_type <- check_module_type module_id d ;;
      let display_name := py_get_default d "displayName" (JStr module_id) in
      lod_raw <- check_lods_field module_id d ;;
      lods <- parse_lods f assets_dir module_id 0 lod_raw [] [] ;;
      material_entries <- iter_field d "materials" ;;
      materials <- resolve_all f assets_dir "materials" module_id material_entries [] ;;
      thumbnails <- parse_thumbnails f assets_dir module_id d ;;
      extra_entries <- iter_field d "extraFiles" ;;
      extra_files <- resolve_all f assets_dir "extraFiles" module_id extra_entries [] ;;
      Ok (mkModuleAsset module_id module_type display_name d lods materials
            thumbnails extra_files)
  | _ => Invalid module_not_object_msg
  end.

End Validator.

(* ================================================================= *)
(** ** The assembler *)

(** A call that may change the world: its result and the world it leaves,
    also when it raises. *)
Definition M (FS A : Type) : Type := World FS -> outcome A * World FS.

Definition ret {FS A : Type} (a : A) : M FS A := fun w => (Ok a, w).

Definition bindM {FS A B : Type} (c : M FS A) (k : A -> M FS B) : M FS B :=
  fun w =>
    match c w with
    | (Ok a, w') => k a w'
    | (Invalid msg, w') => (Invalid msg, w')
    | (Crash e, w') => (Crash e, w')
    end.

Notation "x <~ c ;; k" := (bindM c (fun x => k))
  (at level 61, c at next level, right associativity).

(** A pure result, raised or returned where the world stands. *)
Definition lift {FS A : Type} (o : outcome A) : M FS A := fun w => (o, w).

Definition record {FS : Type} (e : event) : M FS unit :=
  fun w => (Ok tt, mkWorld (fs w) (log w ++ [e])%list).

Record LoopState : Type := mkLoopState {
  modules_out : list JSON;
  errors : list string
}.

Definition OPTIONAL_KEYS : list string :=
  ["description"; "sockets"; "interiorAnchor"; "metrics"; "compatibleSockets";
   "mirrorOf"; "tags"; "dependencies"; "vfxHooks"].

Definition COMPILED_NAME : string := "ship_art_manifest.compiled.json".

Definition build_failed_msg (errors : list string) : string :=
  "Build failed with " ++ nat_to_string (List.length errors) ++ " error(s):"
    ++ String (ascii_of_nat 10) (join (String (ascii_of_nat 10) "") errors).

Section Assembler.

Context {FS : Type} `{FileSystem FS} `{PyRepr}.

(** [dir.mkdir(parents=True, exist_ok=True)] *)
Definition do_mkdir (dir : Path) : M FS unit :=
  fun w =>
    match fs_mkdir_p (fs w) dir with
    | Some f' => (Ok tt, mkWorld f' (log w ++ [EvMkdir dir])%list)
    | None => (Crash OSError, w)
    end.

(** [shutil.copy2(src, dest)] *)
Definition do_copy2 (src dest : Path) : M FS unit :=
  fun w =>
    match fs_copy2 (fs w) src dest with
    | Some f' => (Ok tt, mkWorld f' (log w ++ [EvCopy src dest])%list)
    | None => (Crash OSError, w)
    end.

(** Opening the compiled manifest for writing and dumping the document. *)
Definition do_write_json (file : Path) (doc : JSON) : M FS unit :=
  fun w =>
    match fs_write_json (fs w) file doc with
    | Some f' => (Ok tt, mkWorld f' (log w ++ [EvWrite file doc])%list)
    | None => (Crash OSError, w)
    end.

(** The loop of [copy_into_bundle]; [copied] is the list built so far. *)
Fixpoint copy_loop (files : list Path) (bundle_root target_subdir : Path)
    (dry_run : bool) (copied : list string) : M FS (list string) :=
  match files with
  | [] => ret copied
  | src :: rest =>
      let rel_target := pdiv target_subdir (name src) in
      let dest := pjoin bundle_root rel_target in
      _ <~ (if negb dry_run then
              _ <~ do_mkdir (parent dest) ;;
              do_copy2 src dest
            else ret tt) ;;
      copy_loop rest bundle_root target_subdir dry_run
        (copied ++ [as_posix rel_target])%list
  end.

(** [copy_into_bundle(files, bundle_root, target_subdir, dry_run)] *)
Definition copy_into_bundle (files : list Path) (bundle_root target_subdir : Path)
    (dry_run : bool) : M FS (list string) :=
  copy_loop files bundle_root target_subdir dry_run [].

(** The body of the loop over [module.lods]. *)
Definition emit_lod (module_target output_dir : Path) (dry_run : bool)
    (lod : LodEntry) : M FS JSON :=
  let files_to_copy :=
    (mesh lod :: match collision lod with Some c => [c] | None => [] end) in
  copied <~ copy_into_bundle files_to_copy output_dir
              (pdiv module_target ("lod_" ++ py_str (level lod))) dry_run ;;
  let lod_entry : Dict :=
    [("level", level lod); ("mesh", JStr (nth 0 copied ""))] in
  let lod_entry :=
    match collision lod with
    | Some _ => dict_set "collision" (JStr (nth 1 copied "")) lod_entry
    | None => lod_entry
    end in
  ret (JObj lod_entry).

Fixpoint emit_lods (module_target output_dir : Path) (dry_run : bool)
    (lods : list LodEntry) (lod_outputs : list JSON) : M FS (list JSON) :=
  match lods with
  | [] => ret lod_outputs
  | lod :: rest =>
      lod_entry <~ emit_lod module_target output_dir dry_run lod ;;
      emit_lods module_target output_dir dry_run rest (lod_outputs ++ [lod_entry])%list
  end.

(** The loop over the pass-through metadata keys. *)
Definition copy_optional_keys (source sanitized : Dict) : Dict :=
  fold_left
    (fun acc optional_key =>
       match dict_get optional_key source with
       | Some v => dict_set optional_key v acc
       | None => acc
       end)
    OPTIONAL_KEYS sanitized.

(** [if paths: sanitized[key] = paths] *)
Definition set_if_nonempty (key : string) (paths : list string) (sanitized : Dict) : Dict :=
  match paths with
  | [] => sanitized
  | _ => dict_set key (JList (map JStr paths)) sanitized
  end.

(** [Path("modules") / module.module_type / module.module_id] *)
Definition module_target_of (module : ModuleAsset) : Path :=
  pdiv (pdiv (parse_path "modules") (module_type module)) (module_id module).

(** What [build_bundle] does with a module that validated: the copies and
    the sanitized record. *)
Definition emit_module (module : ModuleAsset) (output_dir : Path) (dry_run : bool)
    : M FS JSON :=
  let module_target := module_target_of module in
  lod_outputs <~ emit_lods module_target output_dir dry_run (lods module) [] ;;
  materials_out <~ copy_into_bundle (materials module) output_dir
                     (pdiv module_target "materials") dry_run ;;
  thumbs_out <~ copy_into_bundle (thumbnails module) output_dir
                  (pdiv module_target "thumbnails") dry_run ;;
  extras_out <~ copy_into_bundle (extra_files module) output_dir
                  (pdiv module_target "extras") dry_run ;;
  let sanitized : Dict :=
    [("id", JStr (module_id module));
     ("type", JStr (module_type module));
     ("displayName", display_name module);
     ("lods", JList lod_outputs)] in
  let sanitized := copy_optional_keys (source module) sanitized in
  let sanitized := set_if_nonempty "materials" materials_out sanitized in
  let sanitized := set_if_nonempty "thumbnails" thumbs_out sanitized in
  let sanitized := set_if_nonempty "extraFiles" extras_out sanitized in
  ret (JObj sanitized).

(** The loop over [manifest["modules"]]: a [ValidationError] of
    [parse_module] is caught and recorded, anything else goes through. *)
Fixpoint build_loop (assets_dir output_dir : Path) (dry_run : bool)
    (module_defs : list JSON) (st : LoopState) : M FS LoopState :=
  match module_defs with
  | [] => ret st
  | module_def :: rest =>
      _ <~ record (EvValidate module_def) ;;
      fun w =>
        match parse_module (fs w) module_def assets_dir with
        | Invalid msg =>
            build_loop assets_dir output_dir dry_run rest
              (mkLoopState (modules_out st) (errors st ++ [msg])%list) w
        | Crash e => (Crash e, w)
        | Ok module =>
            (sanitized <~ emit_module module output_dir dry_run ;;
             build_loop assets_dir output_dir dry_run rest
               (mkLoopState (modules_out st ++ [sanitized])%list (errors st))) w
        end
  end.

(** [manifest[key]] *)
Definition py_getitem (manifest : JSON) (key : string) : outcome JSON :=
  match manifest with
  | JObj d => match dict_get key d with Some v => Ok v | None => Crash KeyError end
  | _ => Crash TypeError
  end.

(** The value and the iterator of [for module_def in manifest["modules"]]. *)
Definition manifest_modules (manifest : JSON) : outcome (list JSON) :=
  v <- py_getitem manifest "modules" ;;
  match py_iter v with
  | Some module_defs => Ok module_defs
  | None => Crash TypeError
  end.

(** [build_bundle(assets_dir, manifest, output_dir, dry_run)] *)
Definition build_bundle (assets_dir : Path) (manifest : JSON) (output_dir : Path)
    (dry_run : bool) : M FS JSON :=
  module_defs <~ lift (manifest_modules manifest) ;;
  st <~ build_loop assets_dir output_dir dry_run module_defs (mkLoopState [] []) ;;
  match errors st with
  | _ :: _ => lift (Invalid (build_failed_msg (errors st)))
  | [] =>
      version <~ lift (py_getitem manifest "version") ;;
      let compiled :=
        JObj [("version", version); ("generated", JBool true);
              ("modules", JList (modules_out st))] in
      _ <~ (if negb dry_run then
              _ <~ do_mkdir output_dir ;;
              do_write_json (pdiv output_dir COMPILED_NAME) compiled
            else ret tt) ;;
      ret compiled
  end.

(** The arguments [parse_args] hands to [main]. *)
Record Args : Type := mkArgs {
  arg_assets_dir : Path;
  arg_manifest : option Path;
  arg_output_dir : Path;
  arg_dry_run : bool
}.

(** [args.manifest or (assets_dir / "ship_art_manifest.json")] *)
Definition manifest_path_of (args : Args) : Path :=
  match arg_manifest args with
  | Some p => p
  | None => pdiv (arg_assets_dir args) "ship_art_manifest.json"
  end.

(** How [main] ends: an exit status with what it printed, or an exception
    nothing caught.  Each stream is the list of the texts of its [print]
    calls, in order; a text may span several lines. *)
Inductive main_result : Type :=
| Exit (status : Z) (stdout stderr : list string)
| Uncaught (e : exn).

Definition modules_count (compiled : JSON) : nat :=
  match compiled with
  | JObj d => match dict_get "modules" d with
              | Some (JList l) => List.length l
              | _ => 0
              end
  | _ => 0
  end.

(** [main(argv)], after [parse_args]. *)
Definition main (args : Args) (w : World FS) : main_result * World FS :=
  let assets_dir := arg_assets_dir args in
  let manifest_path := manifest_path_of args in
  match (manifest <~ lift (read_manifest (fs w) manifest_path) ;;
         build_bundle assets_dir manifest (arg_output_dir args) (arg_dry_run args)) w with
  | (Invalid msg, w') => (Exit 1 [] ["error: " ++ msg], w')
  | (Crash e, w') => (Uncaught e, w')
  | (Ok compiled, w') =>
      let packaged :=
        "Packaged " ++ nat_to_string (modules_count compiled) ++ " module(s) into "
          ++ as_posix (arg_output_dir args) in
      let last_line :=
        if arg_dry_run args then "Dry-run complete. No files were written."
        else "Wrote compiled manifest: "
               ++ as_posix (pdiv (arg_output_dir args) COMPILED_NAME) in
      (Exit 0 [packaged; last_line] [], w')
  end.

End Assembler.

(* ================================================================= *)
(** ** A symlink-free file system

    Nodes are keyed by their absolute, normalized parts; the root directory
    always exists.  Without symbolic links [resolve] is lexical: the working
    directory is prepended to a relative path and [".."] removes the part
    before it. *)

Inductive file_content : Type :=
| Bytes (b : string) (decode_error : string)
    (* a text that is no JSON text, with what the decoder says of it *)
| JsonText (doc : JSON).
    (* a JSON text, by what it decodes to *)

Inductive node : Type :=
| Dir
| File (content : file_content).

Record SimFS : Type := mkSimFS {
  cwd : list string;
  nodes : list (list string * node)
}.

Fixpoint parts_eqb (a b : list string) : bool :=
  match a, b with
  | [], [] => true
  | x :: a', y :: b' => String.eqb x y && parts_eqb a' b'
  | _, _ => false
  end.

Fixpoint assoc_lookup (key : list string) (l : list (list string * node)) : option node :=
  match l with
  | [] => None
  | (k, n) :: rest => if parts_eqb k key then Some n else assoc_lookup key rest
  end.

Definition sim_lookup (f : SimFS) (key : list string) : option node :=
  match key with
  | [] => Some Dir
  | _ => assoc_lookup key (nodes f)
  end.

Definition sim_update (f : SimFS) (key : list string) (n : node) : SimFS :=
  mkSimFS (cwd f) ((key, n) :: nodes f).

Fixpoint norm_parts (stack : list string) (todo : list string) : list string :=
  match todo with
  | [] => rev stack
  | p :: rest =>
      if String.eqb p ".." then norm_parts (tl stack) rest
      else norm_parts (p :: stack) rest
  end.

Definition sim_resolve (f : SimFS) (p : Path) : Path :=
  let start := match root p with Rel => cwd f | _ => [] end in
  mkPath Abs (norm_parts [] (filter valid_part (start ++ parts p)%list)).

Definition sim_key (f : SimFS) (p : Path) : list string := parts (sim_resolve f p).

Definition sim_exists (f : SimFS) (p : Path) : bool :=
  match sim_lookup f (sim_key f p) with Some _ => true | None => false end.

Fixpoint sim_mkdirs (f : SimFS) (done todo : list string) : option SimFS :=
  match todo with
  | [] => Some f
  | x :: rest =>
      let d := (done ++ [x])%list in
      match sim_lookup f d with
      | Some (File _) => None
      | Some Dir => sim_mkdirs f d rest
      | None => sim_mkdirs (sim_update f d Dir) d rest
      end
  end.

Definition sim_mkdir_p (f : SimFS) (p : Path) : option SimFS :=
  sim_mkdirs f [] (sim_key f p).

(** Writing a regular file at [target]: its directory must exist and
    [target] must not be a directory. *)
Definition sim_put_file (f : SimFS) (target : list string) (c : file_content)
    : option SimFS :=
  match target with
  | [] => None
  | _ =>
      match sim_lookup f target with
      | Some Dir => None
      | _ =>
          match sim_lookup f (removelast target) with
          | Some Dir => Some (sim_update f target (File c))
          | _ => None
          end
      end
  end.

Definition sim_copy2 (f : SimFS) (src dest : Path) : option SimFS :=
  match sim_lookup f (sim_key f src) with
  | Some (File c) =>
      let d := sim_key f dest in
      let target :=
        match sim_lookup f d with
        | Some Dir => (d ++ [name src])%list
        | _ => d
        end in
      if parts_eqb (sim_key f src) target then None
      else sim_put_file f target c
  | _ => None
  end.

(** Some directory on the way to [key] is a regular file. *)
Fixpoint through_file (f : SimFS) (done todo : list string) : bool :=
  match todo with
  | [] => false
  | x :: rest =>
      match sim_lookup f done with
      | Some (File _) => true
      | _ => through_file f (done ++ [x])%list rest
      end
  end.

(** [open] and [json.load]: a missing file is a FileNotFoundError, unless
    the path runs through a regular file (NotADirectoryError); a directory
    cannot be opened (IsADirectoryError). *)
Definition sim_load_json (f : SimFS) (p : Path) : load_result :=
  match sim_lookup f (sim_key f p) with
  | None => if through_file f [] (sim_key f p) then LoadFailed else LoadNotFound
  | Some Dir => LoadFailed
  | Some (File (Bytes _ decode_error)) => LoadBadJson decode_error
  | Some (File (JsonText doc)) => Loaded doc
  end.

Definition sim_write_json (f : SimFS) (p : Path) (doc : JSON) : option SimFS :=
  sim_put_file f (sim_key f p) (JsonText doc).

#[export] Instance SimFS_FileSystem : FileSystem SimFS := {
  fs_resolve := sim_resolve;
  fs_exists := sim_exists;
  fs_mkdir_p := sim_mkdir_p;
  fs_copy2 := sim_copy2;
  fs_load_json := sim_load_json;
  fs_write_json := sim_write_json
}.

(** For the examples: floats and containers print as a fixed marker. *)
Definition sim_repr : PyRepr := fun _ => "<value>".

(* ================================================================= *)
(** ** Definitions the properties are stated with *)

(** The top-level checks of the design document: the root is an object,
    the version equals 1, the modules are a non-empty list. *)
Definition toplevel_ok (data : JSON) : bool :=
  match data with
  | JObj d =>
      py_eq_one (py_get d "version")
      && match py_get d "modules" with JList (_ :: _) => true | _ => false end
  | _ => false
  end.

(** The message of the first top-level check that fails. *)
Definition toplevel_failure (data : JSON) : string :=
  match data with
  | JObj d => if py_eq_one (py_get d "version") then modules_msg else version_msg
  | _ => root_not_object_msg
  end.



(** The integer level of a raw LOD entry, when it has one. *)
Definition lod_level_of (lod : JSON) : option Z :=
  match lod with
  | JObj fields => py_int (py_get fields "level")
  | _ => None
  end.

(** What [ensure_relative_path] guarantees of a path it returned. *)
Definition resolved_within {FS} `{FileSystem FS} (f : FS) (assets p : Path) : Prop :=
  (exists s, p = fs_resolve f (pjoin assets (parse_path s)))
  /\ is_relative_to p (fs_resolve f assets) = true.

Definition lod_within {FS} `{FileSystem FS} (f : FS) (assets : Path) (lod : LodEntry)
    : Prop :=
  resolved_within f assets (mesh lod)
  /\ (forall c, collision lod = Some c -> resolved_within f assets c)
  /\ exists z, py_int (level lod) = Some z.

(** The destination string [copy_into_bundle] reports for [src]. *)
Definition dest_string (target_subdir src : Path) : string :=
  as_posix (pdiv target_subdir (name src)).

(** Where [copy_into_bundle] copies [src] to. *)
Definition dest_path (bundle_root target_subdir src : Path) : Path :=
  pjoin bundle_root (pdiv target_subdir (name src)).

Definition lod_target `{PyRepr} (module_target : Path) (lod : LodEntry) : Path :=
  pdiv module_target ("lod_" ++ py_str (level lod)).

Definition lod_files (lod : LodEntry) : list Path :=
  mesh lod :: match collision lod with Some c => [c] | None => [] end.

(** Every file a validated module refers to. *)
Definition module_files (m : ModuleAsset) : list Path :=
  (flat_map lod_files (lods m) ++ materials m ++ thumbnails m ++ extra_files m)%list.

(** The LOD entry of the compiled manifest, as a function of the LOD. *)
Definition lod_record `{PyRepr} (module_target : Path) (lod : LodEntry) : JSON :=
  let target := lod_target module_target lod in
  JObj ([("level", level lod); ("mesh", JStr (dest_string target (mesh lod)))]
        ++ match collision lod with
           | Some c => [("collision", JStr (dest_string target c))]
           | None => []
           end)%list.

(** The sanitized record of the compiled manifest, as a function of the
    validated module. *)
Definition sanitized_record `{PyRepr} (m : ModuleAsset) : JSON :=
  let module_target := module_target_of m in
  JObj
    (set_if_nonempty "extraFiles"
       (map (dest_string (pdiv module_target "extras")) (extra_files m))
       (set_if_nonempty "thumbnails"
          (map (dest_string (pdiv module_target "thumbnails")) (thumbnails m))
          (set_if_nonempty "materials"
             (map (dest_string (pdiv module_target "materials")) (materials m))
             (copy_optional_keys (source m)
                [("id", JStr (module_id m));
                 ("type", JStr (module_type m));
                 ("displayName", display_name m);
                 ("lods", JList (map (lod_record module_target) (lods m)))])))).

(** A relative path string in normal form: [Path(s)] is relative, has at
    least one part, and prints back as [s] (no empty or ["."] segment). *)
Definition normal_relative (s : string) : bool :=
  match parse_path s with
  | mkPath Rel (p :: ps) => String.eqb (join "/" (p :: ps)) s
  | _ => false
  end.

(** The layout of the design document:
    [modules/<type>/<id>/<subdirectory>/<basename>]. *)
Definition layout_string (ty id subdir base : string) : string :=
  "modules/" ++ ty ++ "/" ++ id ++ "/" ++ subdir ++ "/" ++ base.

Definition lod_layout `{PyRepr} (ty id : string) (lod : LodEntry) : JSON :=
  let subdir := "lod_" ++ py_str (level lod) in
  JObj ([("level", level lod);
         ("mesh", JStr (layout_string ty id subdir (name (mesh lod))))]
        ++ match collision lod with
           | Some c => [("collision", JStr (layout_string ty id subdir (name c)))]
           | None => []
           end)%list.

Definition layout_field (ty id subdir : string) (files : list Path) : option JSON :=
  match files with
  | [] => None
  | _ => Some (JList (map JStr (map (fun p => layout_string ty id subdir (name p)) files)))
  end.

Definition init_state : LoopState := mkLoopState [] [].

(** The module definitions [parse_module] was called on, in order. *)
Definition validated (evs : list event) : list JSON :=
  flat_map (fun e => match e with EvValidate d => [d] | _ => [] end) evs.

Definition is_validate (e : event) : bool :=
  match e with EvValidate _ => true | _ => false end.

(** The messages of the modules that fail validation, in order. *)
Definition failures {A : Type} (results : list (outcome A)) : list string :=
  flat_map (fun r => match r with Invalid msg => [msg] | _ => [] end) results.

(** An event of the module loop whose effect is still there in [f]: a copy
    whose destination exists.  The loop writes no manifest. *)
Definition ev_sound {FS} `{FileSystem FS} (f : FS) (e : event) : Prop :=
  match e with
  | EvCopy _ dest => fs_exists f dest = true
  | EvWrite _ _ => False
  | _ => True
  end.

(** What the module loop leaves behind: the file system only grew, every
    copy it made is still there, and it wrote no manifest. *)
Definition kept {FS} `{FileSystem FS} (f g : FS) (evs : list event) : Prop :=
  fs_le f g /\ Forall (ev_sound g) evs.

(** A call that returns, or fails with one of the exceptions [E]; it raises
    no ValidationError. *)
Definition raises_only {A : Type} (E : exn -> Prop) (r : outcome A) : Prop :=
  match r with
  | Ok _ => True
  | Invalid _ => False
  | Crash e => E e
  end.

(** Whatever a call does, it raises no ValidationError and no exception
    outside [E], it only appends to the log, and the file systems before
    and after and the events appended are related by [P]. *)
Definition run_inv {FS A : Type} (P : FS -> FS -> list event -> Prop) (E : exn -> Prop)
    (c : M FS A) : Prop :=
  forall w r w', c w = (r, w') ->
    raises_only E r /\ exists evs, log w' = (log w ++ evs)%list /\ P (fs w) (fs w') evs.

(** Whatever the first outcome returns, the second returns too. *)
Definition ok_le {A : Type} (o1 o2 : outcome A) : Prop :=
  forall a, o1 = Ok a -> o2 = Ok a.

(** Two outcomes that return the same value whenever both return. *)
Definition ok_agree {A : Type} (o1 o2 : outcome A) : Prop :=
  forall a b, o1 = Ok a -> o2 = Ok b -> a = b.

(** [b] has the working directory of [a] and at least its nodes. *)
Definition sim_le (a b : SimFS) : Prop :=
  cwd b = cwd a /\ forall k, sim_lookup a k <> None -> sim_lookup b k <> None.

(* ================================================================= *)
(** ** Example data *)

(** What [json.load] says of a text whose first character starts no JSON
    value. *)
Definition no_value_msg : string := "Expecting value: line 1 column 1 (char 0)".

(** A project directory with an asset folder, and a file beside it. *)
Definition demo_fs : SimFS :=
  mkSimFS ["proj"]
    [ (["proj"], Dir);
      (["proj"; "assets"], Dir);
      (["proj"; "assets"; "a.obj"], File (Bytes "mesh a" no_value_msg));
      (["proj"; "assets"; "a.col"], File (Bytes "collision a" no_value_msg));
      (["proj"; "assets"; "b.obj"], File (Bytes "mesh b" no_value_msg));
      (["proj"; "assets"; "m.mat"], File (Bytes "material" no_value_msg));
      (["proj"; "assets"; "t.png"], File (Bytes "thumbnail" no_value_msg));
      (["proj"; "assets"; "old.png"], File (Bytes "legacy thumbnail" no_value_msg));
      (["proj"; "secret.txt"], File (Bytes "secret" no_value_msg)) ].

Definition demo_assets : Path := parse_path "assets".
Definition demo_out : Path := parse_path "build/ship_art".
Definition demo_world : World SimFS := mkWorld demo_fs [].

Definition demo_args (dry_run : bool) : Args :=
  mkArgs demo_assets None demo_out dry_run.

(** An empty file system whose working directory is the root. *)
Definition root_fs : SimFS := mkSimFS [] [].

Definition manifest_of (module_defs : list JSON) : JSON :=
  JObj [("version", JInt 1); ("modules", JList module_defs)].

(** A manifest of another version, stored where [main] looks for it. *)
Definition manifest_v2 : JSON :=
  JObj [("version", JInt 2);
        ("modules", JList [JObj [("id", JStr "hull_a"); ("type", JStr "hull")]])].

Definition demo_fs_v2 : SimFS :=
  sim_update demo_fs ["proj"; "assets"; "ship_art_manifest.json"]
    (File (JsonText manifest_v2)).



(** The hull module of the design document's first scenario: two LODs, a
    collision mesh, a material, pass-through metadata, and neither
    thumbnails nor extra files; and what it validates to. *)
Definition core_hull_defn : Dict :=
  [("id", JStr "core_hull_a"); ("type", JStr "hull");
   ("displayName", JStr "Core hull A");
   ("lods",
    JList [JObj [("level", JInt 0); ("mesh", JStr "a.obj"); ("collision", JStr "a.col")];
           JObj [("level", JInt 1); ("mesh", JStr "b.obj")]]);
   ("materials", JList [JStr "m.mat"]);
   ("tags", JList [JStr "starter"]); ("secret", JBool true)].

Definition core_hull_a : ModuleAsset :=
  mkModuleAsset "core_hull_a" "hull" (JStr "Core hull A") core_hull_defn
    [mkLodEntry (JInt 0) (mkPath Abs ["proj"; "assets"; "a.obj"])
       (Some (mkPath Abs ["proj"; "assets"; "a.col"]));
     mkLodEntry (JInt 1) (mkPath Abs ["proj"; "assets"; "b.obj"]) None]
    [mkPath Abs ["proj"; "assets"; "m.mat"]]
    [] [].

(** Modules for the aggregation of failures: one without id, one with a
    null ["materials"], one that is fine, one whose mesh is missing. *)
Definition module_without_id : JSON := JObj [("type", JStr "hull")].

Definition module_null_materials : JSON :=
  JObj [("id", JStr "wing_a"); ("type", JStr "wing");
        ("lods", JList [JObj [("level", JInt 0); ("mesh", JStr "a.obj")]]);
        ("materials", JNull)].

Definition module_fine : JSON :=
  JObj [("id", JStr "hull_b"); ("type", JStr "hull");
        ("lods", JList [JObj [("level", JInt 0); ("mesh", JStr "b.obj")]])].

Definition module_missing_mesh : JSON :=
  JObj [("id", JStr "hull_c"); ("type", JStr "hull");
        ("lods", JList [JObj [("level", JInt 0); ("mesh", JStr "nowhere.obj")]])].

(** A real build of a valid module followed by one whose mesh is missing. *)
Definition failing_real_run : outcome JSON * World SimFS :=
  @build_bundle SimFS _ sim_repr demo_assets
    (manifest_of [module_fine; module_missing_mesh]) demo_out false demo_world.

(** A valid one-module manifest, built dry and for real. *)
Definition ok_dry_run : outcome JSON * World SimFS :=
  @build_bundle SimFS _ sim_repr demo_assets (manifest_of [module_fine]) demo_out
    true demo_world.

Definition ok_real_run : outcome JSON * World SimFS :=
  @build_bundle SimFS _ sim_repr demo_assets (manifest_of [module_fine]) demo_out
    false demo_world.

Definition ok_compiled : JSON :=
  JObj [("version", JInt 1); ("generated", JBool true);
        ("modules",
         JList [JObj [("id", JStr "hull_b"); ("type", JStr "hull");
                      ("displayName", JStr "hull_b");
                      ("lods",
                       JList [JObj [("level", JInt 0);
                                    ("mesh", JStr "modules/hull/hull_b/lod_0/b.obj")]])]])].

(** A module whose mesh reference is the asset directory itself, and what
    the dry run reports for it. *)
Definition module_dir_mesh : JSON :=
  JObj [("id", JStr "hull_d"); ("type", JStr "hull");
        ("lods", JList [JObj [("level", JInt 0); ("mesh", JStr ".")]])].

Definition dir_mesh_compiled : JSON :=
  JObj [("version", JInt 1); ("generated", JBool true);
        ("modules",
         JList [JObj [("id", JStr "hull_d"); ("type", JStr "hull");
                      ("displayName", JStr "hull_d");
                      ("lods",
                       JList [JObj [("level", JInt 0);
                                    ("mesh", JStr "modules/hull/hull_d/lod_0/assets")]])]])].

(** Two modules with the same id and the same type. *)
Definition dup_first : JSON :=
  JObj [("id", JStr "dup"); ("type", JStr "hull");
        ("lods", JList [JObj [("level", JInt 0); ("mesh", JStr "a.obj")]])].

Definition dup_second : JSON :=
  JObj [("id", JStr "dup"); ("type", JStr "hull");
        ("lods", JList [JObj [("level", JInt 0); ("mesh", JStr "b.obj")]])].

(** What the two validate to in [demo_fs]. *)
Definition dup_first_asset : ModuleAsset :=
  mkModuleAsset "dup" "hull" (JStr "dup")
    [("id", JStr "dup"); ("type", JStr "hull");
     ("lods", JList [JObj [("level", JInt 0); ("mesh", JStr "a.obj")]])]
    [mkLodEntry (JInt 0) (mkPath Abs ["proj"; "assets"; "a.obj"]) None] [] [] [].

Definition dup_second_asset : ModuleAsset :=
  mkModuleAsset "dup" "hull" (JStr "dup")
    [("id", JStr "dup"); ("type", JStr "hull");
     ("lods", JList [JObj [("level", JInt 0); ("mesh", JStr "b.obj")]])]
    [mkLodEntry (JInt 0) (mkPath Abs ["proj"; "assets"; "b.obj"]) None] [] [] [].

Definition dup_compiled : JSON :=
  JObj [("version", JInt 1); ("generated", JBool true);
        ("modules",
         JList [JObj [("id", JStr "dup"); ("type", JStr "hull");
                      ("displayName", JStr "dup");
                      ("lods",
                       JList [JObj [("level", JInt 0);
                                    ("mesh", JStr "modules/hull/dup/lod_0/a.obj")]])];
                JObj [("id", JStr "dup"); ("type", JStr "hull");
                      ("displayName", JStr "dup");
                      ("lods",
                       JList [JObj [("level", JInt 0);
                                    ("mesh", JStr "modules/hull/dup/lod_0/b.obj")]])]])].

(** A module with level 0 twice whose first mesh is missing, one with
    level 0 twice whose type is a list, and one with level 0 twice and
    nothing else wrong. *)
Definition dup_level_missing_mesh : JSON :=
  JObj [("id", JStr "hull_e"); ("type", JStr "hull");
        ("lods", JList [JObj [("level", JInt 0); ("mesh", JStr "nowhere.obj")];
                        JObj [("level", JInt 0); ("mesh", JStr "a.obj")]])].

Definition dup_level_list_type : JSON :=
  JObj [("id", JStr "hull_f"); ("type", JList [JStr "hull"]);
        ("lods", JList [JObj [("level", JInt 0); ("mesh", JStr "a.obj")];
                        JObj [("level", JInt 0); ("mesh", JStr "b.obj")]])].

Definition dup_level_defn : Dict :=
  [("id", JStr "hull_g"); ("type", JStr "hull");
   ("lods", JList [JObj [("level", JInt 0); ("mesh", JStr "a.obj")];
                   JObj [("level", JInt 1); ("mesh", JStr "b.obj")];
                   JObj [("level", JInt 0); ("mesh", JStr "b.obj")]])].

(** A module whose id is an absolute path, and what the dry run reports
    for it. *)
Definition module_abs_id : JSON :=
  JObj [("id", JStr "/tmp/evil"); ("type", JStr "hull");
        ("lods", JList [JObj [("level", JInt 0); ("mesh", JStr "a.obj")]])].

Definition abs_id_compiled : JSON :=
  JObj [("version", JInt 1); ("generated", JBool true);
        ("modules",
         JList [JObj [("id", JStr "/tmp/evil"); ("type", JStr "hull");
                      ("displayName", JStr "/tmp/evil");
                      ("lods",
                       JList [JObj [("level", JInt 0);
                                    ("mesh", JStr "/tmp/evil/lod_0/a.obj")]])]])].

(* ================================================================= *)
(** ** Definitions for the further properties *)

(** How a raw LOD entry and the entry parsed from it are related. *)
Definition lod_parsed {FS} `{FileSystem FS} (f : FS) (assets : Path) (mid : string)
    (raw : JSON) (entry : LodEntry) : Prop :=
  exists fields,
    raw = JObj fields
    /\ level entry = py_get fields "level"
    /\ ensure_relative_path f assets (py_get fields "mesh") "mesh" mid = Ok (mesh entry)
    /\ (if truthy (py_get fields "collision")
        then exists c, collision entry = Some c
                       /\ ensure_relative_path f assets (py_get fields "collision")
                            "collision" mid = Ok c
        else collision entry = None).

(** Values Python can hash, and so look up in a set. *)
Definition hashable (v : JSON) : bool :=
  match v with
  | JList _ | JObj _ => false
  | _ => true
  end.

(** The events of copying [files] under [target_subdir] in a real run. *)
Definition copy_events (bundle_root target_subdir : Path) (files : list Path)
    : list event :=
  flat_map (fun src =>
              [EvMkdir (parent (dest_path bundle_root target_subdir src));
               EvCopy src (dest_path bundle_root target_subdir src)]) files.

(** A module definition with everything: two LODs (one with a collision
    mesh), a material, a thumbnail list, an extra file. *)
Definition full_defn : Dict :=
  [("id", JStr "wing_full"); ("type", JStr "wing");
   ("lods",
    JList [JObj [("level", JInt 2); ("mesh", JStr "a.obj"); ("collision", JStr "a.col")];
           JObj [("level", JInt 0); ("mesh", JStr "b.obj"); ("collision", JStr "")]]);
   ("materials", JList [JStr "m.mat"]);
   ("thumbnails", JList [JStr "t.png"; JStr "old.png"]);
   ("extraFiles", JList [JStr "a.col"])].

Definition full_asset : ModuleAsset :=
  mkModuleAsset "wing_full" "wing" (JStr "wing_full") full_defn
    [mkLodEntry (JInt 2) (mkPath Abs ["proj"; "assets"; "a.obj"])
       (Some (mkPath Abs ["proj"; "assets"; "a.col"]));
     mkLodEntry (JInt 0) (mkPath Abs ["proj"; "assets"; "b.obj"]) None]
    [mkPath Abs ["proj"; "assets"; "m.mat"]]
    [mkPath Abs ["proj"; "assets"; "t.png"]; mkPath Abs ["proj"; "assets"; "old.png"]]
    [mkPath Abs ["proj"; "assets"; "a.col"]].

(** Every ValidationError of [o] starts with ["Module '<mid>'"]. *)
Definition names_module {A : Type} (mid : string) (o : outcome A) : Prop :=
  forall msg, o = Invalid msg -> exists rest, msg = "Module '" ++ mid ++ "'" ++ rest.

(** A module whose materials are a number. *)
Definition module_numeric_materials : Dict :=
  [("id", JStr "hull_n"); ("type", JStr "hull");
   ("lods", JList [JObj [("level", JInt 0); ("mesh", JStr "a.obj")]]);
   ("materials", JInt 5)].

(** The part of [build_bundle] that follows the loop over the modules. *)
Definition finish_bundle {FS} `{FileSystem FS} (manifest : JSON) (output_dir : Path)
    (dry_run : bool) (st : LoopState) : M FS JSON :=
  match errors st with
  | _ :: _ => lift (Invalid (build_failed_msg (errors st)))
  | [] =>
      version <~ lift (py_getitem manifest "version") ;;
      let compiled :=
        JObj [("version", version); ("generated", JBool true);
              ("modules", JList (modules_out st))] in
      _ <~ (if negb dry_run then
              _ <~ do_mkdir output_dir ;;
              do_write_json (pdiv output_dir COMPILED_NAME) compiled
            else ret tt) ;;
      ret compiled
  end.

Definition is_write (e : event) : bool :=
  match e with EvWrite _ _ => true | _ => false end.

(** The demo file system with a manifest of two valid modules where [main]
    looks for it, and one whose second module has numeric materials. *)
Definition demo_manifest : JSON := manifest_of [module_fine; JObj full_defn].

Definition demo_fs_ok : SimFS :=
  sim_update demo_fs ["proj"; "assets"; "ship_art_manifest.json"]
    (File (JsonText demo_manifest)).

Definition demo_world_ok : World SimFS := mkWorld demo_fs_ok [].

Definition demo_fs_crash : SimFS :=
  sim_update demo_fs ["proj"; "assets"; "ship_art_manifest.json"]
    (File (JsonText (manifest_of [module_fine; JObj module_numeric_materials]))).

Definition demo_dry_main : main_result * World SimFS :=
  @main SimFS _ sim_repr (demo_args true) demo_world_ok.

Definition demo_real_main : main_result * World SimFS :=
  @main SimFS _ sim_repr (demo_args false) demo_world_ok.

Definition demo_real_build : outcome JSON * World SimFS :=
  @build_bundle SimFS _ sim_repr demo_assets demo_manifest demo_out false demo_world_ok.

(** What the real build of the demo manifest returns. *)
Definition demo_compiled : JSON :=
  match fst demo_real_build with Ok c => c | _ => JNull end.

(** Copying the two files of a LOD into the bundle. *)
Definition demo_lod_target : Path := parse_path "modules/hull/hull_a/lod_0".

Definition demo_lod_sources : list Path :=
  [mkPath Abs ["proj"; "assets"; "a.obj"]; mkPath Abs ["proj"; "assets"; "a.col"]].

Definition demo_copy : outcome (list string) * World SimFS :=
  @copy_into_bundle SimFS _ demo_lod_sources demo_out demo_lod_target false demo_world.

(** What [module_fine] validates to in [demo_fs]. *)
Definition module_fine_defn : Dict :=
  [("id", JStr "hull_b"); ("type", JStr "hull");
   ("lods", JList [JObj [("level", JInt 0); ("mesh", JStr "b.obj")]])].

Definition module_fine_asset : ModuleAsset :=
  mkModuleAsset "hull_b" "hull" (JStr "hull_b") module_fine_defn
    [mkLodEntry (JInt 0) (mkPath Abs ["proj"; "assets"; "b.obj"]) None] [] [] [].

(** The keys a record of the compiled manifest can have. *)
Definition RECORD_KEYS : list string :=
  ["id"; "type"; "displayName"; "lods"; "materials"; "thumbnails"; "extraFiles";
   "description"; "sockets"; "interiorAnchor"; "metrics"; "compatibleSockets";
   "mirrorOf"; "tags"; "dependencies"; "vfxHooks"].

(** A module whose second LOD entry is a string. *)
Definition lod_string_defn : Dict :=
  [("id", JStr "hull_s"); ("type", JStr "hull");
   ("lods", JList [JObj [("level", JInt 0); ("mesh", JStr "a.obj")]; JStr "b.obj"])].

(** The letter e with an acute accent, U+00E9: two bytes in UTF-8. *)
Definition e_acute : string :=
  String (ascii_of_nat 195) (String (ascii_of_nat 169) EmptyString).

(** Two files with one-character names, and a module whose materials are
    the string of the two characters. *)
Definition demo_fs_chars : SimFS :=
  sim_update
    (sim_update demo_fs ["proj"; "assets"; "m"] (File (Bytes "material" no_value_msg)))
    ["proj"; "assets"; e_acute] (File (Bytes "material" no_value_msg)).

Definition string_materials_defn : Dict :=
  [("id", JStr "hull_m"); ("type", JStr "hull");
   ("lods", JList [JObj [("level", JInt 0); ("mesh", JStr "a.obj")]]);
   ("materials", JStr (e_acute ++ "m"))].

Definition string_materials_asset : ModuleAsset :=
  mkModuleAsset "hull_m" "hull" (JStr "hull_m") string_materials_defn
    [mkLodEntry (JInt 0) (mkPath Abs ["proj"; "assets"; "a.obj"]) None]
    [mkPath Abs ["proj"; "assets"; e_acute]; mkPath Abs ["proj"; "assets"; "m"]] [] [].

(** The record of the hull module of the first scenario, built dry. *)
Definition core_hull_record : JSON :=
  match fst (@emit_module SimFS _ sim_repr core_hull_a demo_out true demo_world) with
  | Ok rec => rec
  | _ => JNull
  end.

(** A module that carries every pass-through key, one of them with a null
    value, and a key of its own; and what it validates to in [demo_fs]. *)
Definition passthrough_defn : Dict :=
  [("id", JStr "wing_p"); ("type", JStr "wing");
   ("lods", JList [JObj [("level", JInt 0); ("mesh", JStr "a.obj")]]);
   ("description", JStr "Port wing");
   ("sockets", JList [JObj [("name", JStr "root")]]);
   ("interiorAnchor", JObj [("x", JInt 0); ("y", JInt 2)]);
   ("metrics", JObj [("mass", JInt 12)]);
   ("compatibleSockets", JList [JStr "wing_root"]);
   ("mirrorOf", JNull);
   ("tags", JList [JStr "starter"; JStr "wing"]);
   ("dependencies", JList []);
   ("vfxHooks", JBool false);
   ("secret", JBool true)].

Definition passthrough_asset : ModuleAsset :=
  mkModuleAsset "wing_p" "wing" (JStr "wing_p") passthrough_defn
    [mkLodEntry (JInt 0) (mkPath Abs ["proj"; "assets"; "a.obj"]) None] [] [] [].

(** The demo file system with a manifest whose second module refers to a
    missing mesh, and the real run of [main] on it. *)
Definition demo_fs_failing : SimFS :=
  sim_update demo_fs ["proj"; "assets"; "ship_art_manifest.json"]
    (File (JsonText (manifest_of [module_fine; module_missing_mesh]))).

Definition demo_world_failing : World SimFS := mkWorld demo_fs_failing [].

Definition demo_failing_main : main_result * World SimFS :=
  @main SimFS _ sim_repr (demo_args false) demo_world_failing.

Definition demo_failing_msg : string :=
  build_failed_msg ["Module 'hull_c' references missing file for mesh: nowhere.obj"].

(* ================================================================= *)
(** * Properties *)

(* ================================================================= *)
(** ** The path model on a few strings *)

Example version_check :
  py_eq_one (JInt 1) = true /\ py_eq_one (JBool true) = true
  /\ py_eq_one (JInt 0) = false /\ py_eq_one (JInt 2) = false
  /\ py_eq_one (JInt 3) = false /\ py_eq_one (JInt (-1)) = false
  /\ py_eq_one (JStr "1") = false /\ py_eq_one JNull = false
  /\ py_eq_one (JBool false) = false.
Proof. repeat split. Qed.

Example script_constants :
  MODULE_TYPES = ["hull"; "wing"; "exhaust"; "interior"]
  /\ OPTIONAL_KEYS = ["description"; "sockets"; "interiorAnchor"; "metrics";
                      "compatibleSockets"; "mirrorOf"; "tags"; "dependencies";
                      "vfxHooks"]
  /\ COMPILED_NAME = "ship_art_manifest.compiled.json".
Proof. repeat split. Qed.

Example chars_ascii : chars "a.b" = ["a"; "."; "b"].
Proof. reflexivity. Qed.

Example chars_code_points :
  chars ("a" ++ e_acute ++ "b") = ["a"; e_acute; "b"]
  /\ List.length (chars (e_acute ++ e_acute)) = 2
  /\ List.length
       (chars (String (ascii_of_nat 226)
                 (String (ascii_of_nat 130) (String (ascii_of_nat 172) "x")))) = 2.
Proof. repeat split. Qed.

Example parse_path_collapses :
  parse_path "a//b/./c/" = mkPath Rel ["a"; "b"; "c"].
Proof. reflexivity. Qed.

Example parse_path_keeps_dotdot :
  parse_path "../../secrets/file" = mkPath Rel [".."; ".."; "secrets"; "file"].
Proof. reflexivity. Qed.

Example parse_path_roots :
  root (parse_path "/a") = Abs /\ root (parse_path "//a") = Abs2
  /\ root (parse_path "///a") = Abs.
Proof. repeat split. Qed.

Example pjoin_absolute_replaces :
  as_posix (pdiv (pdiv (parse_path "modules") "hull") "/tmp/evil") = "/tmp/evil".
Proof. reflexivity. Qed.

Example as_posix_empty : as_posix (parse_path "") = ".".
Proof. reflexivity. Qed.

Example level_strings :
  Z_to_string 0 = "0" /\ Z_to_string 12 = "12" /\ Z_to_string (-3) = "-3"
  /\ @py_str sim_repr (JBool true) = "True".
Proof. repeat split. Qed.

Example sim_resolve_is_lexical :
  sim_resolve demo_fs (parse_path "assets/../../x/./y") = mkPath Abs ["x"; "y"].
Proof. reflexivity. Qed.

(* ================================================================= *)
(** ** Path containment *)

Section PathResolver.

Context {FS : Type} `{FileSystem FS}.

(** What [ensure_relative_path] returns is the resolved reference; it
    exists and lies within the resolved base directory. *)
Lemma ensure_relative_path_ok (f : FS) base v field mid p :
  ensure_relative_path f base v field mid = Ok p ->
  exists s, v = JStr s /\ s <> "" /\
    p = fs_resolve f (pjoin base (parse_path s)) /\
    fs_exists f p = true /\
    is_relative_to p (fs_resolve f base) = true.
Proof.
  unfold ensure_relative_path.
  destruct v as [| | | |s| |]; try discriminate.
  destruct (String.eqb_spec s ""); try discriminate.
  destruct (fs_exists f _) eqn:Ex; simpl; try discriminate.
  destruct (is_relative_to _ _) eqn:Rl; simpl; try discriminate.
  intros [= <-]. exists s. repeat split; assumption.
Qed.

(** C1, as the code has it: in a call where [resolve()] and [exists()]
    return (a probe that raises is outside this model, and its exception
    escapes [ensure_relative_path]), a non-empty reference that resolves
    outside the resolved asset root is rejected with a ValidationError, and
    the failure is the "must stay within" one exactly when the resolved
    target exists; when the target does not exist the existence check,
    which comes first, answers with "references missing file". *)
Theorem escaping_reference_rejected (f : FS) (base : Path) (s field mid : string) :
  s <> "" ->
  is_relative_to (fs_resolve f (pjoin base (parse_path s))) (fs_resolve f base) = false ->
  ensure_relative_path f base (JStr s) field mid =
    Invalid (if fs_exists f (fs_resolve f (pjoin base (parse_path s)))
             then path_escape_msg base (parse_path s) field mid
             else missing_file_msg (parse_path s) field mid).
Proof.
  intros Hs Hout. unfold ensure_relative_path.
  destruct (String.eqb_spec s ""); [contradiction|].
  destruct (fs_exists f _); simpl; [|reflexivity].
  rewrite Hout. reflexivity.
Qed.

End PathResolver.

(** An existing file outside the asset root: the "must stay within" failure. *)
Lemma escaping_reference_rejected_witness :
  ensure_relative_path demo_fs demo_assets (JStr "../secret.txt") "mesh" "hull_a"
  = Invalid "Module 'hull_a' mesh must stay within assets. Got: ../secret.txt".
Proof.
  exact (escaping_reference_rejected demo_fs demo_assets "../secret.txt" "mesh" "hull_a"
           ltac:(discriminate) ltac:(reflexivity)).
Defined.

(** A traversal to a file that does not exist resolves outside the asset
    root, and the failure is "references missing file", not the
    "must stay within" one. *)
Lemma escaping_missing_target_counterexample :
  is_relative_to
    (fs_resolve demo_fs (pjoin demo_assets (parse_path "../../secrets/file")))
    (fs_resolve demo_fs demo_assets) = false
  /\ fs_exists demo_fs
       (fs_resolve demo_fs (pjoin demo_assets (parse_path "../../secrets/file"))) = false
  /\ ensure_relative_path demo_fs demo_assets (JStr "../../secrets/file") "mesh" "hull_a"
     = Invalid "Module 'hull_a' references missing file for mesh: ../../secrets/file".
Proof. repeat split; reflexivity. Qed.

(* ================================================================= *)
(** ** Top-level manifest checks *)

Section TopLevel.

Context {FS : Type} `{FileSystem FS} `{PyRepr}.

Lemma read_manifest_loaded (f : FS) (p : Path) (data : JSON) :
  fs_load_json f p = Loaded data ->
  read_manifest f p =
    if toplevel_ok data then Ok data else Invalid (toplevel_failure data).
Proof.
  intros Hload. unfold read_manifest. rewrite Hload.
  destruct data as [| | | | | |d]; try reflexivity.
  unfold toplevel_ok, toplevel_failure.
  destruct (py_eq_one (py_get d "version")); simpl; [|reflexivity].
  destruct (py_get d "modules") as [| | | | |[|m ms]|]; reflexivity.
Qed.

(** C6: the top-level checks (root is an object, version equals 1, modules
    is a non-empty list) are made by [read_manifest], which looks at no
    module definition; when one fails, a single ValidationError carrying the
    message of the first failing check is raised, [main] ends with status 1,
    and the world is left as it was: no [parse_module] call, no file
    operation. *)
Theorem toplevel_failure_aborts (f : FS) (p : Path) (data : JSON) :
  fs_load_json f p = Loaded data ->
  toplevel_ok data = false ->
  read_manifest f p = Invalid (toplevel_failure data)
  /\ In (toplevel_failure data) [root_not_object_msg; version_msg; modules_msg]
  /\ forall (args : Args) (w : World FS),
       fs w = f -> manifest_path_of args = p ->
       main args w = (Exit 1 [] ["error: " ++ toplevel_failure data], w).
Proof.
  intros Hload Hbad.
  pose proof (read_manifest_loaded f p data Hload) as Hrm. rewrite Hbad in Hrm.
  split; [exact Hrm|]. split.
  - unfold toplevel_failure. destruct data; simpl; auto.
    destruct (py_eq_one _); simpl; auto.
  - intros args w Hf Hp. unfold main, bindM, lift. rewrite Hp, Hf, Hrm. reflexivity.
Qed.

End TopLevel.

(** A manifest of version 2: rejected with the version message although its
    module list is there, and nothing is validated or written. *)
Lemma toplevel_failure_aborts_witness :
  read_manifest demo_fs_v2 (manifest_path_of (demo_args false))
    = Invalid (toplevel_failure manifest_v2)
  /\ In (toplevel_failure manifest_v2) [root_not_object_msg; version_msg; modules_msg]
  /\ forall (args : Args) (w : World SimFS),
       fs w = demo_fs_v2 -> manifest_path_of args = manifest_path_of (demo_args false) ->
       @main SimFS _ sim_repr args w
         = (Exit 1 [] ["error: " ++ toplevel_failure manifest_v2], w).
Proof.
  apply (@toplevel_failure_aborts SimFS _ sim_repr demo_fs_v2
           (manifest_path_of (demo_args false)) manifest_v2); reflexivity.
Defined.

(* ================================================================= *)
(** ** The two thumbnail fields *)

Section Thumbnails.

Context {FS : Type} `{FileSystem FS} `{PyRepr}.

(** What [parse_module] returns, field by field. *)
Lemma parse_module_ok (f : FS) (defn : JSON) (assets : Path) (m : ModuleAsset) :
  parse_module f defn assets = Ok m ->
  exists d lod_raw material_entries extra_entries,
    defn = JObj d /\ source m = d
    /\ check_module_id d = Ok (module_id m)
    /\ check_module_type (module_id m) d = Ok (module_type m)
    /\ display_name m = py_get_default d "displayName" (JStr (module_id m))
    /\ check_lods_field (module_id m) d = Ok lod_raw
    /\ parse_lods f assets (module_id m) 0 lod_raw [] [] = Ok (lods m)
    /\ iter_field d "materials" = Ok material_entries
    /\ resolve_all f assets "materials" (module_id m) material_entries [] = Ok (materials m)
    /\ parse_thumbnails f assets (module_id m) d = Ok (thumbnails m)
    /\ iter_field d "extraFiles" = Ok extra_entries
    /\ resolve_all f assets "extraFiles" (module_id m) extra_entries [] = Ok (extra_files m).
Proof.
  unfold parse_module. destruct defn as [| | | | | |d]; try discriminate.
  destruct (check_module_id d) as [mid| |] eqn:E1; try discriminate; simpl.
  destruct (check_module_type mid d) as [mty| |] eqn:E2; try discriminate; simpl.
  destruct (check_lods_field mid d) as [lod_raw| |] eqn:E3; try discriminate; simpl.
  destruct (parse_lods f assets mid 0 lod_raw [] []) as [ls| |] eqn:E4;
    try discriminate; simpl.
  destruct (iter_field d "materials") as [me| |] eqn:E5; try discriminate; simpl.
  destruct (resolve_all f assets "materials" mid me []) as [ms| |] eqn:E6;
    try discriminate; simpl.
  destruct (parse_thumbnails f assets mid d) as [ts| |] eqn:E7; try discriminate; simpl.
  destruct (iter_field d "extraFiles") as [ee| |] eqn:E8; try discriminate; simpl.
  destruct (resolve_all f assets "extraFiles" mid ee []) as [es| |] eqn:E9;
    try discriminate; simpl.
  intros [= <-]. exists d, lod_raw, me, ee. simpl. repeat split; assumption.
Qed.


End Thumbnails.


(* ================================================================= *)
(** ** Validation against two file systems

    A relation between the outcomes of the same validation step run against
    two file systems carries over from [ensure_relative_path] to
    [parse_module], as long as it is reflexive and respects [bind]. *)

Lemma ok_le_refl {A} (o : outcome A) : ok_le o o.
Proof. intros a Ha. exact Ha. Qed.

Lemma ok_agree_refl {A} (o : outcome A) : ok_agree o o.
Proof. intros a b Ha Hb. congruence. Qed.

Lemma ok_le_bind {A B} (o1 o2 : outcome A) (k1 k2 : A -> outcome B) :
  ok_le o1 o2 -> (forall a, ok_le (k1 a) (k2 a)) -> ok_le (bind o1 k1) (bind o2 k2).
Proof.
  intros Ho Hk b Hb. destruct o1 as [a| |]; try discriminate.
  rewrite (Ho a eq_refl). simpl in *. apply Hk. exact Hb.
Qed.

Lemma ok_agree_bind {A B} (o1 o2 : outcome A) (k1 k2 : A -> outcome B) :
  ok_agree o1 o2 -> (forall a, ok_agree (k1 a) (k2 a)) ->
  ok_agree (bind o1 k1) (bind o2 k2).
Proof.
  intros Ho Hk b1 b2 H1 H2.
  destruct o1 as [a1| |]; try discriminate.
  destruct o2 as [a2| |]; try discriminate.
  simpl in *. rewrite <- (Ho a1 a2 eq_refl eq_refl) in H2. exact (Hk a1 b1 b2 H1 H2).
Qed.

Section Transfer.

Context {FS : Type} `{FileSystem FS} `{PyRepr}.

Variable R : forall A : Type, outcome A -> outcome A -> Prop.
Hypothesis R_refl : forall A (o : outcome A), R A o o.
Hypothesis R_bind : forall A B (o1 o2 : outcome A) (k1 k2 : A -> outcome B),
  R A o1 o2 -> (forall a, R B (k1 a) (k2 a)) -> R B (bind o1 k1) (bind o2 k2).

Variables f g : FS.
Hypothesis R_ensure : forall base v field mid,
  R Path (ensure_relative_path f base v field mid)
         (ensure_relative_path g base v field mid).

Lemma resolve_all_transfer assets field mid entries acc :
  R _ (resolve_all f assets field mid entries acc)
      (resolve_all g assets field mid entries acc).
Proof.
  revert acc. induction entries as [|e rest IH]; intros acc; simpl.
  - apply R_refl.
  - apply R_bind; [apply R_ensure | intros p; apply IH].
Qed.

Lemma parse_lod_transfer assets mid idx lod seen :
  R _ (parse_lod f assets mid idx lod seen) (parse_lod g assets mid idx lod seen).
Proof.
  unfold parse_lod. destruct lod; try apply R_refl.
  destruct (py_int _); [|apply R_refl].
  destruct (_ <? _)%Z; [apply R_refl|].
  destruct (existsb _ _); [apply R_refl|].
  apply R_bind; [apply R_ensure|]. intros mp.
  apply R_bind; [|intros; apply R_refl].
  destruct (truthy _); [|apply R_refl].
  apply R_bind; [apply R_ensure | intros; apply R_refl].
Qed.

Lemma parse_lods_transfer assets mid idx lod_raw acc seen :
  R _ (parse_lods f assets mid idx lod_raw acc seen)
      (parse_lods g assets mid idx lod_raw acc seen).
Proof.
  revert idx acc seen. induction lod_raw as [|l rest IH]; intros idx acc seen; simpl.
  - apply R_refl.
  - apply R_bind; [apply parse_lod_transfer | intros r; apply IH].
Qed.

Lemma parse_thumbnails_transfer assets mid d :
  R _ (parse_thumbnails f assets mid d) (parse_thumbnails g assets mid d).
Proof.
  unfold parse_thumbnails.
  destruct (py_get d "thumbnails"); try apply resolve_all_transfer;
    (destruct (py_get d "thumbnail"); try apply R_refl;
     apply R_bind; [apply R_ensure | intros; apply R_refl]).
Qed.

Lemma parse_module_transfer defn assets :
  R _ (parse_module f defn assets) (parse_module g defn assets).
Proof.
  unfold parse_module. destruct defn; try apply R_refl.
  apply R_bind; [apply R_refl|]. intros mid.
  apply R_bind; [apply R_refl|]. intros mty.
  apply R_bind; [apply R_refl|]. intros lod_raw.
  apply R_bind; [apply parse_lods_transfer|]. intros ls.
  apply R_bind; [apply R_refl|]. intros me.
  apply R_bind; [apply resolve_all_transfer|]. intros ms.
  apply R_bind; [apply parse_thumbnails_transfer|]. intros ts.
  apply R_bind; [apply R_refl|]. intros ee.
  apply R_bind; [apply resolve_all_transfer|]. intros es.
  apply R_refl.
Qed.

End Transfer.

Section Monotone.

Context {FS : Type} `{FileSystem FS} `{PyRepr}.

Lemma fs_le_refl (a : FS) : fs_le a a.
Proof. split; auto. Qed.

Lemma fs_le_trans (a b c : FS) : fs_le a b -> fs_le b c -> fs_le a c.
Proof.
  intros [R1 E1] [R2 E2]. split.
  - intros p. rewrite R2. apply R1.
  - intros p Hp. apply E2, E1, Hp.
Qed.

Lemma fs_le_same_resolve (a b : FS) : fs_le a b -> same_resolve a b.
Proof. intros [R1 _] p. symmetry. apply R1. Qed.

Lemma ensure_relative_path_mono (f g : FS) base v field mid :
  fs_le f g ->
  ok_le (ensure_relative_path f base v field mid)
        (ensure_relative_path g base v field mid).
Proof.
  intros [Hr He] p Hp.
  destruct (ensure_relative_path_ok _ _ _ _ _ _ Hp) as (s & -> & Hs & Hres & Hex & Hrel).
  unfold ensure_relative_path.
  destruct (String.eqb_spec s ""); [contradiction|].
  rewrite !Hr, <- Hres, (He _ Hex), Hrel. reflexivity.
Qed.

Lemma ensure_relative_path_agree (f g : FS) base v field mid :
  same_resolve f g ->
  ok_agree (ensure_relative_path f base v field mid)
           (ensure_relative_path g base v field mid).
Proof.
  intros Hr p q Hp Hq.
  destruct (ensure_relative_path_ok _ _ _ _ _ _ Hp) as (s & -> & _ & -> & _).
  destruct (ensure_relative_path_ok _ _ _ _ _ _ Hq) as (s' & [= <-] & _ & -> & _).
  apply Hr.
Qed.

(** A module that validates keeps validating, with the same result, once
    files have been added. *)
Lemma parse_module_mono (f g : FS) defn assets m :
  fs_le f g -> parse_module f defn assets = Ok m -> parse_module g defn assets = Ok m.
Proof.
  intros Hle. revert m.
  apply (parse_module_transfer (@ok_le) (@ok_le_refl) (@ok_le_bind) f g).
  intros; apply ensure_relative_path_mono; assumption.
Qed.

(** What a module validates to depends on the file system only through the
    way paths resolve. *)
Lemma parse_module_agree (f g : FS) defn assets m1 m2 :
  same_resolve f g ->
  parse_module f defn assets = Ok m1 -> parse_module g defn assets = Ok m2 -> m1 = m2.
Proof.
  intros Hr.
  apply (parse_module_transfer (@ok_agree) (@ok_agree_refl) (@ok_agree_bind) f g).
  intros; apply ensure_relative_path_agree; assumption.
Qed.

End Monotone.

(* ================================================================= *)
(** ** What a run does to the world

    An invariant [P] of the file system before, the file system after and
    the events in between, closed under sequencing, holds of the module
    loop as soon as it holds of the three things the loop does: noting a
    validation, creating a directory, copying a file. *)

Section RunInvariant.

Context {FS : Type} `{FileSystem FS} `{PyRepr}.

Variable P : FS -> FS -> list event -> Prop.
Variable E : exn -> Prop.
Variable dry_run : bool.

Hypothesis P_nil : forall f, P f f [].
Hypothesis P_app : forall f g h e1 e2, P f g e1 -> P g h e2 -> P f h (e1 ++ e2)%list.
Hypothesis E_os : E OSError.
Hypothesis P_validate : forall f d, P f f [EvValidate d].
Hypothesis P_mkdir : dry_run = false ->
  forall f p f', fs_mkdir_p f p = Some f' -> P f f' [EvMkdir p].
Hypothesis P_copy : dry_run = false ->
  forall f s d f', fs_copy2 f s d = Some f' -> P f f' [EvCopy s d].

Lemma run_inv_ret {A} (a : A) : run_inv P E (ret a).
Proof.
  intros w r w' [= <- <-]. split; [exact I|]. exists []. rewrite app_nil_r. auto.
Qed.

Lemma run_inv_bind {A B} (c : M FS A) (k : A -> M FS B) :
  run_inv P E c -> (forall a, run_inv P E (k a)) -> run_inv P E (bindM c k).
Proof.
  intros Hc Hk w r w' Hrun. unfold bindM in Hrun.
  destruct (c w) as [r1 w1] eqn:Ec.
  destruct (Hc _ _ _ Ec) as (Hr1 & e1 & Hl1 & HP1).
  destruct r1 as [a|msg|e].
  - destruct (Hk a _ _ _ Hrun) as (Hr2 & e2 & Hl2 & HP2).
    split; [exact Hr2|]. exists (e1 ++ e2)%list. split.
    + rewrite Hl2, Hl1, app_assoc. reflexivity.
    + eapply P_app; eassumption.
  - contradiction.
  - injection Hrun as <- <-. split; [exact Hr1|]. exists e1. auto.
Qed.

Lemma run_inv_validate d : run_inv P E (record (EvValidate d)).
Proof.
  intros w r w' [= <- <-]. split; [exact I|]. exists [EvValidate d]. simpl. auto.
Qed.

Lemma run_inv_mkdir p : dry_run = false -> run_inv P E (do_mkdir p).
Proof.
  intros Hd w r w' Hrun. unfold do_mkdir in Hrun.
  destruct (fs_mkdir_p (fs w) p) as [f'|] eqn:Em; injection Hrun as <- <-.
  - split; [exact I|]. exists [EvMkdir p]. simpl. auto.
  - split; [exact E_os|]. exists []. rewrite app_nil_r. auto.
Qed.

Lemma run_inv_copy2 s d : dry_run = false -> run_inv P E (do_copy2 s d).
Proof.
  intros Hd w r w' Hrun. unfold do_copy2 in Hrun.
  destruct (fs_copy2 (fs w) s d) as [f'|] eqn:Em; injection Hrun as <- <-.
  - split; [exact I|]. exists [EvCopy s d]. simpl. auto.
  - split; [exact E_os|]. exists []. rewrite app_nil_r. auto.
Qed.

Lemma run_inv_copy_loop files bundle_root target copied :
  run_inv P E (copy_loop files bundle_root target dry_run copied).
Proof.
  revert copied. induction files as [|src rest IH]; intros copied; simpl.
  - apply run_inv_ret.
  - apply run_inv_bind; [|intros; apply IH].
    destruct (negb dry_run) eqn:Ed.
    + apply negb_true_iff in Ed.
      apply run_inv_bind; [apply run_inv_mkdir; exact Ed|].
      intros; apply run_inv_copy2; exact Ed.
    + apply run_inv_ret.
Qed.

Lemma run_inv_emit_lod module_target output_dir lod :
  run_inv P E (emit_lod module_target output_dir dry_run lod).
Proof.
  unfold emit_lod, copy_into_bundle.
  apply run_inv_bind; [apply run_inv_copy_loop | intros; apply run_inv_ret].
Qed.

Lemma run_inv_emit_lods module_target output_dir lods acc :
  run_inv P E (emit_lods module_target output_dir dry_run lods acc).
Proof.
  revert acc. induction lods as [|lod rest IH]; intros acc; simpl.
  - apply run_inv_ret.
  - apply run_inv_bind; [apply run_inv_emit_lod | intros; apply IH].
Qed.

Lemma run_inv_emit_module m output_dir :
  run_inv P E (emit_module m output_dir dry_run).
Proof.
  unfold emit_module, copy_into_bundle.
  apply run_inv_bind; [apply run_inv_emit_lods|]. intros.
  apply run_inv_bind; [apply run_inv_copy_loop|]. intros.
  apply run_inv_bind; [apply run_inv_copy_loop|]. intros.
  apply run_inv_bind; [apply run_inv_copy_loop|]. intros.
  apply run_inv_ret.
Qed.

Lemma run_inv_build_loop assets output_dir module_defs st :
  (forall e, E e) ->
  run_inv P E (build_loop assets output_dir dry_run module_defs st).
Proof.
  intros Hall. revert st.
  induction module_defs as [|d rest IH]; intros st; simpl.
  - apply run_inv_ret.
  - apply run_inv_bind; [apply run_inv_validate|]. intros _ w r w' Hrun.
    destruct (parse_module (fs w) d assets) as [m|msg|e].
    + revert Hrun. apply run_inv_bind; [apply run_inv_emit_module | intros; apply IH].
    + exact (IH _ _ _ _ Hrun).
    + injection Hrun as <- <-. split; [apply Hall|]. exists []. rewrite app_nil_r. auto.
Qed.

End RunInvariant.

(* ================================================================= *)
(** ** What the assembler reports and copies when it succeeds *)

Section Projection.

Context {FS : Type} `{FileSystem FS} `{PyRepr}.

Lemma bindM_ok {A B} (c : M FS A) (k : A -> M FS B) w b w' :
  bindM c k w = (Ok b, w') ->
  exists a w1, c w = (Ok a, w1) /\ k a w1 = (Ok b, w').
Proof.
  unfold bindM. destruct (c w) as [[a|msg|e] w1]; try discriminate.
  intros Hk. exists a, w1. auto.
Qed.

Lemma do_mkdir_ok p w u w' :
  do_mkdir p w = (Ok u, w') ->
  exists f', fs_mkdir_p (fs w) p = Some f' /\ w' = mkWorld f' (log w ++ [EvMkdir p])%list.
Proof.
  unfold do_mkdir. destruct (fs_mkdir_p (fs w) p) as [f'|]; try discriminate.
  intros [= _ <-]. exists f'. auto.
Qed.

Lemma do_copy2_ok s d w u w' :
  do_copy2 s d w = (Ok u, w') ->
  exists f', fs_copy2 (fs w) s d = Some f' /\ w' = mkWorld f' (log w ++ [EvCopy s d])%list.
Proof.
  unfold do_copy2. destruct (fs_copy2 (fs w) s d) as [f'|]; try discriminate.
  intros [= _ <-]. exists f'. auto.
Qed.

(** The strings [copy_into_bundle] returns do not depend on the mode or on
    the file system; when it is not a dry run every file was copied to its
    destination under the bundle root. *)
Lemma copy_loop_ok files bundle_root target dry_run copied w r w' :
  copy_loop files bundle_root target dry_run copied w = (Ok r, w') ->
  r = (copied ++ map (dest_string target) files)%list
  /\ exists evs, log w' = (log w ++ evs)%list
     /\ (dry_run = false -> forall src, In src files ->
           In (EvCopy src (dest_path bundle_root target src)) evs).
Proof.
  revert copied w. induction files as [|src rest IH]; intros copied w Hrun.
  - injection Hrun as <- <-. rewrite !app_nil_r. split; [reflexivity|].
    exists []. rewrite app_nil_r. split; [reflexivity|]. intros _ src [].
  - simpl in Hrun. apply bindM_ok in Hrun as (u & w1 & Hstep & Hrest).
    apply IH in Hrest as (-> & evs & Hlog & Hcopies).
    split; [simpl; rewrite <- app_assoc; reflexivity|].
    destruct dry_run; simpl in Hstep.
    + injection Hstep as _ <-. exists evs. split; [exact Hlog|]. discriminate.
    + apply bindM_ok in Hstep as (u1 & w0 & Hmk & Hcp).
      apply do_mkdir_ok in Hmk as (f0 & _ & ->).
      apply do_copy2_ok in Hcp as (f1 & _ & ->). simpl in Hlog.
      eexists. split; [rewrite Hlog, <- !app_assoc; reflexivity|].
      intros Hd src' [<-|Hin]; simpl.
      * right. left. reflexivity.
      * right. right. apply Hcopies; assumption.
Qed.

Lemma copy_loop_dry files bundle_root target copied w :
  copy_loop files bundle_root target true copied w
  = (Ok (copied ++ map (dest_string target) files)%list, w).
Proof.
  revert copied. induction files as [|src rest IH]; intros copied; simpl.
  - rewrite app_nil_r. reflexivity.
  - unfold bindM at 1. simpl. rewrite IH, <- app_assoc. reflexivity.
Qed.

Lemma emit_lod_ok module_target output_dir dry_run lod w r w' :
  emit_lod module_target output_dir dry_run lod w = (Ok r, w') ->
  r = lod_record module_target lod
  /\ exists evs, log w' = (log w ++ evs)%list
     /\ (dry_run = false -> forall src, In src (lod_files lod) ->
           exists dest, In (EvCopy src dest) evs).
Proof.
  unfold emit_lod, copy_into_bundle. intros Hrun.
  apply bindM_ok in Hrun as (copied & w1 & Hcopy & Hret).
  apply copy_loop_ok in Hcopy as (-> & evs & Hlog & Hcopies).
  injection Hret as <- <-. split.
  - unfold lod_record, lod_target. destruct (collision lod); reflexivity.
  - exists evs. split; [exact Hlog|]. intros Hd src Hin. eexists. apply Hcopies; eauto.
Qed.

Lemma emit_lod_dry module_target output_dir lod w :
  emit_lod module_target output_dir true lod w = (Ok (lod_record module_target lod), w).
Proof.
  unfold emit_lod, copy_into_bundle, bindM. rewrite copy_loop_dry.
  unfold lod_record, lod_target. destruct (collision lod); reflexivity.
Qed.

Lemma emit_lods_ok module_target output_dir dry_run lods acc w r w' :
  emit_lods module_target output_dir dry_run lods acc w = (Ok r, w') ->
  r = (acc ++ map (lod_record module_target) lods)%list
  /\ exists evs, log w' = (log w ++ evs)%list
     /\ (dry_run = false -> forall src, In src (flat_map lod_files lods) ->
           exists dest, In (EvCopy src dest) evs).
Proof.
  revert acc w. induction lods as [|lod rest IH]; intros acc w Hrun.
  - injection Hrun as <- <-. rewrite app_nil_r. split; [reflexivity|].
    exists []. rewrite app_nil_r. split; [reflexivity|]. intros _ src [].
  - simpl in Hrun. apply bindM_ok in Hrun as (entry & w1 & Hlod & Hrest).
    apply emit_lod_ok in Hlod as (-> & e1 & Hl1 & Hc1).
    apply IH in Hrest as (-> & e2 & Hl2 & Hc2).
    split; [simpl; rewrite <- app_assoc; reflexivity|].
    exists (e1 ++ e2)%list. split; [rewrite Hl2, Hl1, app_assoc; reflexivity|].
    intros Hd src Hin. change (flat_map lod_files (lod :: rest))
      with (lod_files lod ++ flat_map lod_files rest)%list in Hin.
    apply in_app_or in Hin as [Hin|Hin].
    + destruct (Hc1 Hd src Hin) as (dest & Hdest). exists dest. apply in_or_app. auto.
    + destruct (Hc2 Hd src Hin) as (dest & Hdest). exists dest. apply in_or_app. auto.
Qed.

Lemma emit_lods_dry module_target output_dir lods acc w :
  emit_lods module_target output_dir true lods acc w
  = (Ok (acc ++ map (lod_record module_target) lods)%list, w).
Proof.
  revert acc. induction lods as [|lod rest IH]; intros acc; simpl.
  - rewrite app_nil_r. reflexivity.
  - unfold bindM at 1. rewrite emit_lod_dry, IH, <- app_assoc. reflexivity.
Qed.

(** The record of a module is a function of the validated module alone,
    and in a real run every file of the module was copied. *)
Lemma emit_module_ok m output_dir dry_run w r w' :
  emit_module m output_dir dry_run w = (Ok r, w') ->
  r = sanitized_record m
  /\ exists evs, log w' = (log w ++ evs)%list
     /\ (dry_run = false -> forall src, In src (module_files m) ->
           exists dest, In (EvCopy src dest) evs).
Proof.
  unfold emit_module, copy_into_bundle. intros Hrun.
  apply bindM_ok in Hrun as (lo & w1 & Hlods & Hrun).
  apply bindM_ok in Hrun as (mo & w2 & Hmat & Hrun).
  apply bindM_ok in Hrun as (to & w3 & Hth & Hrun).
  apply bindM_ok in Hrun as (eo & w4 & Hex & Hret).
  apply emit_lods_ok in Hlods as (-> & e1 & Hl1 & Hc1).
  apply copy_loop_ok in Hmat as (-> & e2 & Hl2 & Hc2).
  apply copy_loop_ok in Hth as (-> & e3 & Hl3 & Hc3).
  apply copy_loop_ok in Hex as (-> & e4 & Hl4 & Hc4).
  injection Hret as <- <-. split; [reflexivity|].
  exists (e1 ++ e2 ++ e3 ++ e4)%list.
  split; [rewrite Hl4, Hl3, Hl2, Hl1, <- !app_assoc; reflexivity|].
  intros Hd src Hin. unfold module_files in Hin. rewrite !in_app_iff in Hin.
  destruct Hin as [Hin|[Hin|[Hin|Hin]]].
  - destruct (Hc1 Hd src Hin) as (dest & Hdest). exists dest.
    rewrite !in_app_iff. auto.
  - eexists. rewrite !in_app_iff. right; left. apply Hc2; eauto.
  - eexists. rewrite !in_app_iff. right; right; left. apply Hc3; eauto.
  - eexists. rewrite !in_app_iff. right; right; right. apply Hc4; eauto.
Qed.

(** In a dry run a validated module always yields its record and the world
    is untouched. *)
Lemma emit_module_dry m output_dir w :
  emit_module m output_dir true w = (Ok (sanitized_record m), w).
Proof.
  unfold emit_module, copy_into_bundle, bindM.
  rewrite emit_lods_dry, !copy_loop_dry. reflexivity.
Qed.

End Projection.

(* ================================================================= *)
(** ** The sanitized record *)

Lemma dict_get_set (k k' : string) (v : JSON) (d : Dict) :
  dict_get k (dict_set k' v d) = if String.eqb k' k then Some v else dict_get k d.
Proof.
  induction d as [|[k0 v0] rest IH]; simpl.
  - reflexivity.
  - destruct (String.eqb_spec k0 k') as [->|Hne]; simpl.
    + destruct (String.eqb k' k); reflexivity.
    + rewrite IH. destruct (String.eqb_spec k0 k) as [->|Hne']; [|reflexivity].
      destruct (String.eqb_spec k' k) as [->|_]; [contradiction|reflexivity].
Qed.

Lemma dict_get_set_if_nonempty (k k' : string) (paths : list string) (d : Dict) :
  dict_get k (set_if_nonempty k' paths d)
  = match paths with
    | [] => dict_get k d
    | _ => if String.eqb k' k then Some (JList (map JStr paths)) else dict_get k d
    end.
Proof. destruct paths; [reflexivity|]. apply dict_get_set. Qed.

Lemma dict_get_optional_fold (k : string) (src : Dict) (keys : list string) (d : Dict) :
  dict_get k
    (fold_left (fun acc key => match dict_get key src with
                               | Some v => dict_set key v acc
                               | None => acc
                               end) keys d)
  = if existsb (String.eqb k) keys
    then match dict_get k src with Some v => Some v | None => dict_get k d end
    else dict_get k d.
Proof.
  revert d. induction keys as [|key rest IH]; intros d; simpl; [reflexivity|].
  rewrite IH. destruct (String.eqb_spec k key) as [->|Hne]; simpl.
  - destruct (dict_get key src) as [v|] eqn:Hsrc.
    + rewrite dict_get_set, String.eqb_refl. destruct (existsb _ rest); reflexivity.
    + destruct (existsb _ rest); reflexivity.
  - destruct (dict_get key src) as [v|]; [|reflexivity].
    rewrite dict_get_set. destruct (String.eqb_spec key k) as [->|_]; [contradiction|].
    reflexivity.
Qed.

Lemma dict_get_copy_optional_keys (k : string) (src d : Dict) :
  dict_get k (copy_optional_keys src d)
  = if existsb (String.eqb k) OPTIONAL_KEYS
    then match dict_get k src with Some v => Some v | None => dict_get k d end
    else dict_get k d.
Proof. apply dict_get_optional_fold. Qed.

(** The fields of the record of a module. *)
Lemma sanitized_record_get `{PyRepr} (m : ModuleAsset) :
  exists s, sanitized_record m = JObj s
    /\ dict_get "id" s = Some (JStr (module_id m))
    /\ dict_get "type" s = Some (JStr (module_type m))
    /\ dict_get "displayName" s = Some (display_name m)
    /\ dict_get "lods" s = Some (JList (map (lod_record (module_target_of m)) (lods m)))
    /\ dict_get "materials" s
       = match materials m with
         | [] => None
         | files => Some (JList (map JStr
                      (map (dest_string (pdiv (module_target_of m) "materials")) files)))
         end
    /\ dict_get "thumbnails" s
       = match thumbnails m with
         | [] => None
         | files => Some (JList (map JStr
                      (map (dest_string (pdiv (module_target_of m) "thumbnails")) files)))
         end
    /\ dict_get "extraFiles" s
       = match extra_files m with
         | [] => None
         | files => Some (JList (map JStr
                      (map (dest_string (pdiv (module_target_of m) "extras")) files)))
         end
    /\ (forall key, In key OPTIONAL_KEYS -> dict_get key s = dict_get key (source m)).
Proof.
  unfold sanitized_record. eexists. split; [reflexivity|].
  repeat split;
    try (rewrite !dict_get_set_if_nonempty, dict_get_copy_optional_keys; simpl;
         destruct (extra_files m), (thumbnails m), (materials m); reflexivity).
  intros key Hin. rewrite !dict_get_set_if_nonempty, dict_get_copy_optional_keys.
  simpl in Hin.
  repeat (destruct Hin as [<-|Hin];
          [simpl; destruct (extra_files m), (thumbnails m), (materials m);
           simpl; destruct (dict_get _ (source m)); reflexivity|]).
  contradiction.
Qed.

Section Sanitized.

Context {FS : Type} `{FileSystem FS} `{PyRepr}.

(** C8: the record of a module in the compiled manifest has the keys [id],
    [type], [displayName] and [lods], the LOD entries carrying the level
    and the destination strings; it has a [materials], [thumbnails] or
    [extraFiles] key exactly when the module has such files, the value
    being their destination strings; and under each of the nine
    pass-through keys ([description], [sockets], [interiorAnchor],
    [metrics], [compatibleSockets], [mirrorOf], [tags], [dependencies],
    [vfxHooks]) it has exactly what the module definition has there, if
    anything. *)
Theorem sanitized_record_fields (m : ModuleAsset) (output_dir : Path) (dry_run : bool)
    (w w' : World FS) (rec : JSON) :
  emit_module m output_dir dry_run w = (Ok rec, w') ->
  exists s, rec = JObj s
    /\ dict_get "id" s = Some (JStr (module_id m))
    /\ dict_get "type" s = Some (JStr (module_type m))
    /\ dict_get "displayName" s = Some (display_name m)
    /\ dict_get "lods" s = Some (JList (map (lod_record (module_target_of m)) (lods m)))
    /\ dict_get "materials" s
       = match materials m with
         | [] => None
         | files => Some (JList (map JStr
                      (map (dest_string (pdiv (module_target_of m) "materials")) files)))
         end
    /\ dict_get "thumbnails" s
       = match thumbnails m with
         | [] => None
         | files => Some (JList (map JStr
                      (map (dest_string (pdiv (module_target_of m) "thumbnails")) files)))
         end
    /\ dict_get "extraFiles" s
       = match extra_files m with
         | [] => None
         | files => Some (JList (map JStr
                      (map (dest_string (pdiv (module_target_of m) "extras")) files)))
         end
    /\ (forall key,
          In key ["description"; "sockets"; "interiorAnchor"; "metrics";
                  "compatibleSockets"; "mirrorOf"; "tags"; "dependencies"; "vfxHooks"] ->
          dict_get key s = dict_get key (source m)).
Proof.
  intros Hrun. apply emit_module_ok in Hrun as [-> _].
  destruct (sanitized_record_get m)
    as (s & Hs & Hid & Hty & Hdn & Hlods & Hmat & Hth & Hex & Hopt).
  exists s. do 8 (split; [assumption|]).
  intros key Hin. apply Hopt. exact Hin.
Qed.

End Sanitized.

(** A wing module that carries all nine pass-through keys: its record, in a
    dry run, has each of them with the value of the definition, the null
    one included. *)
Lemma sanitized_record_fields_witness :
  @parse_module SimFS _ sim_repr demo_fs (JObj passthrough_defn) demo_assets
  = Ok passthrough_asset
  /\ exists s, @sanitized_record sim_repr passthrough_asset = JObj s
    /\ dict_get "id" s = Some (JStr "wing_p")
    /\ dict_get "type" s = Some (JStr "wing")
    /\ dict_get "displayName" s = Some (JStr "wing_p")
    /\ dict_get "lods" s
       = Some (JList [JObj [("level", JInt 0);
                            ("mesh", JStr "modules/wing/wing_p/lod_0/a.obj")]])
    /\ dict_get "materials" s = None
    /\ dict_get "thumbnails" s = None
    /\ dict_get "extraFiles" s = None
    /\ dict_get "description" s = Some (JStr "Port wing")
    /\ dict_get "sockets" s = Some (JList [JObj [("name", JStr "root")]])
    /\ dict_get "interiorAnchor" s = Some (JObj [("x", JInt 0); ("y", JInt 2)])
    /\ dict_get "metrics" s = Some (JObj [("mass", JInt 12)])
    /\ dict_get "compatibleSockets" s = Some (JList [JStr "wing_root"])
    /\ dict_get "mirrorOf" s = Some JNull
    /\ dict_get "tags" s = Some (JList [JStr "starter"; JStr "wing"])
    /\ dict_get "dependencies" s = Some (JList [])
    /\ dict_get "vfxHooks" s = Some (JBool false).
Proof.
  split; [reflexivity|].
  destruct (sanitized_record_fields (H0 := sim_repr) passthrough_asset demo_out true
              demo_world demo_world _ (emit_module_dry passthrough_asset demo_out demo_world))
    as (s & Hs & Hid & Hty & Hdn & Hlods & Hmat & Hth & Hex & Hopt).
  exists s. do 8 (split; [assumption|]).
  repeat split.
  - apply (Hopt "description"). simpl. auto 12.
  - apply (Hopt "sockets"). simpl. auto 12.
  - apply (Hopt "interiorAnchor"). simpl. auto 12.
  - apply (Hopt "metrics"). simpl. auto 12.
  - apply (Hopt "compatibleSockets"). simpl. auto 12.
  - apply (Hopt "mirrorOf"). simpl. auto 12.
  - apply (Hopt "tags"). simpl. auto 12.
  - apply (Hopt "dependencies"). simpl. auto 12.
  - apply (Hopt "vfxHooks"). simpl. auto 12.
Defined.

(* ================================================================= *)
(** ** The combined failure message *)

Lemma str_app_assoc (a b c : string) : (a ++ b) ++ c = a ++ (b ++ c).
Proof. induction a as [|ch a IH]; simpl; [reflexivity | rewrite IH; reflexivity]. Qed.

Lemma str_app_nil_r (a : string) : a ++ "" = a.
Proof. induction a as [|ch a IH]; simpl; [reflexivity | rewrite IH; reflexivity]. Qed.

Lemma contains_refl (s : string) : contains s s.
Proof. exists "", "". simpl. rewrite str_app_nil_r. reflexivity. Qed.

Lemma contains_app_l (s t e : string) : contains s e -> contains (s ++ t) e.
Proof.
  intros (a & b & ->). exists a, (b ++ t). rewrite !str_app_assoc. reflexivity.
Qed.

Lemma contains_app_r (s t e : string) : contains t e -> contains (s ++ t) e.
Proof.
  intros (a & b & ->). exists (s ++ a), b. rewrite !str_app_assoc. reflexivity.
Qed.

Lemma contains_cons (c : ascii) (t e : string) : contains t e -> contains (String c t) e.
Proof. apply (contains_app_r (String c "") t e). Qed.

Lemma join_contains (sep : string) (items : list string) (e : string) :
  In e items -> contains (join sep items) e.
Proof.
  unfold join. induction items as [|x rest IH]; intros Hin; [contradiction|].
  destruct rest as [|y rest'].
  - destruct Hin as [<-|[]]. simpl. apply contains_refl.
  - change (String.concat sep (x :: y :: rest'))
      with (x ++ sep ++ String.concat sep (y :: rest')).
    destruct Hin as [<-|Hin].
    + apply contains_app_l, contains_refl.
    + apply contains_app_r, contains_app_r, IH, Hin.
Qed.

(** The combined message carries the number of failures and every one of
    the messages. *)
Lemma build_failed_msg_contains (errs : list string) :
  contains (build_failed_msg errs) (nat_to_string (List.length errs))
  /\ forall e, In e errs -> contains (build_failed_msg errs) e.
Proof.
  unfold build_failed_msg. split.
  - apply contains_app_r, contains_app_l, contains_refl.
  - intros e Hin. do 3 apply contains_app_r. apply contains_cons, join_contains, Hin.
Qed.

(* ================================================================= *)
(** ** The module loop *)

Section Loop.

Context {FS : Type} `{FileSystem FS} `{PyRepr}.

Lemma validated_app (e1 e2 : list event) :
  validated (e1 ++ e2) = (validated e1 ++ validated e2)%list.
Proof. apply flat_map_app. Qed.

(** The loop over a list in two pieces is the loop over the first piece
    followed by the loop over the second. *)
Lemma build_loop_app assets output_dir dry_run l1 l2 st w :
  build_loop assets output_dir dry_run (l1 ++ l2) st w
  = bindM (build_loop assets output_dir dry_run l1 st)
          (build_loop assets output_dir dry_run l2) w.
Proof.
  revert st w. induction l1 as [|d rest IH]; intros st w; [reflexivity|].
  simpl. unfold bindM at 1 3 4. unfold record.
  destruct (parse_module _ d assets) as [m|msg|e]; simpl.
  - unfold bindM.
    destruct (emit_module m output_dir dry_run _) as [[s|msg|e] w1];
      [exact (IH _ _) | reflexivity | reflexivity].
  - exact (IH _ _).
  - reflexivity.
Qed.

(** The events of a validated module's copies contain no validation. *)
Lemma emit_module_validated m output_dir dry_run w r w' :
  emit_module m output_dir dry_run w = (r, w') ->
  exists evs, log w' = (log w ++ evs)%list /\ validated evs = [].
Proof.
  intros Hrun.
  assert (Hinv : run_inv (fun _ _ evs => validated evs = []) (fun _ => True)
                   (emit_module m output_dir dry_run)).
  { apply run_inv_emit_module; auto.
    intros _ _ _ e1 e2 H1 H2. rewrite validated_app, H1, H2. reflexivity. }
  destruct (Hinv _ _ _ Hrun) as (_ & evs & Hlog & Hv). eauto.
Qed.

(** When the loop runs to its end, every module definition was handed to
    [parse_module], in order, and each one added either a record or a
    failure message. *)
Lemma build_loop_ok assets output_dir dry_run module_defs st w st' w' :
  build_loop assets output_dir dry_run module_defs st w = (Ok st', w') ->
  exists outs errs evs,
    modules_out st' = (modules_out st ++ outs)%list
    /\ errors st' = (errors st ++ errs)%list
    /\ List.length outs + List.length errs = List.length module_defs
    /\ log w' = (log w ++ evs)%list
    /\ validated evs = module_defs.
Proof.
  revert st w. induction module_defs as [|d rest IH]; intros st w Hrun.
  - injection Hrun as <- <-. exists [], [], []. rewrite !app_nil_r. auto.
  - simpl in Hrun. unfold bindM at 1, record in Hrun.
    destruct (parse_module _ d assets) as [m|msg|e]; simpl in Hrun.
    + apply bindM_ok in Hrun as (s & w1 & Hemit & Hrest).
      apply emit_module_validated in Hemit as (e1 & Hl1 & Hv1).
      apply IH in Hrest as (outs & errs & e2 & Ho & He & Hlen & Hl2 & Hv2).
      simpl in *. exists (s :: outs), errs, ([EvValidate d] ++ e1 ++ e2)%list.
      rewrite Ho, He, Hl2, Hl1, <- !app_assoc, !validated_app, Hv1, Hv2. simpl.
      repeat split; try reflexivity. lia.
    + apply IH in Hrun as (outs & errs & e2 & Ho & He & Hlen & Hl2 & Hv2).
      simpl in *. exists outs, (msg :: errs), ([EvValidate d] ++ e2)%list.
      rewrite Ho, He, Hl2, <- !app_assoc, !validated_app, Hv2. simpl.
      repeat split; try reflexivity. lia.
    + discriminate.
Qed.

(** A failure of [parse_module] is caught: its message ends up in the list
    of errors and the loop goes on with the modules that follow. *)
Lemma build_loop_keeps_failure assets output_dir dry_run pre d post st w st' w' :
  build_loop assets output_dir dry_run (pre ++ d :: post) st w = (Ok st', w') ->
  exists st1 w1,
    build_loop assets output_dir dry_run pre st w = (Ok st1, w1)
    /\ forall e, parse_module (fs w1) d assets = Invalid e -> In e (errors st').
Proof.
  rewrite build_loop_app. intros Hrun.
  apply bindM_ok in Hrun as (st1 & w1 & Hpre & Hrest).
  exists st1, w1. split; [exact Hpre|]. intros e He.
  simpl in Hrest. unfold bindM at 1, record in Hrest. simpl in Hrest.
  rewrite He in Hrest.
  apply build_loop_ok in Hrest as (outs & errs & evs & _ & Herr & _).
  rewrite Herr. simpl. rewrite !in_app_iff. simpl. auto.
Qed.

(** In a dry run the errors are the failures of the modules, each one
    validated against the file system the run started with, and the
    records are those of the modules that validated. *)
Lemma build_loop_dry assets output_dir module_defs st w st' w' :
  build_loop assets output_dir true module_defs st w = (Ok st', w') ->
  errors st' = (errors st
     ++ failures (map (fun d => parse_module (fs w) d assets) module_defs))%list
  /\ fs w' = fs w.
Proof.
  revert st w. induction module_defs as [|d rest IH]; intros st w Hrun.
  - injection Hrun as <- <-. simpl. rewrite app_nil_r. auto.
  - simpl in Hrun. unfold bindM at 1, record in Hrun. simpl in Hrun.
    unfold failures. simpl. fold (@failures ModuleAsset).
    destruct (parse_module (fs w) d assets) as [m|msg|e]; simpl.
    + unfold bindM in Hrun. rewrite emit_module_dry in Hrun.
      apply IH in Hrun as (-> & ->). auto.
    + apply IH in Hrun as (-> & ->). simpl. rewrite <- app_assoc. auto.
    + discriminate.
Qed.

(** A dry run over two modules that both validate returns both records. *)
Lemma two_valid_modules_dry_build assets output_dir manifest version d1 d2 m1 m2 w :
  manifest_modules manifest = Ok [d1; d2] ->
  py_getitem manifest "version" = Ok version ->
  parse_module (fs w) d1 assets = Ok m1 ->
  parse_module (fs w) d2 assets = Ok m2 ->
  build_bundle assets manifest output_dir true w
  = (Ok (JObj [("version", version); ("generated", JBool true);
               ("modules", JList [sanitized_record m1; sanitized_record m2])]),
     mkWorld (fs w) (log w ++ [EvValidate d1] ++ [EvValidate d2])%list).
Proof.
  intros Hmods Hver Hp1 Hp2.
  unfold build_bundle, bindM at 1, lift at 1. rewrite Hmods.
  unfold bindM at 1. simpl build_loop. unfold bindM at 1 2, record. simpl.
  rewrite Hp1. unfold bindM at 1. rewrite emit_module_dry.
  simpl. rewrite Hp2. unfold bindM at 1. rewrite emit_module_dry.
  unfold ret at 1. simpl. unfold bindM, lift. rewrite Hver. simpl.
  unfold ret. rewrite <- app_assoc. reflexivity.
Qed.

(** C2, as the code has it: when the module loop runs to its end (no
    module makes [parse_module] or a copy raise anything but a
    ValidationError) and at least one module failed validation,
    [build_bundle] raises one ValidationError, after the last module; every
    module definition was handed to [parse_module], in manifest order; each
    module gave either a record or a failure message; the message of every
    module that failed is among the errors; and the combined message holds
    the number of errors and each of their messages.  Seen from the input:
    whenever a module definition fails validation at its turn, the build
    either ends on an exception that is no ValidationError, or runs the
    loop to its end and raises the combined ValidationError, with the
    message of that module among its errors. *)
Theorem build_errors_aggregated (assets output_dir : Path) (manifest : JSON)
    (dry_run : bool) (module_defs : list JSON) (w : World FS) :
  manifest_modules manifest = Ok module_defs ->
  (forall st w',
     build_loop assets output_dir dry_run module_defs init_state w = (Ok st, w') ->
     errors st <> [] ->
     build_bundle assets manifest output_dir dry_run w
       = (Invalid (build_failed_msg (errors st)), w')
     /\ List.length (modules_out st) + List.length (errors st) = List.length module_defs
     /\ (exists evs, log w' = (log w ++ evs)%list /\ validated evs = module_defs)
     /\ (forall pre d post, module_defs = (pre ++ d :: post)%list ->
           exists st1 w1,
             build_loop assets output_dir dry_run pre init_state w = (Ok st1, w1)
             /\ forall e, parse_module (fs w1) d assets = Invalid e -> In e (errors st))
     /\ (dry_run = true ->
           errors st = failures (map (fun d => parse_module (fs w) d assets) module_defs))
     /\ contains (build_failed_msg (errors st)) (nat_to_string (List.length (errors st)))
     /\ (forall e, In e (errors st) -> contains (build_failed_msg (errors st)) e))
  /\ (forall pre d post st1 w1 e r w',
        module_defs = (pre ++ d :: post)%list ->
        build_loop assets output_dir dry_run pre init_state w = (Ok st1, w1) ->
        parse_module (fs w1) d assets = Invalid e ->
        build_bundle assets manifest output_dir dry_run w = (r, w') ->
        (exists x, r = Crash x)
        \/ exists st,
             build_loop assets output_dir dry_run module_defs init_state w = (Ok st, w')
             /\ In e (errors st)
             /\ r = Invalid (build_failed_msg (errors st))).
Proof.
  intros Hmods. split.
  - intros st w' Hloop Herr.
    destruct (build_loop_ok _ _ _ _ _ _ _ _ Hloop)
      as (outs & errs & evs & Ho & He & Hlen & Hlog & Hval).
    simpl in Ho, He. split; [|split; [|split; [|split; [|split]]]].
    + unfold build_bundle, bindM, lift. rewrite Hmods.
      fold init_state. rewrite Hloop. destruct (errors st); [contradiction|reflexivity].
    + rewrite Ho, He. exact Hlen.
    + exists evs. auto.
    + intros pre d post ->. eapply build_loop_keeps_failure. exact Hloop.
    + intros ->. apply build_loop_dry in Hloop as [Hf _]. exact Hf.
    + apply build_failed_msg_contains.
  - intros pre d post st1 w1 e r w' -> Hpre Hd Hb.
    unfold build_bundle, bindM, lift in Hb. rewrite Hmods in Hb. fold init_state in Hb.
    destruct (build_loop assets output_dir dry_run (pre ++ d :: post)%list init_state w)
      as [[st|msg|x] w2] eqn:Hloop.
    + destruct (build_loop_keeps_failure _ _ _ _ _ _ _ _ _ _ Hloop)
        as (st1' & w1' & Hpre' & Hin).
      rewrite Hpre in Hpre'. injection Hpre' as <- <-.
      pose proof (Hin e Hd) as He.
      destruct (errors st) as [|e0 es] eqn:Herr; [destruct He|].
      injection Hb as <- <-. right. exists st. rewrite Herr. auto.
    + assert (Hinv : run_inv (fun (_ _ : FS) (_ : list event) => True) (fun _ => True)
                       (build_loop assets output_dir dry_run (pre ++ d :: post)%list
                          init_state)).
      { apply run_inv_build_loop; auto. }
      destruct (Hinv _ _ _ Hloop) as [[] _].
    + injection Hb as <- <-. left. exists x. reflexivity.
Qed.

End Loop.

(** Two failures out of three modules in a dry run: one combined error
    after all three were validated. *)
Lemma build_errors_aggregated_witness :
  exists st w',
    @build_loop SimFS _ sim_repr demo_assets demo_out true
      [module_without_id; module_fine; module_missing_mesh] init_state demo_world
      = (Ok st, w')
    /\ errors st
       = [missing_id_msg;
          "Module 'hull_c' references missing file for mesh: nowhere.obj"]
    /\ @build_bundle SimFS _ sim_repr demo_assets
         (manifest_of [module_without_id; module_fine; module_missing_mesh])
         demo_out true demo_world
       = (Invalid (build_failed_msg (errors st)), w')
    /\ List.length (modules_out st) + List.length (errors st) = 3
    /\ validated (log w') = [module_without_id; module_fine; module_missing_mesh]
    /\ (forall e, In e (errors st) -> contains (build_failed_msg (errors st)) e).
Proof.
  eexists. eexists. split; [reflexivity|]. split; [reflexivity|].
  lazymatch goal with
  | |- _ = (Invalid (build_failed_msg (errors ?st)), ?w') /\ _ =>
      destruct (proj1 (@build_errors_aggregated SimFS SimFS_FileSystem sim_repr
                         demo_assets demo_out
                         (manifest_of [module_without_id; module_fine; module_missing_mesh])
                         true _ demo_world eq_refl)
                  st w' ltac:(vm_compute; reflexivity) ltac:(discriminate))
        as (Hb & Hlen & _ & _ & _ & _ & Hc)
  end.
  split; [exact Hb|]. split; [exact Hlen|]. split; [reflexivity|]. exact Hc.
Defined.

(** A module whose ["materials"] is null makes the loop raise [TypeError]:
    the failure of the module before it is never reported as a
    ValidationError, and the module after it is never validated. *)
Lemma null_materials_counterexample :
  @parse_module SimFS _ sim_repr demo_fs module_without_id demo_assets
    = Invalid missing_id_msg
  /\ fst (@build_bundle SimFS _ sim_repr demo_assets
            (manifest_of [module_without_id; module_null_materials; module_fine])
            demo_out true demo_world)
     = Crash TypeError
  /\ validated (log (snd (@build_bundle SimFS _ sim_repr demo_assets
            (manifest_of [module_without_id; module_null_materials; module_fine])
            demo_out true demo_world)))
     = [module_without_id; module_null_materials].
Proof. repeat split; reflexivity. Qed.

(* ================================================================= *)
(** ** The symlink-free file system obeys the laws *)

Lemma parts_eqb_refl (l : list string) : parts_eqb l l = true.
Proof. induction l; simpl; [reflexivity | rewrite String.eqb_refl; assumption]. Qed.

Lemma parts_eqb_snoc (l : list string) (x : string) : parts_eqb (l ++ [x]) l = false.
Proof.
  induction l as [|y l IH]; simpl; [reflexivity|].
  rewrite String.eqb_refl. exact IH.
Qed.

Lemma sim_le_refl (a : SimFS) : sim_le a a.
Proof. split; auto. Qed.

Lemma sim_le_trans (a b c : SimFS) : sim_le a b -> sim_le b c -> sim_le a c.
Proof. intros [C1 L1] [C2 L2]. split; [congruence | auto]. Qed.

Lemma sim_le_update (a : SimFS) (k : list string) (n : node) : sim_le a (sim_update a k n).
Proof.
  split; [reflexivity|]. intros key Hk.
  destruct key as [|x key]; [discriminate|]. simpl in *.
  destruct (parts_eqb k (x :: key)); [discriminate | exact Hk].
Qed.

Lemma sim_le_fs_le (a b : SimFS) : sim_le a b -> fs_le a b.
Proof.
  intros [Hc Hl]. split.
  - intros p. simpl. unfold sim_resolve. rewrite Hc. reflexivity.
  - intros p. simpl. unfold sim_exists, sim_key, sim_resolve. rewrite Hc.
    intros Hex. specialize (Hl (norm_parts []
      (filter valid_part (match root p with Rel => cwd a | _ => [] end ++ parts p)%list))).
    simpl in *. destruct (sim_lookup a _); [|discriminate].
    destruct (sim_lookup b _); [reflexivity|]. exfalso. apply Hl; [discriminate|reflexivity].
Qed.

Lemma sim_mkdirs_le (todo done : list string) (a b : SimFS) :
  sim_mkdirs a done todo = Some b -> sim_le a b.
Proof.
  revert done a. induction todo as [|x rest IH]; intros done a Hm; simpl in Hm.
  - injection Hm as <-. apply sim_le_refl.
  - destruct (sim_lookup a (done ++ [x])%list) as [[|c]|].
    + eapply IH, Hm.
    + discriminate.
    + eapply sim_le_trans; [apply sim_le_update | eapply IH, Hm].
Qed.

Lemma sim_put_file_inv (a b : SimFS) (target : list string) (c : file_content) :
  sim_put_file a target c = Some b -> target <> [] /\ b = sim_update a target (File c).
Proof.
  unfold sim_put_file. destruct target as [|x t]; [discriminate|].
  destruct (sim_lookup a (x :: t)) as [[|c0]|];
    try discriminate;
    (destruct (sim_lookup a (removelast (x :: t))) as [[|c1]|]; try discriminate;
     intros [= <-]; split; [discriminate | reflexivity]).
Qed.

Lemma norm_parts_Forall (Q : string -> Prop) (todo stack : list string) :
  Forall Q stack -> Forall Q todo -> Forall Q (norm_parts stack todo).
Proof.
  revert stack. induction todo as [|p rest IH]; intros stack Hs Ht; simpl.
  - apply Forall_rev, Hs.
  - inversion Ht; subst. destruct (String.eqb p "..").
    + apply IH; [|assumption]. destruct stack; [constructor|].
      inversion Hs; assumption.
    + apply IH; [constructor|]; assumption.
Qed.

Lemma sim_copy2_exists (a b : SimFS) (src dest : Path) :
  sim_copy2 a src dest = Some b -> sim_exists b dest = true.
Proof.
  unfold sim_copy2.
  destruct (sim_lookup a (sim_key a src)) as [[|c]|]; try discriminate.
  destruct (parts_eqb _ _); [discriminate|]. intros Hput.
  apply sim_put_file_inv in Hput as [Hne ->].
  unfold sim_exists. change (sim_key (sim_update a _ _) dest) with (sim_key a dest).
  destruct (sim_lookup a (sim_key a dest)) as [[|c0]|] eqn:Hd.
  - destruct (sim_key a dest) as [|x k]; [reflexivity|].
    simpl. change (x :: (k ++ [name src])%list) with ((x :: k) ++ [name src])%list.
    rewrite parts_eqb_snoc. simpl in Hd. rewrite Hd.
    destruct (_ && _); reflexivity.
  - destruct (sim_key a dest) as [|x k]; [contradiction|].
    simpl. rewrite String.eqb_refl, parts_eqb_refl. reflexivity.
  - destruct (sim_key a dest) as [|x k]; [contradiction|].
    simpl. rewrite String.eqb_refl, parts_eqb_refl. reflexivity.
Qed.

#[export] Instance SimFS_laws : FileSystemLaws SimFS.
Proof.
  split.
  - intros a p b Hm. apply sim_le_fs_le. eapply sim_mkdirs_le, Hm.
  - intros a src dest b Hc. apply sim_le_fs_le. unfold fs_copy2 in Hc. simpl in Hc.
    unfold sim_copy2 in Hc.
    destruct (sim_lookup a (sim_key a src)) as [[|c]|]; try discriminate.
    destruct (parts_eqb _ _); [discriminate|].
    apply sim_put_file_inv in Hc as [_ ->]. apply sim_le_update.
  - intros a src dest b Hc. apply sim_copy2_exists with (src := src) (a := a), Hc.
  - intros a p doc b Hw. apply sim_le_fs_le.
    apply sim_put_file_inv in Hw as [_ ->]. apply sim_le_update.
  - intros a p _. unfold wf_path. simpl.
    apply norm_parts_Forall; [constructor|].
    apply Forall_forall. intros x Hx. apply filter_In in Hx. tauto.
Qed.

(* ================================================================= *)
(** ** Real runs: what stays on disk, and how they compare with dry runs *)

Section RealRuns.

Context {FS : Type} `{FileSystem FS} `{!FileSystemLaws FS} `{PyRepr}.

Lemma ev_sound_mono (f g : FS) (e : event) : fs_le f g -> ev_sound f e -> ev_sound g e.
Proof. intros [_ He]. destruct e; simpl; auto. Qed.

Lemma kept_nil (f : FS) : kept f f [].
Proof. split; [apply fs_le_refl | constructor]. Qed.

Lemma kept_app (f g h : FS) (e1 e2 : list event) :
  kept f g e1 -> kept g h e2 -> kept f h (e1 ++ e2)%list.
Proof.
  intros [L1 S1] [L2 S2]. split; [eapply fs_le_trans; eassumption|].
  apply Forall_app. split; [|exact S2].
  eapply Forall_impl; [|exact S1]. intros e. apply ev_sound_mono, L2.
Qed.

Lemma kept_mkdir (f : FS) (p : Path) (f' : FS) :
  fs_mkdir_p f p = Some f' -> kept f f' [EvMkdir p].
Proof.
  intros Hm. split; [eapply mkdir_p_le, Hm|]. repeat constructor.
Qed.

Lemma kept_copy (f : FS) (s d : Path) (f' : FS) :
  fs_copy2 f s d = Some f' -> kept f f' [EvCopy s d].
Proof.
  intros Hc. split; [eapply copy2_le, Hc|]. repeat constructor.
  simpl. eapply copy2_exists, Hc.
Qed.

Lemma emit_module_kept m output_dir dry_run w r w' :
  emit_module m output_dir dry_run w = (r, w') ->
  raises_only (eq OSError) r
  /\ exists evs, log w' = (log w ++ evs)%list /\ kept (fs w) (fs w') evs.
Proof.
  apply (run_inv_emit_module kept (eq OSError) dry_run kept_nil kept_app eq_refl).
  - intros _. apply kept_mkdir.
  - intros _. apply kept_copy.
Qed.

Lemma build_loop_kept assets output_dir dry_run module_defs st w r w' :
  build_loop assets output_dir dry_run module_defs st w = (r, w') ->
  raises_only (fun _ => True) r
  /\ exists evs, log w' = (log w ++ evs)%list /\ kept (fs w) (fs w') evs.
Proof.
  apply (run_inv_build_loop kept (fun _ => True) dry_run kept_nil kept_app I).
  - intros f d. split; [apply fs_le_refl | repeat constructor].
  - intros _. apply kept_mkdir.
  - intros _. apply kept_copy.
  - auto.
Qed.

Lemma manifest_modules_not_invalid (manifest : JSON) (msg : string) :
  manifest_modules manifest <> Invalid msg.
Proof.
  unfold manifest_modules, py_getitem.
  destruct manifest as [| | | | | |d]; try discriminate.
  destruct (dict_get "modules" d) as [v|]; try discriminate. simpl.
  destruct (py_iter v); discriminate.
Qed.

(** [build_bundle] raises a ValidationError only after the loop, with the
    world the loop left. *)
Lemma build_bundle_invalid assets manifest output_dir dry_run w msg w' :
  build_bundle assets manifest output_dir dry_run w = (Invalid msg, w') ->
  exists module_defs st,
    manifest_modules manifest = Ok module_defs
    /\ build_loop assets output_dir dry_run module_defs init_state w = (Ok st, w')
    /\ errors st <> [] /\ msg = build_failed_msg (errors st).
Proof.
  unfold build_bundle, bindM at 1, lift at 1.
  destruct (manifest_modules manifest) as [mods|m0|e0] eqn:Hmods; try discriminate;
    [|destruct (manifest_modules_not_invalid _ _ Hmods)].
  unfold bindM at 1. fold init_state.
  destruct (build_loop assets output_dir dry_run mods init_state w) as [[st|m1|e1] w1] eqn:Hloop.
  - destruct (errors st) as [|e es] eqn:Herr.
    + unfold bindM, lift, py_getitem.
      destruct manifest as [| | | | | |d]; try discriminate.
      destruct (dict_get "version" d); try discriminate.
      destruct (negb dry_run); simpl; [|discriminate].
      unfold do_mkdir. destruct (fs_mkdir_p _ _); [|discriminate].
      unfold do_write_json. simpl. destruct (fs_write_json _ _ _); discriminate.
    + unfold lift. intros [= <- <-]. exists mods, st. rewrite Herr.
      repeat split; [assumption | discriminate].
  - apply build_loop_kept in Hloop as [[] _].
  - discriminate.
Qed.

(** C5: when a real build fails because some module fails validation, no
    compiled manifest was written, every copy made during the build has its
    destination on disk when the build ends, and every file of a module
    that validated during the pass was copied. *)
Theorem failed_build_keeps_copies (assets output_dir : Path) (manifest : JSON)
    (w w' : World FS) (msg : string) :
  build_bundle assets manifest output_dir false w = (Invalid msg, w') ->
  exists evs, log w' = (log w ++ evs)%list
    /\ (forall file doc, ~ In (EvWrite file doc) evs)
    /\ (forall src dest, In (EvCopy src dest) evs -> fs_exists (fs w') dest = true)
    /\ (forall pre d post st1 w1 m,
          manifest_modules manifest = Ok (pre ++ d :: post)%list ->
          build_loop assets output_dir false pre init_state w = (Ok st1, w1) ->
          parse_module (fs w1) d assets = Ok m ->
          forall src, In src (module_files m) ->
            exists dest, In (EvCopy src dest) evs /\ fs_exists (fs w') dest = true).
Proof.
  intros Hbuild.
  apply build_bundle_invalid in Hbuild as (mods & st & Hmods & Hloop & _ & _).
  destruct (build_loop_kept _ _ _ _ _ _ _ _ Hloop) as (_ & evs & Hlog & _ & Hsound).
  rewrite Forall_forall in Hsound.
  assert (Hcopies : forall src dest, In (EvCopy src dest) evs -> fs_exists (fs w') dest = true).
  { intros src dest Hin. exact (Hsound _ Hin). }
  exists evs. split; [exact Hlog|]. split; [|split; [exact Hcopies|]].
  - intros file doc Hin. exact (Hsound _ Hin).
  - intros pre d post st1 w1 m Hmods' Hpre Hparse src Hsrc.
    rewrite Hmods in Hmods'. injection Hmods' as ->.
    rewrite build_loop_app in Hloop.
    apply bindM_ok in Hloop as (st1' & w1' & Hpre' & Hrest).
    rewrite Hpre in Hpre'. injection Hpre' as <- <-.
    apply build_loop_ok in Hpre as (_ & _ & e1 & _ & _ & _ & Hl1 & _).
    simpl in Hrest. unfold bindM at 1, record in Hrest. simpl in Hrest.
    rewrite Hparse in Hrest.
    apply bindM_ok in Hrest as (s & w2 & Hemit & Hrest).
    apply emit_module_ok in Hemit as (_ & e2 & Hl2 & Hcp).
    apply build_loop_ok in Hrest as (_ & _ & e3 & _ & _ & _ & Hl3 & _).
    simpl in Hl2. rewrite Hl3, Hl2, Hl1, <- !app_assoc in Hlog.
    apply app_inv_head in Hlog. subst evs.
    destruct (Hcp eq_refl src Hsrc) as (dest & Hdest).
    assert (Hin : In (EvCopy src dest) (e1 ++ [EvValidate d] ++ e2 ++ e3)%list).
    { rewrite !in_app_iff. auto. }
    exists dest. split; [exact Hin | exact (Hcopies _ _ Hin)].
Qed.

End RealRuns.

(** The valid module's mesh was copied and is on disk although the build
    failed, and no manifest was written. *)
Lemma failed_build_keeps_copies_witness :
  fst failing_real_run
    = Invalid (build_failed_msg
        ["Module 'hull_c' references missing file for mesh: nowhere.obj"])
  /\ (forall file doc, ~ In (EvWrite file doc) (log (snd failing_real_run)))
  /\ (forall src dest, In (EvCopy src dest) (log (snd failing_real_run)) ->
        fs_exists (fs (snd failing_real_run)) dest = true)
  /\ (exists dest,
        In (EvCopy (mkPath Abs ["proj"; "assets"; "b.obj"]) dest)
           (log (snd failing_real_run))
        /\ fs_exists (fs (snd failing_real_run)) dest = true).
Proof.
  assert (Hrun : failing_real_run
                 = (Invalid (build_failed_msg
                      ["Module 'hull_c' references missing file for mesh: nowhere.obj"]),
                    snd failing_real_run)) by (vm_compute; reflexivity).
  destruct (@failed_build_keeps_copies SimFS SimFS_FileSystem SimFS_laws sim_repr
              _ _ _ _ _ _ Hrun) as (evs & Hlog & Hnw & Hcp & Hmods).
  assert (Hevs : evs = log (snd failing_real_run)) by (symmetry; exact Hlog).
  subst evs. split; [reflexivity|]. split; [exact Hnw|]. split; [exact Hcp|].
  eapply (Hmods [] module_fine [module_missing_mesh] init_state demo_world);
    [reflexivity | reflexivity | vm_compute; reflexivity | simpl; auto].
Defined.

(* ================================================================= *)
(** ** Dry runs and real runs *)

Section DryAndReal.

Context {FS : Type} `{FileSystem FS} `{!FileSystemLaws FS} `{PyRepr}.

(** A dry run leaves the file system alone: all it does is validate. *)
Lemma build_loop_dry_pure assets output_dir module_defs st w r w' :
  build_loop assets output_dir true module_defs st w = (r, w') ->
  exists evs, log w' = (log w ++ evs)%list
    /\ fs w' = fs w /\ Forall (fun e => is_validate e = true) evs.
Proof.
  intros Hrun.
  assert (Hinv : run_inv (fun f g evs => g = f /\ Forall (fun e => is_validate e = true) evs)
                   (fun _ => True)
                   (build_loop assets output_dir true module_defs st)).
  { apply run_inv_build_loop; auto; try discriminate.
    intros f g h e1 e2 [-> F1] [-> F2]. split; [reflexivity|].
    apply Forall_app; auto. }
  destruct (Hinv _ _ _ Hrun) as (_ & evs & Hlog & Hfs & Hval). eauto.
Qed.

(** When a dry-run loop found no error, the real loop over the same
    modules, started where files were at most added, either stops on a
    failed file operation or ends in the same state. *)
Lemma build_loop_real_after_dry assets output_dir module_defs st w st' w' wr r wr' :
  build_loop assets output_dir true module_defs st w = (Ok st', w') ->
  errors st' = [] ->
  fs_le (fs w) (fs wr) ->
  build_loop assets output_dir false module_defs st wr = (r, wr') ->
  r = Crash OSError \/ (r = Ok st' /\ fs_le (fs w) (fs wr')).
Proof.
  revert st w wr. induction module_defs as [|d rest IH]; intros st w wr Hdry Herr Hle Hreal.
  - injection Hdry as <- <-. injection Hreal as <- <-. auto.
  - simpl in Hdry, Hreal.
    unfold bindM at 1, record in Hdry. unfold bindM at 1, record in Hreal.
    simpl in Hdry, Hreal.
    destruct (parse_module (fs w) d assets) as [m|msg|e] eqn:Hparse.
    + rewrite (parse_module_mono _ _ _ _ _ Hle Hparse) in Hreal.
      unfold bindM in Hdry, Hreal. rewrite emit_module_dry in Hdry.
      destruct (emit_module m output_dir false _) as [[s|msg|e] w1] eqn:Hemit.
      * destruct (emit_module_kept _ _ _ _ _ _ Hemit) as (_ & evs & _ & Hle1 & _).
        apply emit_module_ok in Hemit as [-> _].
        assert (Hle' : fs_le (fs w) (fs w1)) by (eapply fs_le_trans; eassumption).
        exact (IH _ _ _ Hdry Herr Hle' Hreal).
      * destruct (emit_module_kept _ _ _ _ _ _ Hemit) as ([] & _).
      * destruct (emit_module_kept _ _ _ _ _ _ Hemit) as (<- & _).
        injection Hreal as <- _. auto.
    + apply build_loop_ok in Hdry as (_ & errs & _ & _ & He & _). simpl in He.
      rewrite Herr in He. destruct (errors st); discriminate.
    + discriminate.
Qed.

(** Two loops that both end without an error, over file systems that
    resolve paths alike, produce the same records. *)
Lemma build_loop_agree assets output_dir da db module_defs st wa wb sta wa' stb wb' :
  same_resolve (fs wa) (fs wb) ->
  build_loop assets output_dir da module_defs st wa = (Ok sta, wa') ->
  build_loop assets output_dir db module_defs st wb = (Ok stb, wb') ->
  errors sta = [] -> errors stb = [] ->
  sta = stb.
Proof.
  revert st wa wb. induction module_defs as [|d rest IH]; intros st wa wb Hres Ha Hb Ea Eb.
  - injection Ha as <- <-. injection Hb as <- <-. reflexivity.
  - simpl in Ha, Hb.
    unfold bindM at 1, record in Ha. unfold bindM at 1, record in Hb.
    simpl in Ha, Hb.
    destruct (parse_module (fs wa) d assets) as [ma|msg|e] eqn:Hpa; [| |discriminate].
    + destruct (parse_module (fs wb) d assets) as [mb|msg|e] eqn:Hpb; [| |discriminate].
      * rewrite (parse_module_agree _ _ _ _ _ _ Hres Hpa Hpb) in Ha.
        apply bindM_ok in Ha as (sa & wa1 & Hea & Ha).
        apply bindM_ok in Hb as (sb & wb1 & Heb & Hb).
        destruct (emit_module_kept _ _ _ _ _ _ Hea) as (_ & ? & _ & [Hra _] & _).
        destruct (emit_module_kept _ _ _ _ _ _ Heb) as (_ & ? & _ & [Hrb _] & _).
        apply emit_module_ok in Hea as [-> _]. apply emit_module_ok in Heb as [-> _].
        eapply IH; [|exact Ha|exact Hb|exact Ea|exact Eb].
        intros p. simpl in *. rewrite Hra, Hrb. apply Hres.
      * apply build_loop_ok in Hb as (_ & errs & _ & _ & He & _). simpl in He.
        rewrite Eb in He. destruct (errors st); discriminate.
    + apply build_loop_ok in Ha as (_ & errs & _ & _ & He & _). simpl in He.
      rewrite Ea in He. destruct (errors st); discriminate.
Qed.

(** What a successful [build_bundle] returned. *)
Lemma build_bundle_ok assets manifest output_dir dry_run w c w' :
  build_bundle assets manifest output_dir dry_run w = (Ok c, w') ->
  exists module_defs st w1 version,
    manifest_modules manifest = Ok module_defs
    /\ build_loop assets output_dir dry_run module_defs init_state w = (Ok st, w1)
    /\ errors st = []
    /\ py_getitem manifest "version" = Ok version
    /\ c = JObj [("version", version); ("generated", JBool true);
                 ("modules", JList (modules_out st))]
    /\ fs_le (fs w1) (fs w')
    /\ (dry_run = true -> w' = w1).
Proof.
  unfold build_bundle. intros Hrun.
  apply bindM_ok in Hrun as (mods & w0 & Hmods & Hrun).
  unfold lift in Hmods. injection Hmods as Hmods <-.
  apply bindM_ok in Hrun as (st & w1 & Hloop & Hrun).
  destruct (errors st) as [|e es] eqn:Herr; [|discriminate].
  apply bindM_ok in Hrun as (version & w2 & Hver & Hrun).
  unfold lift in Hver. injection Hver as Hver <-.
  apply bindM_ok in Hrun as (u & w3 & Hwrite & Hret).
  injection Hret as <- <-.
  exists mods, st, w1, version.
  do 5 (split; [first [assumption | reflexivity]|]). split.
  - destruct dry_run; simpl in Hwrite.
    + injection Hwrite as _ <-. apply fs_le_refl.
    + apply bindM_ok in Hwrite as (u1 & w4 & Hmk & Hwr).
      apply do_mkdir_ok in Hmk as (f1 & Hmk & ->).
      unfold do_write_json in Hwr. simpl in Hwr.
      destruct (fs_write_json f1 _ _) as [f2|] eqn:Hw; [|discriminate].
      injection Hwr as _ <-. simpl.
      eapply fs_le_trans; [eapply mkdir_p_le, Hmk | eapply write_json_le, Hw].
  - intros ->. simpl in Hwrite. injection Hwrite as _ <-. reflexivity.
Qed.

(** Two builds of one manifest that both return, from file systems that
    resolve paths alike, return the same document. *)
Lemma build_bundle_agree assets manifest output_dir da db wa wb ca cb wa' wb' :
  same_resolve (fs wa) (fs wb) ->
  build_bundle assets manifest output_dir da wa = (Ok ca, wa') ->
  build_bundle assets manifest output_dir db wb = (Ok cb, wb') ->
  ca = cb.
Proof.
  intros Hres Ha Hb.
  apply build_bundle_ok in Ha as (ma & sta & wa1 & va & Hma & Hla & Ea & Hva & -> & _).
  apply build_bundle_ok in Hb as (mb & stb & wb1 & vb & Hmb & Hlb & Eb & Hvb & -> & _).
  rewrite Hma in Hmb. injection Hmb as <-.
  rewrite Hva in Hvb. injection Hvb as <-.
  rewrite (build_loop_agree _ _ _ _ _ _ _ _ _ _ _ _ Hres Hla Hlb Ea Eb). reflexivity.
Qed.

(** When the dry run returns a document, the real run over the same input
    returns that document or stops on a failed file operation. *)
Lemma build_bundle_real_after_dry assets manifest output_dir w c w' r wr' :
  build_bundle assets manifest output_dir true w = (Ok c, w') ->
  build_bundle assets manifest output_dir false w = (r, wr') ->
  r = Ok c \/ r = Crash OSError.
Proof.
  intros Hdry Hreal.
  apply build_bundle_ok in Hdry as (mods & st & w1 & v & Hmods & Hloop & Herr & Hv & -> & _).
  unfold build_bundle, bindM at 1, lift at 1 in Hreal. rewrite Hmods in Hreal.
  unfold bindM at 1 in Hreal. fold init_state in Hreal.
  destruct (build_loop assets output_dir false mods init_state w) as [r1 wr1] eqn:Hrl.
  destruct (build_loop_real_after_dry _ _ _ _ _ _ _ _ _ _ Hloop Herr (fs_le_refl _) Hrl)
    as [-> | [-> _]].
  - injection Hreal as <- _. auto.
  - rewrite Herr in Hreal. unfold bindM, lift in Hreal. rewrite Hv in Hreal.
    simpl in Hreal. unfold do_mkdir in Hreal.
    destruct (fs_mkdir_p _ _); [|injection Hreal as <- _; auto].
    unfold do_write_json in Hreal. simpl in Hreal.
    destruct (fs_write_json _ _ _); injection Hreal as <- _; auto.
Qed.

(** C3, as the code has it: a dry run changes nothing on disk; when it
    returns a compiled manifest, a real run over the same input either
    returns the same document or stops on a failed file operation (it
    never returns another document, and raises no ValidationError); any
    two builds that both return, from file systems that resolve paths
    alike, return equal documents, so also equal module counts and
    destination strings; and a real run repeated on what the first real
    run left returns the same document again. *)
Theorem dry_and_real_runs_agree (assets output_dir : Path) (manifest : JSON)
    (w : World FS) :
  (forall r w', build_bundle assets manifest output_dir true w = (r, w') ->
     fs w' = fs w
     /\ exists evs, log w' = (log w ++ evs)%list
                    /\ Forall (fun e => is_validate e = true) evs)
  /\ (forall c w' r wr',
        build_bundle assets manifest output_dir true w = (Ok c, w') ->
        build_bundle assets manifest output_dir false w = (r, wr') ->
        r = Ok c \/ r = Crash OSError)
  /\ (forall da db wb ca cb wa' wb',
        same_resolve (fs w) (fs wb) ->
        build_bundle assets manifest output_dir da w = (Ok ca, wa') ->
        build_bundle assets manifest output_dir db wb = (Ok cb, wb') ->
        ca = cb /\ modules_count ca = modules_count cb)
  /\ (forall c1 w1 c2 w2,
        build_bundle assets manifest output_dir false w = (Ok c1, w1) ->
        build_bundle assets manifest output_dir false w1 = (Ok c2, w2) ->
        c1 = c2).
Proof.
  split; [|split; [|split]].
  - intros r w' Hrun. unfold build_bundle, bindM at 1, lift at 1 in Hrun.
    destruct (manifest_modules manifest) as [mods|m0|e0];
      [|injection Hrun as _ <-; split; [reflexivity|]; exists []; rewrite app_nil_r; auto ..].
    unfold bindM at 1 in Hrun.
    destruct (build_loop assets output_dir true mods _ w) as [r1 w1] eqn:Hloop.
    apply build_loop_dry_pure in Hloop as (evs & Hlog & Hfs & Hval).
    assert (Hw : w' = w1).
    { destruct r1 as [st|m1|e1]; [|injection Hrun as _ <-; reflexivity ..].
      destruct (errors st); [|injection Hrun as _ <-; reflexivity].
      unfold bindM, lift in Hrun. simpl in Hrun.
      destruct (py_getitem manifest "version"); injection Hrun as _ <-; reflexivity. }
    subst w'. split; [exact Hfs|]. exists evs. auto.
  - apply build_bundle_real_after_dry.
  - intros da db wb ca cb wa' wb' Hres Ha Hb.
    rewrite (build_bundle_agree _ _ _ _ _ _ _ _ _ _ _ Hres Ha Hb). auto.
  - intros c1 w1 c2 w2 H1 H2.
    eapply build_bundle_agree; [|exact H1|exact H2].
    apply fs_le_same_resolve.
    apply build_bundle_ok in H1 as (mods & st & w0 & v & _ & Hloop & _ & _ & _ & Hle & _).
    apply build_loop_kept in Hloop as (_ & evs & _ & Hle0 & _).
    eapply fs_le_trans; eassumption.
Qed.

End DryAndReal.

(** A valid manifest: the dry run leaves the file system as it was, and the
    real run returns the document of the dry run. *)
Lemma dry_and_real_runs_agree_witness :
  fs (snd ok_dry_run) = demo_fs
  /\ fst ok_dry_run = Ok ok_compiled
  /\ (fst ok_real_run = Ok ok_compiled \/ fst ok_real_run = Crash OSError)
  /\ fst ok_real_run = Ok ok_compiled.
Proof.
  destruct (@dry_and_real_runs_agree SimFS SimFS_FileSystem SimFS_laws sim_repr
              demo_assets demo_out (manifest_of [module_fine]) demo_world)
    as (Hpure & Hsame & _ & _).
  assert (Hdry : ok_dry_run = (Ok ok_compiled, snd ok_dry_run))
    by (vm_compute; reflexivity).
  split; [exact (proj1 (Hpure _ _ (surjective_pairing ok_dry_run)))|].
  split; [reflexivity|].
  split; [exact (Hsame _ _ _ _ Hdry (surjective_pairing ok_real_run))|].
  reflexivity.
Defined.

(** A reference to a directory passes validation, so the dry run returns a
    compiled manifest; the real run over the same input returns none: the
    copy of the directory fails. *)
Lemma dir_mesh_counterexample :
  fst (@build_bundle SimFS _ sim_repr demo_assets (manifest_of [module_dir_mesh])
         demo_out true demo_world)
    = Ok dir_mesh_compiled
  /\ fst (@build_bundle SimFS _ sim_repr demo_assets (manifest_of [module_dir_mesh])
            demo_out false demo_world)
     = Crash OSError.
Proof. split; reflexivity. Qed.

(* ================================================================= *)
(** ** Module ids are not compared *)

(** C9: nothing compares module ids.  Whatever the file system, two module
    definitions that validate to the same id and type build together: both
    records are in the compiled manifest and both modules get the same
    destination subtree.  The manifest made of [dup_first] and
    [dup_second] is one: it builds, for real and dry, and both modules put
    their mesh under [modules/hull/dup/]. *)
Theorem duplicate_ids_accepted :
  (forall (FS : Type) (FSops : FileSystem FS) (repr : PyRepr)
          (assets output_dir : Path) (manifest version d1 d2 : JSON)
          (m1 m2 : ModuleAsset) (w : World FS),
     manifest_modules manifest = Ok [d1; d2] ->
     py_getitem manifest "version" = Ok version ->
     parse_module (fs w) d1 assets = Ok m1 ->
     parse_module (fs w) d2 assets = Ok m2 ->
     module_id m1 = module_id m2 ->
     module_type m1 = module_type m2 ->
     fst (build_bundle assets manifest output_dir true w)
       = Ok (JObj [("version", version); ("generated", JBool true);
                   ("modules", JList [sanitized_record m1; sanitized_record m2])])
     /\ module_target_of m1 = module_target_of m2)
  /\ (exists d1 d2, dup_first = JObj d1 /\ dup_second = JObj d2
        /\ py_get d1 "id" = py_get d2 "id" /\ py_get d1 "type" = py_get d2 "type")
  /\ fst (@build_bundle SimFS _ sim_repr demo_assets (manifest_of [dup_first; dup_second])
            demo_out false demo_world)
     = Ok dup_compiled
  /\ fst (@build_bundle SimFS _ sim_repr demo_assets (manifest_of [dup_first; dup_second])
            demo_out true demo_world)
     = Ok dup_compiled
  /\ modules_count dup_compiled = 2.
Proof.
  split.
  - intros FS FSops repr assets output_dir manifest version d1 d2 m1 m2 w
      Hmods Hver Hp1 Hp2 Hid Hty.
    rewrite (two_valid_modules_dry_build assets output_dir _ _ _ _ _ _ _
               Hmods Hver Hp1 Hp2).
    split; [reflexivity|]. unfold module_target_of. rewrite Hid, Hty. reflexivity.
  - split; [do 2 eexists; repeat split; reflexivity|].
    repeat split; vm_compute; reflexivity.
Qed.

(** The two modules of id [dup]: one subtree for both. *)
Lemma duplicate_ids_accepted_witness :
  fst (@build_bundle SimFS _ sim_repr demo_assets (manifest_of [dup_first; dup_second])
         demo_out true demo_world)
    = Ok (JObj [("version", JInt 1); ("generated", JBool true);
                ("modules", JList [@sanitized_record sim_repr dup_first_asset;
                                   @sanitized_record sim_repr dup_second_asset])])
  /\ module_target_of dup_first_asset = module_target_of dup_second_asset.
Proof.
  apply (proj1 duplicate_ids_accepted SimFS SimFS_FileSystem sim_repr demo_assets demo_out
           (manifest_of [dup_first; dup_second]) (JInt 1) dup_first dup_second
           dup_first_asset dup_second_asset demo_world);
    reflexivity.
Defined.

(* ================================================================= *)
(** ** LOD levels *)

Section Levels.

Context {FS : Type} `{FileSystem FS} `{PyRepr}.

Lemma existsb_Zeqb_false (z : Z) (seen : list Z) :
  existsb (Z.eqb z) seen = false <-> ~ In z seen.
Proof.
  split.
  - intros Hex Hin. assert (existsb (Z.eqb z) seen = true); [|congruence].
    apply existsb_exists. exists z. split; [exact Hin | apply Z.eqb_refl].
  - intros Hn. destruct (existsb (Z.eqb z) seen) eqn:Hex; [|reflexivity].
    apply existsb_exists in Hex as (y & Hy & Heq). apply Z.eqb_eq in Heq. subst y.
    contradiction.
Qed.

(** A LOD entry that parses has a non-negative integer level, new to the
    module. *)
Lemma parse_lod_ok f assets mid idx lod seen entry z :
  parse_lod f assets mid idx lod seen = Ok (entry, z) ->
  lod_level_of lod = Some z /\ ~ In z seen /\ (0 <= z)%Z
  /\ py_int (level entry) = Some z.
Proof.
  unfold parse_lod, lod_level_of. destruct lod as [| | | | | |fields]; try discriminate.
  destruct (py_int (py_get fields "level")) as [z0|] eqn:Hint; try discriminate.
  destruct (z0 <? 0)%Z eqn:Hneg; try discriminate.
  destruct (existsb (Z.eqb z0) seen) eqn:Hseen; try discriminate.
  destruct (ensure_relative_path f assets (py_get fields "mesh") "mesh" mid);
    try discriminate. simpl.
  destruct (truthy _); simpl;
    [destruct (ensure_relative_path f assets (py_get fields "collision") "collision" mid);
     try discriminate; simpl|];
    intros [= <- <-]; (split; [reflexivity|]);
    (split; [apply existsb_Zeqb_false, Hseen|]);
    (split; [apply Z.ltb_ge, Hneg | exact Hint]).
Qed.

(** The levels of the entries of a list that parses are not among the
    levels seen before the list. *)
Lemma parse_lods_ok_fresh f assets mid raw idx acc seen ls :
  parse_lods f assets mid idx raw acc seen = Ok ls ->
  forall lod z, In lod raw -> lod_level_of lod = Some z -> ~ In z seen /\ (0 <= z)%Z.
Proof.
  revert idx acc seen. induction raw as [|l rest IH]; intros idx acc seen Hok lod z Hin Hz.
  - contradiction.
  - simpl in Hok.
    destruct (parse_lod f assets mid idx l seen) as [[entry z0]| |] eqn:Hl; try discriminate.
    simpl in Hok. apply parse_lod_ok in Hl as (Hz0 & Hfresh & Hpos & _).
    destruct Hin as [->|Hin].
    + rewrite Hz in Hz0. injection Hz0 as ->. auto.
    + destruct (IH _ _ _ Hok lod z Hin Hz) as [Hn Hp]. split; [|exact Hp].
      intros Hseen. apply Hn. right. exact Hseen.
Qed.

(** No two entries of a list that parses have the same level. *)
Lemma parse_lods_ok_distinct f assets mid raw idx acc seen ls i j li lj z :
  parse_lods f assets mid idx raw acc seen = Ok ls ->
  i < j -> nth_error raw i = Some li -> nth_error raw j = Some lj ->
  lod_level_of li = Some z -> lod_level_of lj = Some z -> False.
Proof.
  revert idx acc seen i j. induction raw as [|l rest IH];
    intros idx acc seen i j Hok Hij Hi Hj Hzi Hzj.
  - destruct i; discriminate.
  - simpl in Hok.
    destruct (parse_lod f assets mid idx l seen) as [[entry z0]| |] eqn:Hl; try discriminate.
    simpl in Hok. destruct j as [|j]; [lia|]. simpl in Hj.
    destruct i as [|i]; simpl in Hi.
    + injection Hi as ->. apply parse_lod_ok in Hl as (Hz0 & _).
      rewrite Hzi in Hz0. injection Hz0 as <-.
      apply (proj1 (parse_lods_ok_fresh _ _ _ _ _ _ _ _ Hok lj z (nth_error_In _ _ Hj) Hzj)).
      left. reflexivity.
    + eapply (IH _ _ _ i j Hok); eauto. lia.
Qed.

(** After a prefix that parses, the loop goes on with the entries parsed
    so far and with exactly the levels of the prefix added to those seen. *)
Lemma parse_lods_app f assets mid pre idx acc seen ls :
  parse_lods f assets mid idx pre acc seen = Ok ls ->
  exists seen',
    (forall z, In z seen' <->
               In z seen \/ exists lod, In lod pre /\ lod_level_of lod = Some z)
    /\ forall rest, parse_lods f assets mid idx (pre ++ rest) acc seen
                    = parse_lods f assets mid (idx + List.length pre) rest ls seen'.
Proof.
  revert idx acc seen. induction pre as [|l pre IH]; intros idx acc seen Hok.
  - injection Hok as <-. exists seen. split.
    + intros z. split; [auto|]. intros [Hin|(lod & [] & _)]. exact Hin.
    + intros rest. simpl. rewrite Nat.add_0_r. reflexivity.
  - simpl in Hok.
    destruct (parse_lod f assets mid idx l seen) as [[entry z0]| |] eqn:Hl; try discriminate.
    simpl in Hok. destruct (IH _ _ _ Hok) as (seen' & Hseen & Happ).
    exists seen'. split.
    + intros z. rewrite Hseen. apply parse_lod_ok in Hl as (Hz0 & _). simpl. split.
      * intros [[<-|Hin]|(lod & Hin & Hz)]; eauto.
      * intros [Hin|(lod & [<-|Hin] & Hz)]; eauto.
        rewrite Hz in Hz0. injection Hz0 as ->. auto.
    + intros rest. simpl. rewrite Hl. simpl. rewrite Happ.
      replace (S idx + List.length pre) with (idx + S (List.length pre)) by lia.
      reflexivity.
Qed.

End Levels.

Section LevelsPerModule.

Context {FS : Type} `{FileSystem FS} `{!FileSystemLaws FS} `{PyRepr}.

(** C4, as the code has it.  A module definition with two LOD entries of
    the same level is never accepted.  When its id and type pass, its LOD
    entries before the repeated one parse, and the repeated entry is an
    object, the failure is the "reuses LOD level" one; otherwise an earlier
    failure takes its place.  The levels seen belong to one call of
    [parse_module]: two modules that each validate build together, in a
    dry run and in a real run (where only a file operation can stop the
    build), also when they share a level. *)
Theorem lod_levels_unique_per_module (f : FS) (assets : Path) :
  (forall d raw i j li lj z m,
     py_get d "lods" = JList raw ->
     i < j -> nth_error raw i = Some li -> nth_error raw j = Some lj ->
     lod_level_of li = Some z -> lod_level_of lj = Some z ->
     parse_module f (JObj d) assets <> Ok m)
  /\ (forall d mid ty pre fields post ls z,
        check_module_id d = Ok mid ->
        check_module_type mid d = Ok ty ->
        py_get d "lods" = JList (pre ++ JObj fields :: post)%list ->
        parse_lods f assets mid 0 pre [] [] = Ok ls ->
        py_int (py_get fields "level") = Some z ->
        (exists lod, In lod pre /\ lod_level_of lod = Some z) ->
        parse_module f (JObj d) assets
          = Invalid (reused_level_msg mid (py_get fields "level")))
  /\ (forall manifest version d1 d2 m1 m2 l1 l2 output_dir w,
        fs w = f ->
        manifest_modules manifest = Ok [d1; d2] ->
        py_getitem manifest "version" = Ok version ->
        parse_module f d1 assets = Ok m1 ->
        parse_module f d2 assets = Ok m2 ->
        In l1 (lods m1) -> In l2 (lods m2) -> py_int (level l1) = py_int (level l2) ->
        let compiled :=
          JObj [("version", version); ("generated", JBool true);
                ("modules", JList [sanitized_record m1; sanitized_record m2])] in
        fst (build_bundle assets manifest output_dir true w) = Ok compiled
        /\ forall r w', build_bundle assets manifest output_dir false w = (r, w') ->
                        r = Ok compiled \/ r = Crash OSError).
Proof.
  split; [|split].
  - intros d raw i j li lj z m Hlods Hij Hi Hj Hzi Hzj Hok.
    apply parse_module_ok in Hok
      as (d' & lod_raw & _ & _ & [= <-] & _ & _ & _ & _ & Hraw & Hparse & _).
    unfold check_lods_field in Hraw. rewrite Hlods in Hraw.
    destruct raw as [|l0 raw']; [discriminate|]. injection Hraw as <-.
    eapply parse_lods_ok_distinct; eauto.
  - intros d mid ty pre fields post ls z Hid Hty Hlods Hpre Hz (lod & Hin & Hlz).
    unfold parse_module. rewrite Hid. simpl. rewrite Hty. simpl.
    unfold check_lods_field. rewrite Hlods.
    destruct (pre ++ JObj fields :: post)%list as [|l0 raw'] eqn:Hraw;
      [destruct pre; discriminate|]. rewrite <- Hraw. clear Hraw. simpl bind.
    destruct (parse_lods_ok_fresh _ _ _ _ _ _ _ _ Hpre lod z Hin Hlz) as [_ Hpos].
    destruct (parse_lods_app _ _ _ _ _ _ _ _ Hpre) as (seen' & Hseen & Happ).
    rewrite Happ. simpl. rewrite Hz.
    replace (z <? 0)%Z with false by (symmetry; apply Z.ltb_ge; exact Hpos).
    replace (existsb (Z.eqb z) seen') with true; [reflexivity|].
    symmetry. apply existsb_exists. exists z. split; [|apply Z.eqb_refl].
    apply Hseen. right. eauto.
  - intros manifest version d1 d2 m1 m2 l1 l2 output_dir w Hf Hmods Hver Hp1 Hp2 _ _ _
      compiled. subst f.
    pose proof (two_valid_modules_dry_build assets output_dir _ _ _ _ _ _ _
                  Hmods Hver Hp1 Hp2) as Hdry.
    fold compiled in Hdry.
    split; [rewrite Hdry; reflexivity|].
    intros r w' Hreal. eapply build_bundle_real_after_dry; eassumption.
Qed.

End LevelsPerModule.

(** Level 0 twice in one module: rejected, here with the "reuses LOD level"
    failure; level 0 in each of two modules: both validate and the build
    goes through. *)
Lemma lod_levels_unique_per_module_witness :
  (forall m, @parse_module SimFS _ sim_repr demo_fs (JObj dup_level_defn) demo_assets
             <> Ok m)
  /\ @parse_module SimFS _ sim_repr demo_fs (JObj dup_level_defn) demo_assets
     = Invalid "Module 'hull_g' reuses LOD level 0"
  /\ exists compiled,
       fst (@build_bundle SimFS _ sim_repr demo_assets (manifest_of [module_fine; dup_first])
              demo_out true demo_world) = Ok compiled
       /\ modules_count compiled = 2
       /\ (fst (@build_bundle SimFS _ sim_repr demo_assets
                  (manifest_of [module_fine; dup_first]) demo_out false demo_world)
             = Ok compiled
           \/ fst (@build_bundle SimFS _ sim_repr demo_assets
                     (manifest_of [module_fine; dup_first]) demo_out false demo_world)
                = Crash OSError).
Proof.
  destruct (@lod_levels_unique_per_module SimFS SimFS_FileSystem SimFS_laws sim_repr
              demo_fs demo_assets) as (Hnever & Hreuse & Hcross).
  split; [|split].
  - intros m.
    eapply (Hnever dup_level_defn _ 0 2 _ _ 0%Z m);
      [reflexivity | lia | reflexivity ..].
  - eapply (Hreuse dup_level_defn "hull_g" "hull"
             [JObj [("level", JInt 0); ("mesh", JStr "a.obj")];
              JObj [("level", JInt 1); ("mesh", JStr "b.obj")]]
             [("level", JInt 0); ("mesh", JStr "b.obj")] [] _ 0%Z);
      try reflexivity.
    eexists. split; [left; reflexivity | reflexivity].
  - assert (H1 : exists m1 l1,
               @parse_module SimFS _ sim_repr demo_fs module_fine demo_assets = Ok m1
               /\ In l1 (lods m1) /\ py_int (level l1) = Some 0%Z).
    { do 2 eexists. split; [reflexivity|]. split; [left; reflexivity | reflexivity]. }
    assert (H2 : exists m2 l2,
               @parse_module SimFS _ sim_repr demo_fs dup_first demo_assets = Ok m2
               /\ In l2 (lods m2) /\ py_int (level l2) = Some 0%Z).
    { do 2 eexists. split; [reflexivity|]. split; [left; reflexivity | reflexivity]. }
    destruct H1 as (m1 & l1 & Hp1 & Hl1 & Hz1). destruct H2 as (m2 & l2 & Hp2 & Hl2 & Hz2).
    destruct (Hcross (manifest_of [module_fine; dup_first]) (JInt 1) module_fine dup_first
                m1 m2 l1 l2 demo_out demo_world eq_refl eq_refl eq_refl Hp1 Hp2 Hl1 Hl2
                (eq_trans Hz1 (eq_sym Hz2)))
      as [Hdry Hreal].
    eexists. split; [exact Hdry|]. split; [reflexivity|].
    exact (Hreal _ _ (surjective_pairing _)).
Defined.

(** Level 0 twice, but the first mesh is missing: the failure is the
    missing file.  Level 0 twice, but the type is a list: [TypeError], no
    ValidationError at all. *)
Lemma repeated_level_counterexample :
  (exists d raw, dup_level_missing_mesh = JObj d /\ py_get d "lods" = JList raw
                 /\ map lod_level_of raw = [Some 0%Z; Some 0%Z])
  /\ @parse_module SimFS _ sim_repr demo_fs dup_level_missing_mesh demo_assets
     = Invalid "Module 'hull_e' references missing file for mesh: nowhere.obj"
  /\ (exists d raw, dup_level_list_type = JObj d /\ py_get d "lods" = JList raw
                    /\ map lod_level_of raw = [Some 0%Z; Some 0%Z])
  /\ @parse_module SimFS _ sim_repr demo_fs dup_level_list_type demo_assets
     = Crash TypeError.
Proof.
  split; [do 2 eexists; repeat split; reflexivity|].
  split; [reflexivity|].
  split; [do 2 eexists; repeat split; reflexivity|].
  reflexivity.
Qed.

(* ================================================================= *)
(** ** Path parts *)

Lemma split_slash_no_slash (s : string) :
  Forall (fun x => has_slash x = false) (split_slash s).
Proof.
  induction s as [|c s IH]; simpl.
  - repeat constructor.
  - destruct (Ascii.eqb c slash) eqn:Hc.
    + constructor; [reflexivity | exact IH].
    + destruct (split_slash s) as [|seg segs].
      * repeat constructor. simpl. rewrite Hc. reflexivity.
      * inversion IH; subst. constructor; [|assumption]. simpl. rewrite Hc. assumption.
Qed.

Lemma split_slash_single (s : string) : has_slash s = false -> split_slash s = [s].
Proof.
  induction s as [|c s IH]; simpl; [reflexivity|].
  destruct (Ascii.eqb c slash); simpl; [discriminate|].
  intros Hs. rewrite (IH Hs). reflexivity.
Qed.

Lemma root_of_no_slash (s : string) : has_slash s = false -> root_of s = Rel.
Proof.
  destruct s as [|c s]; simpl; [reflexivity|].
  destruct (Ascii.eqb c slash); simpl; [discriminate | reflexivity].
Qed.

(** A single valid component parses to itself. *)
Lemma parse_path_part (s : string) : valid_part s = true -> parse_path s = mkPath Rel [s].
Proof.
  unfold valid_part. intros Hv. apply andb_true_iff in Hv as [Hk Hs].
  apply negb_true_iff in Hs. unfold parse_path.
  rewrite (root_of_no_slash _ Hs), (split_slash_single _ Hs). simpl. rewrite Hk.
  reflexivity.
Qed.

Lemma parse_path_wf (s : string) : wf_path (parse_path s).
Proof.
  unfold wf_path, parse_path. simpl. apply Forall_forall. intros x Hx.
  apply filter_In in Hx as [Hin Hk]. unfold valid_part. rewrite Hk. simpl.
  pose proof (split_slash_no_slash s) as Hall. rewrite Forall_forall in Hall.
  rewrite (Hall _ Hin). reflexivity.
Qed.

Lemma pjoin_wf (p q : Path) : wf_path p -> wf_path q -> wf_path (pjoin p q).
Proof.
  unfold wf_path, pjoin. intros Hp Hq.
  destruct (root q); simpl; [apply Forall_app; auto | assumption ..].
Qed.

Lemma last_Forall (Q : string -> Prop) (l : list string) (d : string) :
  Forall Q l -> l <> [] -> Q (last l d).
Proof.
  induction l as [|x l IH]; intros Hall Hne; [contradiction|].
  inversion Hall; subst. destruct l as [|y l]; [assumption|].
  apply IH; [assumption | discriminate].
Qed.

Lemma prefixb_nonempty (p l : list string) : prefixb p l = true -> p <> [] -> l <> [].
Proof. destruct p; [contradiction|]. destruct l; [discriminate | discriminate]. Qed.

Lemma join_snoc (l : list string) (x : string) :
  l <> [] -> join "/" (l ++ [x]) = join "/" l ++ "/" ++ x.
Proof.
  unfold join. induction l as [|a l IH]; intros Hne; [contradiction|].
  destruct l as [|b l]; [reflexivity|].
  change (String.concat "/" ((a :: b :: l) ++ [x]))
    with (a ++ "/" ++ String.concat "/" ((b :: l) ++ [x])).
  rewrite IH by discriminate.
  change (String.concat "/" (a :: b :: l)) with (a ++ "/" ++ String.concat "/" (b :: l)).
  rewrite !str_app_assoc. reflexivity.
Qed.

Lemma uint_string_no_slash (d : Decimal.uint) :
  has_slash (NilEmpty.string_of_uint d) = false.
Proof. induction d; simpl; auto. Qed.

Lemma Z_to_string_no_slash (z : Z) : has_slash (Z_to_string z) = false.
Proof.
  unfold Z_to_string, NilZero.string_of_int, NilZero.string_of_uint.
  destruct (Z.to_int z) as [d|d]; destruct d; simpl; auto using uint_string_no_slash.
Qed.

(** The subdirectory of a LOD is one valid component. *)
Lemma lod_subdir_valid `{PyRepr} (lvl : JSON) (z : Z) :
  py_int lvl = Some z -> valid_part ("lod_" ++ py_str lvl) = true.
Proof.
  destruct lvl as [|b|z0| | | |]; try discriminate; intros _.
  - destruct b; reflexivity.
  - unfold valid_part. simpl. rewrite Z_to_string_no_slash. reflexivity.
Qed.

(* ================================================================= *)
(** ** The files of a validated module *)

Section ValidatedFiles.

Context {FS : Type} `{FileSystem FS} `{PyRepr}.

Lemma ensure_relative_path_within (f : FS) assets v field mid p :
  ensure_relative_path f assets v field mid = Ok p -> resolved_within f assets p.
Proof.
  intros Hok. apply ensure_relative_path_ok in Hok as (s & _ & _ & Hp & _ & Hrel).
  split; [exists s; exact Hp | exact Hrel].
Qed.

Lemma resolve_all_within (f : FS) assets field mid entries acc ps :
  resolve_all f assets field mid entries acc = Ok ps ->
  Forall (resolved_within f assets) acc -> Forall (resolved_within f assets) ps.
Proof.
  revert acc. induction entries as [|e rest IH]; intros acc Hok Hacc; simpl in Hok.
  - injection Hok as <-. exact Hacc.
  - destruct (ensure_relative_path f assets e field mid) as [p| |] eqn:He; try discriminate.
    simpl in Hok. apply (IH _ Hok). apply Forall_app. split; [exact Hacc|].
    constructor; [|constructor]. eapply ensure_relative_path_within, He.
Qed.

Lemma parse_lod_within (f : FS) assets mid idx lod seen entry z :
  parse_lod f assets mid idx lod seen = Ok (entry, z) -> lod_within f assets entry.
Proof.
  intros Hok. pose proof (parse_lod_ok _ _ _ _ _ _ _ _ Hok) as (_ & _ & _ & Hint).
  unfold parse_lod in Hok. destruct lod as [| | | | | |fields]; try discriminate.
  destruct (py_int (py_get fields "level")) as [z0|]; try discriminate.
  destruct (z0 <? 0)%Z; try discriminate.
  destruct (existsb (Z.eqb z0) seen); try discriminate.
  destruct (ensure_relative_path f assets (py_get fields "mesh") "mesh" mid)
    as [mp| |] eqn:Hm; try discriminate. simpl in Hok.
  apply ensure_relative_path_within in Hm.
  destruct (truthy _); simpl in Hok.
  - destruct (ensure_relative_path f assets (py_get fields "collision") "collision" mid)
      as [cp| |] eqn:Hc; try discriminate. simpl in Hok.
    apply ensure_relative_path_within in Hc. injection Hok as <- <-.
    split; [exact Hm|]. split; [|eauto]. simpl. intros c [= <-]. exact Hc.
  - injection Hok as <- <-. split; [exact Hm|]. split; [|eauto]. simpl. discriminate.
Qed.

Lemma parse_lods_within (f : FS) assets mid raw idx acc seen ls :
  parse_lods f assets mid idx raw acc seen = Ok ls ->
  Forall (lod_within f assets) acc -> Forall (lod_within f assets) ls.
Proof.
  revert idx acc seen. induction raw as [|l rest IH]; intros idx acc seen Hok Hacc;
    simpl in Hok.
  - injection Hok as <-. exact Hacc.
  - destruct (parse_lod f assets mid idx l seen) as [[entry z]| |] eqn:Hl; try discriminate.
    simpl in Hok. apply (IH _ _ _ Hok). apply Forall_app. split; [exact Hacc|].
    constructor; [|constructor]. eapply parse_lod_within, Hl.
Qed.

Lemma check_module_type_ok (mid : string) (d : Dict) (ty : string) :
  check_module_type mid d = Ok ty -> In ty MODULE_TYPES.
Proof.
  unfold check_module_type. destruct (py_get d "type"); try discriminate.
  destruct (existsb (String.eqb s) MODULE_TYPES) eqn:Hex; try discriminate.
  intros [= <-]. apply existsb_exists in Hex as (x & Hin & Heq).
  apply String.eqb_eq in Heq. subst x. exact Hin.
Qed.

(** The design document's ResolvedPath: every file of a validated module
    is a resolved reference inside the resolved asset root; its levels are
    integers and its type is one of the four. *)
Lemma parse_module_within (f : FS) (d : JSON) (assets : Path) (m : ModuleAsset) :
  parse_module f d assets = Ok m ->
  Forall (lod_within f assets) (lods m)
  /\ Forall (resolved_within f assets) (materials m)
  /\ Forall (resolved_within f assets) (thumbnails m)
  /\ Forall (resolved_within f assets) (extra_files m)
  /\ In (module_type m) MODULE_TYPES.
Proof.
  intros Hok.
  apply parse_module_ok in Hok
    as (fields & raw & me & ee & _ & _ & _ & Hty & _ & _ & Hlods & _ & Hmat & Hth & _ & Hex).
  split; [eapply parse_lods_within; [exact Hlods | constructor]|].
  split; [eapply resolve_all_within; [exact Hmat | constructor]|].
  split; [|split; [eapply resolve_all_within; [exact Hex | constructor]
                  | eapply check_module_type_ok, Hty]].
  unfold parse_thumbnails in Hth.
  assert (Hlegacy :
    match py_get fields "thumbnail" with
    | JStr s => p <- ensure_relative_path f assets (JStr s) "thumbnail" (module_id m) ;; Ok [p]
    | _ => Ok []
    end = Ok (thumbnails m) -> Forall (resolved_within f assets) (thumbnails m)).
  { destruct (py_get fields "thumbnail"); try (intros [= <-]; constructor).
    destruct (ensure_relative_path f assets (JStr s) "thumbnail" (module_id m))
      as [p| |] eqn:Hp; try discriminate.
    intros [= <-]. constructor; [|constructor]. eapply ensure_relative_path_within, Hp. }
  destruct (py_get fields "thumbnails"); try (exact (Hlegacy Hth)).
  eapply resolve_all_within; [exact Hth | constructor].
Qed.

End ValidatedFiles.

(* ================================================================= *)
(** ** The layout of the bundle *)

Lemma as_posix_rel (ps : list string) : ps <> [] -> as_posix (mkPath Rel ps) = join "/" ps.
Proof. destruct ps; [contradiction | reflexivity]. Qed.

Lemma normal_relative_inv (s : string) :
  normal_relative s = true ->
  exists p ps, parse_path s = mkPath Rel (p :: ps) /\ join "/" (p :: ps) = s.
Proof.
  unfold normal_relative. destruct (parse_path s) as [[| |] [|p ps]]; try discriminate.
  intros Heq. apply String.eqb_eq in Heq. eauto.
Qed.

Lemma module_target_layout (m : ModuleAsset) (ps : list string) :
  In (module_type m) MODULE_TYPES ->
  parse_path (module_id m) = mkPath Rel ps ->
  module_target_of m = mkPath Rel ("modules" :: module_type m :: ps).
Proof.
  intros Hty Hid. unfold module_target_of, pdiv. rewrite Hid.
  simpl in Hty. destruct Hty as [<-|[<-|[<-|[<-|[]]]]]; reflexivity.
Qed.

(** A destination string spelled out, for a target with known parts and
    valid components. *)
Lemma dest_string_layout (m : ModuleAsset) (p : string) (ps : list string)
    (subdir : string) (src : Path) :
  module_target_of m = mkPath Rel ("modules" :: module_type m :: p :: ps) ->
  join "/" (p :: ps) = module_id m ->
  valid_part subdir = true ->
  valid_part (name src) = true ->
  dest_string (pdiv (module_target_of m) subdir) src
  = layout_string (module_type m) (module_id m) subdir (name src).
Proof.
  intros Htarget Hid Hsub Hname. unfold dest_string, pdiv.
  rewrite Htarget, (parse_path_part _ Hsub), (parse_path_part _ Hname).
  unfold pjoin. simpl root. cbv iota. simpl parts.
  rewrite as_posix_rel by discriminate.
  change ("modules" :: module_type m :: p :: ps ++ [subdir])%list
    with (("modules" :: module_type m :: p :: ps) ++ [subdir])%list.
  rewrite !join_snoc by (try discriminate; destruct ps; discriminate).
  change (join "/" ("modules" :: module_type m :: p :: ps))
    with ("modules" ++ "/" ++ module_type m ++ "/" ++ join "/" (p :: ps)).
  rewrite Hid. unfold layout_string. simpl. rewrite !str_app_assoc. reflexivity.
Qed.

Section Layout.

Context {FS : Type} `{FileSystem FS} `{!FileSystemLaws FS} `{PyRepr}.

(** The basename of a validated file is one valid component, as long as
    the asset root is not the root of the file system. *)
Lemma resolved_name_valid (f : FS) (assets p : Path) :
  wf_path assets -> parts (fs_resolve f assets) <> [] ->
  resolved_within f assets p -> valid_part (name p) = true.
Proof.
  intros Hwf Hroot [(s & ->) Hrel].
  pose proof (resolve_wf f _ (pjoin_wf _ _ Hwf (parse_path_wf s))) as Hp.
  unfold is_relative_to in Hrel. apply andb_true_iff in Hrel as [_ Hpre].
  apply (last_Forall (fun x => valid_part x = true)); [exact Hp|].
  eapply prefixb_nonempty; eassumption.
Qed.

(** C7, as the code has it: for a validated module whose id is a relative
    path in normal form (in particular a single name), with an asset root
    that is not the root of the file system, every destination string is
    [modules/<type>/<id>/<subdirectory>/<basename>]: the subdirectory is
    [lod_<level>] for the mesh and the collision file of a LOD, and
    [materials], [thumbnails], [extras] for the other files; the basename
    is the name of the resolved source file, a single path component. *)
Theorem destination_layout (f : FS) (assets output_dir : Path) (d : JSON)
    (m : ModuleAsset) (dry_run : bool) (w w' : World FS) (rec : JSON) :
  wf_path assets ->
  parts (fs_resolve f assets) <> [] ->
  parse_module f d assets = Ok m ->
  normal_relative (module_id m) = true ->
  emit_module m output_dir dry_run w = (Ok rec, w') ->
  exists s, rec = JObj s
    /\ dict_get "lods" s
       = Some (JList (map (lod_layout (module_type m) (module_id m)) (lods m)))
    /\ dict_get "materials" s
       = layout_field (module_type m) (module_id m) "materials" (materials m)
    /\ dict_get "thumbnails" s
       = layout_field (module_type m) (module_id m) "thumbnails" (thumbnails m)
    /\ dict_get "extraFiles" s
       = layout_field (module_type m) (module_id m) "extras" (extra_files m)
    /\ (forall p, In p (module_files m) -> valid_part (name p) = true).
Proof.
  intros Hwf Hroot Hparse Hnorm Hemit.
  apply emit_module_ok in Hemit as [-> _].
  destruct (parse_module_within _ _ _ _ Hparse) as (Hlods & Hmat & Hth & Hex & Hty).
  destruct (normal_relative_inv _ Hnorm) as (p0 & ps & Hid & Hjoin).
  pose proof (module_target_layout m _ Hty Hid) as Htarget.
  rewrite Forall_forall in Hlods, Hmat, Hth, Hex.
  assert (Hname : forall p, resolved_within f assets p -> valid_part (name p) = true)
    by (intros p; apply resolved_name_valid; assumption).
  assert (Hfiles : forall subdir files,
            valid_part subdir = true ->
            (forall p, In p files -> resolved_within f assets p) ->
            match files with
            | [] => None
            | x :: xs => Some (JList (map JStr
                           (map (dest_string (pdiv (module_target_of m) subdir)) (x :: xs))))
            end = layout_field (module_type m) (module_id m) subdir files).
  { intros subdir files Hsub Hall. unfold layout_field.
    destruct files as [|x xs]; [reflexivity|]. do 3 f_equal.
    apply map_ext_in. intros p Hin.
    eapply dest_string_layout; eauto. }
  destruct (sanitized_record_get m) as (s & Hs & _ & _ & _ & Hl & Hm & Ht & He & _).
  exists s. split; [exact Hs|].
  split; [|split; [|split; [|split]]].
  - rewrite Hl. do 2 f_equal. apply map_ext_in. intros lod Hin.
    destruct (Hlods _ Hin) as (Hmesh & Hcol & z & Hz).
    pose proof (lod_subdir_valid _ _ Hz) as Hsub.
    unfold lod_record, lod_layout, lod_target.
    rewrite (dest_string_layout m p0 ps _ _ Htarget Hjoin Hsub (Hname _ Hmesh)).
    destruct (collision lod) as [c|]; [|reflexivity].
    rewrite (dest_string_layout m p0 ps _ _ Htarget Hjoin Hsub (Hname _ (Hcol c eq_refl))).
    reflexivity.
  - rewrite Hm. apply Hfiles; [reflexivity | exact Hmat].
  - rewrite Ht. apply Hfiles; [reflexivity | exact Hth].
  - rewrite He. apply Hfiles; [reflexivity | exact Hex].
  - intros p Hin. apply Hname. unfold module_files in Hin. rewrite !in_app_iff in Hin.
    destruct Hin as [Hin|[Hin|[Hin|Hin]]]; auto.
    apply in_flat_map in Hin as (lod & Hlod & Hp).
    destruct (Hlods _ Hlod) as (Hmesh & Hcol & _).
    unfold lod_files in Hp. destruct Hp as [<-|Hp]; [exact Hmesh|].
    destruct (collision lod) as [c|]; [|contradiction].
    destruct Hp as [<-|[]]. apply Hcol. reflexivity.
Qed.

End Layout.

(** The hull module of the design document's first scenario. *)
Lemma destination_layout_witness :
  exists s, @sanitized_record sim_repr core_hull_a = JObj s
    /\ dict_get "lods" s
       = Some (JList
           [JObj [("level", JInt 0);
                  ("mesh", JStr "modules/hull/core_hull_a/lod_0/a.obj");
                  ("collision", JStr "modules/hull/core_hull_a/lod_0/a.col")];
            JObj [("level", JInt 1);
                  ("mesh", JStr "modules/hull/core_hull_a/lod_1/b.obj")]])
    /\ dict_get "materials" s
       = Some (JList [JStr "modules/hull/core_hull_a/materials/m.mat"])
    /\ dict_get "thumbnails" s = None
    /\ dict_get "extraFiles" s = None.
Proof.
  destruct (@destination_layout SimFS SimFS_FileSystem SimFS_laws sim_repr
              demo_fs demo_assets demo_out (JObj core_hull_defn) core_hull_a true
              demo_world demo_world (@sanitized_record sim_repr core_hull_a))
    as (s & Hs & Hl & Hm & Ht & He & _).
  - unfold wf_path. simpl. repeat constructor.
  - simpl. discriminate.
  - reflexivity.
  - reflexivity.
  - apply emit_module_dry.
  - exists s. auto.
Defined.

(** With the file-system root as asset root, a reference to the root itself
    validates and has no basename: the destination is the LOD directory. *)
Lemma root_reference_example :
  ensure_relative_path root_fs (parse_path "/") (JStr ".") "mesh" "hull_r"
    = Ok (mkPath Abs [])
  /\ @dest_string
       (@lod_target sim_repr (pdiv (pdiv (parse_path "modules") "hull") "hull_r")
          (mkLodEntry (JInt 0) (mkPath Abs []) None))
       (mkPath Abs [])
     = "modules/hull/hull_r/lod_0".
Proof. split; reflexivity. Qed.

(** A module whose id is an absolute path validates, and its mesh is sent
    to [/tmp/evil/lod_0/a.obj], outside [modules/hull/]. *)
Lemma absolute_id_counterexample :
  (exists m, @parse_module SimFS _ sim_repr demo_fs module_abs_id demo_assets = Ok m
             /\ module_id m = "/tmp/evil" /\ module_type m = "hull")
  /\ fst (@build_bundle SimFS _ sim_repr demo_assets (manifest_of [module_abs_id])
            demo_out true demo_world)
     = Ok abs_id_compiled.
Proof.
  split; [eexists; repeat split; reflexivity | reflexivity].
Qed.

(* ================================================================= *)
(** * Further properties of the validator and the assembler *)

(* ================================================================= *)
(** ** [ensure_relative_path] *)

Section EnsureRelativePath.

Context {FS : Type} `{FileSystem FS}.

(** X1: [ensure_relative_path] returns a path exactly when the reference is
    a non-empty string whose resolution exists and lies within the resolved
    base directory, and the path is that resolution; in every other case it
    raises a ValidationError, never another exception (as long as
    [resolve()] and [exists()] themselves return). *)
Theorem ensure_relative_path_returns_iff (f : FS) (base : Path) (v : JSON)
    (field mid : string) :
  (forall p,
     ensure_relative_path f base v field mid = Ok p <->
     exists s, v = JStr s /\ s <> ""
       /\ p = fs_resolve f (pjoin base (parse_path s))
       /\ fs_exists f p = true
       /\ is_relative_to p (fs_resolve f base) = true)
  /\ (forall e, ensure_relative_path f base v field mid <> Crash e).
Proof.
  split.
  - intros p. split; [apply ensure_relative_path_ok|].
    intros (s & -> & Hs & -> & Hex & Hrel). unfold ensure_relative_path.
    destruct (String.eqb_spec s ""); [contradiction|].
    rewrite Hex, Hrel. reflexivity.
  - intros e. unfold ensure_relative_path.
    destruct v; try discriminate.
    destruct (String.eqb s ""); try discriminate.
    destruct (fs_exists f _); simpl; try discriminate.
    destruct (is_relative_to _ _); discriminate.
Qed.

End EnsureRelativePath.

(* ================================================================= *)
(** ** What [parse_module] returns *)

Section ModuleShape.

Context {FS : Type} `{FileSystem FS} `{PyRepr}.

Lemma resolve_all_forall2 (f : FS) assets field mid entries acc ps :
  resolve_all f assets field mid entries acc = Ok ps ->
  exists new, ps = (acc ++ new)%list
    /\ Forall2 (fun e p => ensure_relative_path f assets e field mid = Ok p) entries new.
Proof.
  revert acc. induction entries as [|e rest IH]; intros acc Hok; simpl in Hok.
  - injection Hok as <-. exists []. rewrite app_nil_r. split; [reflexivity | constructor].
  - destruct (ensure_relative_path f assets e field mid) as [p| |] eqn:He; try discriminate.
    simpl in Hok. destruct (IH _ Hok) as (new & -> & Hall).
    exists (p :: new). rewrite <- app_assoc. split; [reflexivity|].
    constructor; assumption.
Qed.

Lemma parse_lod_parsed (f : FS) assets mid idx lod seen entry z :
  parse_lod f assets mid idx lod seen = Ok (entry, z) -> lod_parsed f assets mid lod entry.
Proof.
  unfold parse_lod, lod_parsed. destruct lod as [| | | | | |fields]; try discriminate.
  destruct (py_int (py_get fields "level")) as [z0|]; try discriminate.
  destruct (z0 <? 0)%Z; try discriminate.
  destruct (existsb (Z.eqb z0) seen); try discriminate.
  destruct (ensure_relative_path f assets (py_get fields "mesh") "mesh" mid)
    as [mp| |] eqn:Hm; try discriminate. simpl.
  destruct (truthy (py_get fields "collision")) eqn:Ht; simpl.
  - destruct (ensure_relative_path f assets (py_get fields "collision") "collision" mid)
      as [cp| |] eqn:Hc; try discriminate. simpl.
    intros [= <- <-]. exists fields. simpl. rewrite Ht. eauto 8.
  - intros [= <- <-]. exists fields. simpl. rewrite Ht. auto.
Qed.

(** The loop over the LOD entries: one parsed entry per raw entry, in
    order, with integer levels that are non-negative, new, and pairwise
    different. *)
Lemma parse_lods_forall2 (f : FS) assets mid raw idx acc seen ls :
  parse_lods f assets mid idx raw acc seen = Ok ls ->
  exists new zs, ls = (acc ++ new)%list
    /\ Forall2 (lod_parsed f assets mid) raw new
    /\ map (fun l => py_int (level l)) new = map Some zs
    /\ NoDup zs
    /\ (forall z, In z zs -> ~ In z seen /\ (0 <= z)%Z).
Proof.
  revert idx acc seen. induction raw as [|l rest IH]; intros idx acc seen Hok; simpl in Hok.
  - injection Hok as <-. exists [], []. rewrite app_nil_r.
    repeat split; try constructor; contradiction.
  - destruct (parse_lod f assets mid idx l seen) as [[entry z0]| |] eqn:Hl; try discriminate.
    simpl in Hok. destruct (IH _ _ _ Hok) as (new & zs & -> & Hall & Hlv & Hnd & Hzs).
    pose proof (parse_lod_parsed _ _ _ _ _ _ _ _ Hl) as Hparsed.
    apply parse_lod_ok in Hl as (_ & Hfresh & Hpos & Hint).
    exists (entry :: new), (z0 :: zs). rewrite <- app_assoc.
    split; [reflexivity|]. split; [constructor; assumption|].
    split; [simpl; rewrite Hint, Hlv; reflexivity|].
    split.
    + constructor; [|exact Hnd]. intros Hin. apply (proj1 (Hzs _ Hin)). left. reflexivity.
    + intros z [<-|Hin]; [auto|]. destruct (Hzs _ Hin) as [Hn Hp]. split; [|exact Hp].
      intros Hs. apply Hn. right. exact Hs.
Qed.

Lemma check_module_id_ok (d : Dict) (mid : string) :
  check_module_id d = Ok mid -> py_get d "id" = JStr mid /\ mid <> "".
Proof.
  unfold check_module_id. destruct (py_get d "id"); try discriminate.
  destruct (String.eqb_spec s ""); try discriminate.
  intros [= <-]. auto.
Qed.

Lemma check_module_type_field (mid : string) (d : Dict) (ty : string) :
  check_module_type mid d = Ok ty -> py_get d "type" = JStr ty.
Proof.
  unfold check_module_type. destruct (py_get d "type"); try discriminate.
  destruct (existsb _ _); try discriminate. intros [= <-]. reflexivity.
Qed.

Lemma check_lods_field_ok (mid : string) (d : Dict) (raw : list JSON) :
  check_lods_field mid d = Ok raw -> py_get d "lods" = JList raw /\ raw <> [].
Proof.
  unfold check_lods_field. destruct (py_get d "lods") as [| | | | |[|l r]|]; try discriminate.
  intros [= <-]. split; [reflexivity | discriminate].
Qed.

(** The thumbnails of a module are resolved thumbnail references. *)
Lemma parse_thumbnails_ok (f : FS) assets mid d ts :
  parse_thumbnails f assets mid d = Ok ts ->
  Forall (fun p => exists e, ensure_relative_path f assets e "thumbnail" mid = Ok p) ts.
Proof.
  unfold parse_thumbnails. intros Hok.
  assert (Hlegacy :
    match py_get d "thumbnail" with
    | JStr s => p <- ensure_relative_path f assets (JStr s) "thumbnail" mid ;; Ok [p]
    | _ => Ok []
    end = Ok ts ->
    Forall (fun p => exists e, ensure_relative_path f assets e "thumbnail" mid = Ok p) ts).
  { destruct (py_get d "thumbnail"); try (intros [= <-]; constructor).
    destruct (ensure_relative_path f assets (JStr s) "thumbnail" mid) as [p| |] eqn:Hp;
      try discriminate.
    intros [= <-]. constructor; [eauto | constructor]. }
  destruct (py_get d "thumbnails"); try (exact (Hlegacy Hok)).
  apply resolve_all_forall2 in Hok as (new & -> & Hall). simpl.
  clear Hlegacy. induction Hall; constructor; eauto.
Qed.

End ModuleShape.

Lemma Forall2_In_r {A B : Type} (R : A -> B -> Prop) (l : list A) (l' : list B) (y : B) :
  Forall2 R l l' -> In y l' -> exists x, In x l /\ R x y.
Proof.
  induction 1 as [|x y0 l l' Hxy Hall IH]; intros Hin; [contradiction|].
  destruct Hin as [<-|Hin].
  - exists x. split; [left; reflexivity | exact Hxy].
  - destruct (IH Hin) as (x' & Hx' & HR). exists x'. split; [right; exact Hx' | exact HR].
Qed.

Lemma Forall2_length_eq {A B : Type} (R : A -> B -> Prop) (l : list A) (l' : list B) :
  Forall2 R l l' -> List.length l' = List.length l.
Proof. induction 1; simpl; congruence. Qed.

Section ValidatedModule.

Context {FS : Type} `{FileSystem FS} `{PyRepr}.

(** The pieces of a validated module, each related to the field of the
    definition it was read from. *)
Lemma parse_module_shape (f : FS) (defn : JSON) (assets : Path) (m : ModuleAsset) :
  parse_module f defn assets = Ok m ->
  exists d raw mats extras zs,
    defn = JObj d /\ source m = d
    /\ py_get d "id" = JStr (module_id m) /\ module_id m <> ""
    /\ py_get d "type" = JStr (module_type m) /\ In (module_type m) MODULE_TYPES
    /\ py_get d "lods" = JList raw /\ raw <> []
    /\ Forall2 (lod_parsed f assets (module_id m)) raw (lods m)
    /\ map (fun l => py_int (level l)) (lods m) = map Some zs
    /\ NoDup zs /\ (forall z, In z zs -> (0 <= z)%Z)
    /\ py_iter (py_get_default d "materials" (JList [])) = Some mats
    /\ Forall2 (fun e p => ensure_relative_path f assets e "materials" (module_id m) = Ok p)
         mats (materials m)
    /\ Forall (fun p => exists e,
                 ensure_relative_path f assets e "thumbnail" (module_id m) = Ok p)
         (thumbnails m)
    /\ py_iter (py_get_default d "extraFiles" (JList [])) = Some extras
    /\ Forall2 (fun e p => ensure_relative_path f assets e "extraFiles" (module_id m) = Ok p)
         extras (extra_files m).
Proof.
  intros Hok.
  apply parse_module_ok in Hok
    as (d & raw & me & ee & -> & Hsrc & Hid & Hty & _ & Hraw & Hlods & Hme & Hmat & Hth
        & Hee & Hex).
  apply check_module_id_ok in Hid as [Hid Hne].
  pose proof (check_module_type_ok _ _ _ Hty) as Hin.
  apply check_module_type_field in Hty.
  apply check_lods_field_ok in Hraw as [Hraw Hrne].
  apply parse_lods_forall2 in Hlods as (new & zs & Hnew & Hall & Hlv & Hnd & Hzs).
  simpl in Hnew. subst new.
  apply resolve_all_forall2 in Hmat as (ms & Hms & Hmall). simpl in Hms. subst ms.
  apply resolve_all_forall2 in Hex as (es & Hes & Heall). simpl in Hes. subst es.
  apply parse_thumbnails_ok in Hth.
  unfold iter_field in Hme, Hee.
  destruct (py_iter (py_get_default d "materials" (JList []))) as [mats|] eqn:Hmi;
    [|discriminate]. injection Hme as <-.
  destruct (py_iter (py_get_default d "extraFiles" (JList []))) as [extras|] eqn:Hei;
    [|discriminate]. injection Hee as <-.
  exists d, raw, mats, extras, zs.
  repeat (split; [first [assumption | reflexivity]|]).
  split; [intros z Hz; apply (Hzs z Hz)|].
  repeat (split; [first [assumption | reflexivity]|]). assumption.
Qed.

(** X2: a module that [parse_module] returns has the id and the type of its
    definition, a non-empty id, one of the four types (hull, wing, exhaust,
    interior), and as many LODs as
    the definition lists, at least one; every file it refers to exists and
    lies within the resolved asset root; its levels are integers, none
    negative, no two equal. *)
Theorem validated_module_invariant (f : FS) (defn : JSON) (assets : Path)
    (m : ModuleAsset) :
  parse_module f defn assets = Ok m ->
  (exists d raw, defn = JObj d /\ source m = d
     /\ py_get d "id" = JStr (module_id m)
     /\ py_get d "type" = JStr (module_type m)
     /\ py_get d "lods" = JList raw
     /\ List.length (lods m) = List.length raw)
  /\ module_id m <> ""
  /\ In (module_type m) ["hull"; "wing"; "exhaust"; "interior"]
  /\ lods m <> []
  /\ (forall p, In p (module_files m) ->
        fs_exists f p = true /\ is_relative_to p (fs_resolve f assets) = true)
  /\ (exists zs, map (fun l => py_int (level l)) (lods m) = map Some zs
                 /\ NoDup zs /\ Forall (fun z => (0 <= z)%Z) zs).
Proof.
  intros Hok.
  destruct (parse_module_shape _ _ _ _ Hok)
    as (d & raw & mats & extras & zs & -> & Hsrc & Hid & Hne & Hty & Hin & Hraw & Hrne
        & Hlods & Hlv & Hnd & Hpos & _ & Hmat & Hth & _ & Hex).
  assert (Hens : forall e field p,
            ensure_relative_path f assets e field (module_id m) = Ok p ->
            fs_exists f p = true /\ is_relative_to p (fs_resolve f assets) = true).
  { intros e field p Hp.
    apply ensure_relative_path_ok in Hp as (s & _ & _ & _ & Hex' & Hrel). auto. }
  split; [|split; [exact Hne|split; [exact Hin|split; [|split]]]].
  - exists d, raw. repeat (split; [first [assumption | reflexivity]|]).
    eapply Forall2_length_eq, Hlods.
  - intros Hnil. rewrite Hnil in Hlods. inversion Hlods. subst. contradiction.
  - intros p Hp. unfold module_files in Hp. rewrite !in_app_iff in Hp.
    destruct Hp as [Hp|[Hp|[Hp|Hp]]].
    + apply in_flat_map in Hp as (lod & Hlod & Hp).
      destruct (Forall2_In_r _ _ _ _ Hlods Hlod) as (r & _ & fields & _ & _ & Hmesh & Hcol).
      unfold lod_files in Hp. destruct Hp as [<-|Hp]; [eapply Hens, Hmesh|].
      destruct (collision lod) as [c|] eqn:Hc; [|contradiction].
      destruct Hp as [<-|[]].
      destruct (truthy (py_get fields "collision")); [|discriminate].
      destruct Hcol as (c' & [= <-] & Hc'). eapply Hens, Hc'.
    + destruct (Forall2_In_r _ _ _ _ Hmat Hp) as (e & _ & He). eapply Hens, He.
    + rewrite Forall_forall in Hth. destruct (Hth _ Hp) as (e & He). eapply Hens, He.
    + destruct (Forall2_In_r _ _ _ _ Hex Hp) as (e & _ & He). eapply Hens, He.
  - exists zs. split; [exact Hlv|]. split; [exact Hnd|]. apply Forall_forall, Hpos.
Qed.

(** X3: the lists of a validated module follow the definition entry by
    entry, in the order of the definition: each LOD comes from the raw LOD
    at its position (same level value, resolved mesh, and a collision path
    exactly when the raw collision value is truthy), and the materials and
    the extra files are the resolved entries of their lists. *)
Theorem validated_lists_follow_input (f : FS) (d : Dict) (assets : Path)
    (m : ModuleAsset) :
  parse_module f (JObj d) assets = Ok m ->
  (exists raw, py_get d "lods" = JList raw
     /\ Forall2 (lod_parsed f assets (module_id m)) raw (lods m))
  /\ (exists entries,
        py_iter (py_get_default d "materials" (JList [])) = Some entries
        /\ Forall2 (fun e p =>
                      ensure_relative_path f assets e "materials" (module_id m) = Ok p)
             entries (materials m))
  /\ (exists entries,
        py_iter (py_get_default d "extraFiles" (JList [])) = Some entries
        /\ Forall2 (fun e p =>
                      ensure_relative_path f assets e "extraFiles" (module_id m) = Ok p)
             entries (extra_files m)).
Proof.
  intros Hok.
  destruct (parse_module_shape _ _ _ _ Hok)
    as (d' & raw & mats & extras & zs & [= <-] & _ & _ & _ & _ & _ & Hraw & _
        & Hlods & _ & _ & _ & Hmi & Hmat & _ & Hei & Hex).
  split; [eauto|]. split; eauto.
Qed.

End ValidatedModule.

(** The module with everything, validated in the demo file system. *)
Lemma validated_module_invariant_witness :
  module_id full_asset <> ""
  /\ In (module_type full_asset) ["hull"; "wing"; "exhaust"; "interior"]
  /\ lods full_asset <> []
  /\ (forall p, In p (module_files full_asset) ->
        fs_exists demo_fs p = true
        /\ is_relative_to p (fs_resolve demo_fs demo_assets) = true)
  /\ (exists zs, map (fun l => py_int (level l)) (lods full_asset) = map Some zs
                 /\ NoDup zs /\ Forall (fun z => (0 <= z)%Z) zs).
Proof.
  apply (@validated_module_invariant SimFS SimFS_FileSystem sim_repr demo_fs
           (JObj full_defn) demo_assets full_asset eq_refl).
Defined.

(** Its second LOD has an empty collision string, and no collision path. *)
Lemma validated_lists_follow_input_witness :
  (exists raw, py_get full_defn "lods" = JList raw
     /\ Forall2 (lod_parsed demo_fs demo_assets "wing_full") raw (lods full_asset))
  /\ (exists entries,
        py_iter (py_get_default full_defn "materials" (JList [])) = Some entries
        /\ Forall2 (fun e p =>
                      ensure_relative_path demo_fs demo_assets e "materials" "wing_full"
                      = Ok p)
             entries (materials full_asset))
  /\ (exists entries,
        py_iter (py_get_default full_defn "extraFiles" (JList [])) = Some entries
        /\ Forall2 (fun e p =>
                      ensure_relative_path demo_fs demo_assets e "extraFiles" "wing_full"
                      = Ok p)
             entries (extra_files full_asset)).
Proof.
  exact (@validated_lists_follow_input SimFS SimFS_FileSystem sim_repr demo_fs full_defn
           demo_assets full_asset eq_refl).
Defined.

(* ================================================================= *)
(** ** The failures of [parse_module] *)

Lemma names_module_bind {A B} (mid : string) (o : outcome A) (k : A -> outcome B) :
  names_module mid o -> (forall a, names_module mid (k a)) -> names_module mid (bind o k).
Proof.
  intros Ho Hk msg Hmsg. destruct o as [a|m|e]; simpl in Hmsg.
  - exact (Hk a msg Hmsg).
  - injection Hmsg as <-. apply Ho. reflexivity.
  - discriminate.
Qed.

Lemma names_module_ok {A} (mid : string) (a : A) : names_module mid (Ok a).
Proof. intros msg Hmsg. discriminate. Qed.

Lemma names_module_crash {A} (mid : string) (e : exn) : names_module mid (@Crash A e).
Proof. intros msg Hmsg. discriminate. Qed.

Section Failures.

Context {FS : Type} `{FileSystem FS} `{PyRepr}.

Lemma names_module_ensure (f : FS) assets v field mid :
  names_module mid (ensure_relative_path f assets v field mid).
Proof.
  intros msg. unfold ensure_relative_path.
  assert (Hinv : Invalid (A := Path) (invalid_path_msg field mid) = Invalid msg ->
                 exists rest, msg = "Module '" ++ mid ++ "'" ++ rest).
  { intros [= <-]. eexists. unfold invalid_path_msg. reflexivity. }
  destruct v; try exact Hinv.
  destruct (String.eqb s ""); [exact Hinv|].
  destruct (fs_exists f _); simpl.
  - destruct (is_relative_to _ _); simpl; [discriminate|].
    intros [= <-]. eexists. unfold path_escape_msg. reflexivity.
  - intros [= <-]. eexists. unfold missing_file_msg. reflexivity.
Qed.

Lemma names_module_resolve_all (f : FS) assets field mid entries acc :
  names_module mid (resolve_all f assets field mid entries acc).
Proof.
  revert acc. induction entries as [|e rest IH]; intros acc; simpl.
  - apply names_module_ok.
  - apply names_module_bind; [apply names_module_ensure | intros; apply IH].
Qed.

Lemma names_module_parse_lod (f : FS) assets mid idx lod seen :
  names_module mid (parse_lod f assets mid idx lod seen).
Proof.
  unfold parse_lod.
  assert (Hobj : names_module mid (@Invalid (LodEntry * Z) (lod_not_object_msg mid idx))).
  { intros msg [= <-]. eexists. unfold lod_not_object_msg. reflexivity. }
  assert (Hlvl : forall v,
            names_module mid (@Invalid (LodEntry * Z) (invalid_level_msg mid v))).
  { intros v msg [= <-]. eexists. unfold invalid_level_msg. reflexivity. }
  destruct lod; try exact Hobj.
  destruct (py_int _); [|apply Hlvl].
  destruct (_ <? _)%Z; [apply Hlvl|].
  destruct (existsb _ _).
  { intros msg [= <-]. eexists. unfold reused_level_msg. reflexivity. }
  apply names_module_bind; [apply names_module_ensure|]. intros mp.
  apply names_module_bind; [|intros; apply names_module_ok].
  destruct (truthy _); [|apply names_module_ok].
  apply names_module_bind; [apply names_module_ensure | intros; apply names_module_ok].
Qed.

Lemma names_module_parse_lods (f : FS) assets mid raw idx acc seen :
  names_module mid (parse_lods f assets mid idx raw acc seen).
Proof.
  revert idx acc seen. induction raw as [|l rest IH]; intros idx acc seen; simpl.
  - apply names_module_ok.
  - apply names_module_bind; [apply names_module_parse_lod | intros; apply IH].
Qed.

(** X4: once a module definition has a usable id, every ValidationError
    that [parse_module] raises for it starts with ["Module '<id>'"], so a
    collected failure always tells which module it belongs to. *)
Theorem failures_name_the_module (f : FS) (d : Dict) (assets : Path)
    (mid msg : string) :
  check_module_id d = Ok mid ->
  parse_module f (JObj d) assets = Invalid msg ->
  exists rest, msg = "Module '" ++ mid ++ "'" ++ rest.
Proof.
  intros Hid. unfold parse_module. rewrite Hid. simpl bind. revert msg.
  change (names_module mid
    (module_type <- check_module_type mid d ;;
     lod_raw <- check_lods_field mid d ;;
     lods <- parse_lods f assets mid 0 lod_raw [] [] ;;
     material_entries <- iter_field d "materials" ;;
     materials <- resolve_all f assets "materials" mid material_entries [] ;;
     thumbnails <- parse_thumbnails f assets mid d ;;
     extra_entries <- iter_field d "extraFiles" ;;
     extra_files <- resolve_all f assets "extraFiles" mid extra_entries [] ;;
     Ok (mkModuleAsset mid module_type (py_get_default d "displayName" (JStr mid)) d
           lods materials thumbnails extra_files))).
  assert (Hiter : forall key, names_module mid (iter_field d key)).
  { intros key msg. unfold iter_field. destruct (py_iter _); discriminate. }
  apply names_module_bind.
  { unfold check_module_type.
    assert (Hbad : forall v, names_module mid (@Invalid string (unsupported_type_msg mid v))).
    { intros v msg [= <-]. eexists. unfold unsupported_type_msg. reflexivity. }
    destruct (py_get d "type"); try apply Hbad; try apply names_module_crash.
    destruct (existsb _ _); [apply names_module_ok | apply Hbad]. }
  intros ty. apply names_module_bind.
  { unfold check_lods_field.
    assert (Hbad : names_module mid (@Invalid (list JSON) (lods_required_msg mid))).
    { intros msg [= <-]. eexists. unfold lods_required_msg. reflexivity. }
    destruct (py_get d "lods") as [| | | | |[|l r]|]; try exact Hbad.
    apply names_module_ok. }
  intros raw. apply names_module_bind; [apply names_module_parse_lods|]. intros ls.
  apply names_module_bind; [apply Hiter|]. intros me.
  apply names_module_bind; [apply names_module_resolve_all|]. intros ms.
  apply names_module_bind.
  { unfold parse_thumbnails.
    destruct (py_get d "thumbnails"); try apply names_module_resolve_all;
      (destruct (py_get d "thumbnail"); try apply names_module_ok;
       apply names_module_bind; [apply names_module_ensure | intros; apply names_module_ok]). }
  intros ts. apply names_module_bind; [apply Hiter|]. intros ee.
  apply names_module_bind; [apply names_module_resolve_all|]. intros es.
  apply names_module_ok.
Qed.

End Failures.

(** The module whose mesh is missing: its failure starts with its id. *)
Lemma failures_name_the_module_witness :
  exists rest,
    "Module 'hull_c' references missing file for mesh: nowhere.obj"
    = "Module '" ++ "hull_c" ++ "'" ++ rest.
Proof.
  apply (@failures_name_the_module SimFS SimFS_FileSystem sim_repr demo_fs
           [("id", JStr "hull_c"); ("type", JStr "hull");
            ("lods", JList [JObj [("level", JInt 0); ("mesh", JStr "nowhere.obj")]])]
           demo_assets "hull_c"); reflexivity.
Defined.

(* ================================================================= *)
(** ** The exceptions of [parse_module] that are no ValidationError *)

Lemma bind_crash {A B} (o : outcome A) (k : A -> outcome B) (e : exn) :
  bind o k = Crash e -> o = Crash e \/ exists a, o = Ok a /\ k a = Crash e.
Proof.
  destruct o as [a|m|e']; simpl; intros Hb.
  - right. exists a. split; [reflexivity | exact Hb].
  - discriminate.
  - left. injection Hb as ->. reflexivity.
Qed.

Section CrashSites.

Context {FS : Type} `{FileSystem FS} `{PyRepr}.

Lemma ensure_relative_path_no_crash (f : FS) base v field mid e :
  ensure_relative_path f base v field mid <> Crash e.
Proof.
  unfold ensure_relative_path.
  destruct v; try discriminate.
  destruct (String.eqb s ""); try discriminate.
  destruct (fs_exists f _); simpl; try discriminate.
  destruct (is_relative_to _ _); discriminate.
Qed.

Lemma resolve_all_no_crash (f : FS) assets field mid entries acc e :
  resolve_all f assets field mid entries acc <> Crash e.
Proof.
  revert acc. induction entries as [|x rest IH]; intros acc; simpl; [discriminate|].
  intros Hb. apply bind_crash in Hb as [Hb|(p & _ & Hb)].
  - exact (ensure_relative_path_no_crash _ _ _ _ _ _ Hb).
  - exact (IH _ Hb).
Qed.

Lemma parse_lod_no_crash (f : FS) assets mid idx lod seen e :
  parse_lod f assets mid idx lod seen <> Crash e.
Proof.
  unfold parse_lod. destruct lod; try discriminate.
  destruct (py_int _); [|discriminate].
  destruct (_ <? _)%Z; [discriminate|].
  destruct (existsb _ _); [discriminate|].
  intros Hb. apply bind_crash in Hb as [Hb|(p & _ & Hb)].
  { exact (ensure_relative_path_no_crash _ _ _ _ _ _ Hb). }
  apply bind_crash in Hb as [Hb|(c & _ & Hb)]; [|discriminate].
  destruct (truthy _); [|discriminate].
  apply bind_crash in Hb as [Hb|(c & _ & Hb)]; [|discriminate].
  exact (ensure_relative_path_no_crash _ _ _ _ _ _ Hb).
Qed.

Lemma parse_lods_no_crash (f : FS) assets mid raw idx acc seen e :
  parse_lods f assets mid idx raw acc seen <> Crash e.
Proof.
  revert idx acc seen. induction raw as [|l rest IH]; intros idx acc seen; simpl;
    [discriminate|].
  intros Hb. apply bind_crash in Hb as [Hb|(p & _ & Hb)].
  - exact (parse_lod_no_crash _ _ _ _ _ _ _ Hb).
  - exact (IH _ _ _ Hb).
Qed.

Lemma parse_thumbnails_no_crash (f : FS) assets mid d e :
  parse_thumbnails f assets mid d <> Crash e.
Proof.
  unfold parse_thumbnails.
  destruct (py_get d "thumbnails"); try apply resolve_all_no_crash;
    (destruct (py_get d "thumbnail"); try discriminate;
     intros Hb; apply bind_crash in Hb as [Hb|(c & _ & Hb)]; [|discriminate];
     exact (ensure_relative_path_no_crash _ _ _ _ _ _ Hb)).
Qed.

Lemma iter_field_crash (d : Dict) (key : string) (e : exn) :
  iter_field d key = Crash e ->
  e = TypeError /\ py_iter (py_get_default d key (JList [])) = None.
Proof.
  unfold iter_field. destruct (py_iter _); [discriminate|].
  intros [= <-]. auto.
Qed.

(** Where a crash of [parse_module] comes from. *)
Lemma parse_module_crash_inv (f : FS) (defn : JSON) (assets : Path) (e : exn) :
  parse_module f defn assets = Crash e ->
  e = TypeError
  /\ exists d mid,
       defn = JObj d
       /\ check_module_id d = Ok mid
       /\ (hashable (py_get d "type") = false
           \/ py_iter (py_get_default d "materials" (JList [])) = None
           \/ py_iter (py_get_default d "extraFiles" (JList [])) = None).
Proof.
  unfold parse_module. destruct defn as [| | | | | |d]; try discriminate.
  intros Hb.
  apply bind_crash in Hb as [Hb|(mid & Hid & Hb)].
  { unfold check_module_id in Hb. destruct (py_get d "id"); try discriminate.
    destruct (String.eqb s ""); discriminate. }
  apply bind_crash in Hb as [Hb|(ty & _ & Hb)].
  { unfold check_module_type in Hb.
    destruct (py_get d "type") eqn:Ety; try discriminate;
      try (destruct (existsb _ _); discriminate);
      injection Hb as <-; (split; [reflexivity|]); exists d, mid; rewrite Ety; auto. }
  apply bind_crash in Hb as [Hb|(raw & _ & Hb)].
  { unfold check_lods_field in Hb.
    destruct (py_get d "lods") as [| | | | |[|l r]|]; discriminate. }
  apply bind_crash in Hb as [Hb|(ls & _ & Hb)].
  { destruct (parse_lods_no_crash _ _ _ _ _ _ _ _ Hb). }
  apply bind_crash in Hb as [Hb|(me & _ & Hb)].
  { apply iter_field_crash in Hb as [-> Hm]. split; [reflexivity|].
    exists d, mid. auto. }
  apply bind_crash in Hb as [Hb|(ms & _ & Hb)].
  { destruct (resolve_all_no_crash _ _ _ _ _ _ _ Hb). }
  apply bind_crash in Hb as [Hb|(ts & _ & Hb)].
  { destruct (parse_thumbnails_no_crash _ _ _ _ _ Hb). }
  apply bind_crash in Hb as [Hb|(ee & _ & Hb)].
  { apply iter_field_crash in Hb as [-> Hm]. split; [reflexivity|].
    exists d, mid. auto. }
  apply bind_crash in Hb as [Hb|(es & _ & Hb)]; [|discriminate].
  destruct (resolve_all_no_crash _ _ _ _ _ _ _ Hb).
Qed.

(** X5: the only exception of [parse_module] that is no ValidationError is
    a TypeError, and it has three possible origins, all in a definition
    with a usable id: a ["type"] that cannot be hashed (a list or an
    object), or a ["materials"] or ["extraFiles"] value that is present and
    cannot be iterated (null, a number, a boolean).  File references never
    make it crash (as long as [resolve()] and [exists()] themselves
    return). *)
Theorem parse_module_crash_sites (f : FS) (defn : JSON) (assets : Path) (e : exn) :
  parse_module f defn assets = Crash e ->
  e = TypeError
  /\ exists d mid,
       defn = JObj d
       /\ check_module_id d = Ok mid
       /\ (hashable (py_get d "type") = false
           \/ py_iter (py_get_default d "materials" (JList [])) = None
           \/ py_iter (py_get_default d "extraFiles" (JList [])) = None).
Proof.
  intros Hcrash.
  destruct (parse_module_crash_inv _ _ _ _ Hcrash) as (He & d & mid & Hd & Hid & Hsite).
  split; [exact He|]. exists d, mid. split; [exact Hd|]. split; [exact Hid | exact Hsite].
Qed.

End CrashSites.

(** A module whose materials are the number 5 makes [parse_module] raise a
    TypeError. *)
Lemma parse_module_crash_sites_witness :
  TypeError = TypeError
  /\ exists d mid,
       JObj module_numeric_materials = JObj d
       /\ check_module_id d = Ok mid
       /\ (hashable (py_get d "type") = false
           \/ py_iter (py_get_default d "materials" (JList [])) = None
           \/ py_iter (py_get_default d "extraFiles" (JList [])) = None).
Proof.
  apply (@parse_module_crash_sites SimFS SimFS_FileSystem sim_repr demo_fs
           (JObj module_numeric_materials) demo_assets TypeError).
  vm_compute. reflexivity.
Defined.

(* ================================================================= *)
(** ** What [read_manifest] hands to [build_bundle] *)

Section ManifestContract.

Context {FS : Type} `{FileSystem FS}.

Lemma read_manifest_ok_inv (f : FS) (p : Path) (data : JSON) :
  read_manifest f p = Ok data ->
  fs_load_json f p = Loaded data
  /\ exists d version first rest,
       data = JObj d
       /\ dict_get "version" d = Some version /\ py_eq_one version = true
       /\ dict_get "modules" d = Some (JList (first :: rest)).
Proof.
  unfold read_manifest.
  destruct (fs_load_json f p) as [|diag| |data'] eqn:El; try discriminate.
  destruct data' as [| | | | | |d]; try discriminate.
  destruct (py_eq_one (py_get d "version")) eqn:Ev; simpl; [|discriminate].
  destruct (py_get d "modules") as [| | | | |[|first rest]|] eqn:Em; try discriminate.
  intros [= <-]. split; [reflexivity|].
  unfold py_get in Ev, Em.
  destruct (dict_get "version" d) as [version|] eqn:Dv; [|discriminate].
  destruct (dict_get "modules" d) as [mods|] eqn:Dm; [|discriminate].
  subst mods. exists d, version, first, rest. auto.
Qed.

Lemma read_manifest_crash (f : FS) (p : Path) (e : exn) :
  read_manifest f p = Crash e -> e = OSError.
Proof.
  unfold read_manifest.
  destruct (fs_load_json f p) as [|diag| |data] eqn:El; try discriminate.
  - intros [= <-]. reflexivity.
  - destruct data as [| | | | | |d]; try discriminate.
    destruct (py_eq_one _); simpl; [|discriminate].
    destruct (py_get d "modules") as [| | | | |[|first rest]|]; discriminate.
Qed.

(** X6: [read_manifest] returns exactly the documents that were loaded and
    pass the three top-level checks, and it returns them unchanged; in a
    document it returned, the two subscripts of [build_bundle],
    [manifest["modules"]] and [manifest["version"]], are present: the first
    is a non-empty list to loop over, the second equals 1. *)
Theorem read_manifest_contract (f : FS) (p : Path) (data : JSON) :
  (read_manifest f p = Ok data <->
   fs_load_json f p = Loaded data /\ toplevel_ok data = true)
  /\ (read_manifest f p = Ok data ->
      exists version first rest,
        py_getitem data "version" = Ok version /\ py_eq_one version = true
        /\ manifest_modules data = Ok (first :: rest)).
Proof.
  split; [split|].
  - intros Hok. destruct (read_manifest_ok_inv _ _ _ Hok) as (Hload & _).
    split; [exact Hload|].
    rewrite (read_manifest_loaded _ _ _ Hload) in Hok.
    destruct (toplevel_ok data); [reflexivity | discriminate].
  - intros [Hload Htop]. rewrite (read_manifest_loaded _ _ _ Hload), Htop. reflexivity.
  - intros Hok.
    destruct (read_manifest_ok_inv _ _ _ Hok)
      as (_ & d & version & first & rest & -> & Dv & Hv & Dm).
    exists version, first, rest. unfold manifest_modules, py_getitem.
    rewrite Dv, Dm. auto.
Qed.

End ManifestContract.

(* ================================================================= *)
(** ** The exceptions and the effects of a whole run *)

Section RunKinds.

Context {FS : Type} `{FileSystem FS} `{PyRepr}.

Variable P : FS -> FS -> list event -> Prop.
Variable E : exn -> Prop.
Variable dry_run : bool.

Hypothesis P_nil : forall f, P f f [].
Hypothesis P_app : forall f g h e1 e2, P f g e1 -> P g h e2 -> P f h (e1 ++ e2)%list.
Hypothesis E_os : E OSError.
Hypothesis E_type : E TypeError.
Hypothesis P_validate : forall f d, P f f [EvValidate d].
Hypothesis P_mkdir : dry_run = false ->
  forall f p f', fs_mkdir_p f p = Some f' -> P f f' [EvMkdir p].
Hypothesis P_copy : dry_run = false ->
  forall f s d f', fs_copy2 f s d = Some f' -> P f f' [EvCopy s d].

(** The loop raises what a file operation raises, or the TypeError of
    [parse_module]. *)
Lemma run_inv_build_loop_exn assets output_dir module_defs st :
  run_inv P E (build_loop assets output_dir dry_run module_defs st).
Proof.
  revert st. induction module_defs as [|d rest IH]; intros st; simpl.
  - apply run_inv_ret; assumption.
  - apply (run_inv_bind P E P_app); [apply run_inv_validate; assumption|].
    intros _ w r w' Hrun.
    destruct (parse_module (fs w) d assets) as [m|msg|e] eqn:Ep.
    + revert Hrun. apply (run_inv_bind P E P_app); [|intros; apply IH].
      apply (run_inv_emit_module P E dry_run); assumption.
    + exact (IH _ _ _ _ Hrun).
    + injection Hrun as <- <-. apply parse_module_crash_inv in Ep as [-> _].
      split; [exact E_type|]. exists []. rewrite app_nil_r. auto.
Qed.

End RunKinds.

Section WholeRun.

Context {FS : Type} `{FileSystem FS} `{PyRepr}.

Lemma build_bundle_unfold assets manifest output_dir dry_run :
  build_bundle assets manifest output_dir dry_run =
  (module_defs <~ lift (manifest_modules manifest) ;;
   st <~ build_loop assets output_dir dry_run module_defs (mkLoopState [] []) ;;
   finish_bundle manifest output_dir dry_run st).
Proof. reflexivity. Qed.

(** How the part after the loop can end. *)
Lemma finish_bundle_inv manifest output_dir dry_run st (w : World FS) r w' :
  finish_bundle manifest output_dir dry_run st w = (r, w') ->
  match r with
  | Invalid msg => errors st <> [] /\ msg = build_failed_msg (errors st) /\ w' = w
  | Crash e =>
      errors st = []
      /\ ((py_getitem manifest "version" = Crash e /\ w' = w)
          \/ (e = OSError /\ dry_run = false
              /\ (w' = w
                  \/ exists f1, fs_mkdir_p (fs w) output_dir = Some f1
                       /\ w' = mkWorld f1 (log w ++ [EvMkdir output_dir])%list)))
  | Ok c =>
      errors st = []
      /\ (exists version, py_getitem manifest "version" = Ok version
            /\ c = JObj [("version", version); ("generated", JBool true);
                         ("modules", JList (modules_out st))])
      /\ (if dry_run then w' = w
          else exists f1 f2,
                 fs_mkdir_p (fs w) output_dir = Some f1
                 /\ fs_write_json f1 (pdiv output_dir COMPILED_NAME) c = Some f2
                 /\ w' = mkWorld f2
                           (log w ++ [EvMkdir output_dir;
                                      EvWrite (pdiv output_dir COMPILED_NAME) c])%list)
  end.
Proof.
  unfold finish_bundle. destruct (errors st) as [|e0 es] eqn:Herr.
  2:{ unfold lift. intros [= <- <-]. split; [discriminate|]. auto. }
  unfold bindM at 1, lift.
  destruct (py_getitem manifest "version") as [version|msg|e] eqn:Hver.
  - destruct dry_run; simpl.
    + unfold bindM, ret. intros [= <- <-]. split; [reflexivity|]. split; [eauto|reflexivity].
    + unfold bindM, do_mkdir, do_write_json, ret.
      destruct (fs_mkdir_p (fs w) output_dir) as [f1|] eqn:Hmk; simpl.
      * destruct (fs_write_json f1 _ _) as [f2|] eqn:Hwr; intros [= <- <-].
        -- split; [reflexivity|]. split; [eauto|]. exists f1, f2.
           rewrite <- app_assoc. auto.
        -- split; [reflexivity|]. right. split; [reflexivity|]. split; [reflexivity|].
           right. exists f1. auto.
      * intros [= <- <-]. split; [reflexivity|]. right. auto.
  - unfold py_getitem in Hver. destruct manifest; try discriminate.
    destruct (dict_get _ _); discriminate.
  - intros [= <- <-]. split; [reflexivity|]. left. auto.
Qed.

Lemma build_loop_exn assets output_dir dry_run module_defs st (w : World FS) r w' :
  build_loop assets output_dir dry_run module_defs st w = (r, w') ->
  raises_only (fun e => e = TypeError \/ e = OSError) r.
Proof.
  intros Hrun.
  assert (Hinv : run_inv (fun _ _ _ => True) (fun e => e = TypeError \/ e = OSError)
                   (build_loop assets output_dir dry_run module_defs st)).
  { apply run_inv_build_loop_exn; auto. }
  destruct (Hinv _ _ _ Hrun) as [Hr _]. exact Hr.
Qed.

Lemma build_loop_no_write assets output_dir dry_run module_defs st (w : World FS) r w' :
  build_loop assets output_dir dry_run module_defs st w = (r, w') ->
  exists evs, log w' = (log w ++ evs)%list /\ Forall (fun e => is_write e = false) evs.
Proof.
  intros Hrun.
  assert (Hinv : run_inv (fun _ _ evs => Forall (fun e => is_write e = false) evs)
                   (fun _ => True)
                   (build_loop assets output_dir dry_run module_defs st)).
  { apply run_inv_build_loop; auto.
    - intros _ _ _ e1 e2 F1 F2. apply Forall_app; auto. }
  destruct (Hinv _ _ _ Hrun) as (_ & evs & Hlog & Hnw). eauto.
Qed.

(** X7: in a run where [resolve()] and [exists()] return for every
    reference (a probe that raises is outside this model), an exception
    that escapes [main] is a TypeError or an OSError, never a KeyError: a
    manifest that [read_manifest] returned has the two keys [build_bundle]
    subscripts, [parse_module] raises nothing but TypeError besides
    ValidationError, and the rest are the four file operations (reading the
    manifest, creating a directory, copying, writing). *)
Theorem main_uncaught_exceptions (args : Args) (w : World FS) (e : exn) (w' : World FS) :
  main args w = (Uncaught e, w') ->
  e = TypeError \/ e = OSError.
Proof.
  unfold main. unfold bindM at 1, lift at 1.
  destruct (read_manifest (fs w) (manifest_path_of args)) as [manifest|msg|e0] eqn:Erm.
  - destruct (build_bundle _ manifest _ _ w) as [[c|msg|e1] w1] eqn:Eb; try discriminate.
    intros [= <- <-].
    apply read_manifest_ok_inv in Erm
      as (_ & d & version & first & rest & -> & Dv & _ & Dm).
    assert (Hmods : manifest_modules (JObj d) = Ok (first :: rest)).
    { unfold manifest_modules, py_getitem. rewrite Dm. reflexivity. }
    rewrite build_bundle_unfold in Eb. unfold bindM at 1, lift at 1 in Eb.
    rewrite Hmods in Eb. unfold bindM in Eb.
    destruct (build_loop _ _ _ _ _ w) as [[st|msg|e2] w2] eqn:El.
    + apply finish_bundle_inv in Eb as (_ & [[Hver _]|[-> _]]); [|auto].
      unfold py_getitem in Hver. rewrite Dv in Hver. discriminate.
    + discriminate.
    + injection Eb as <- <-. exact (build_loop_exn _ _ _ _ _ _ _ _ El).
  - discriminate.
  - intros [= <- <-]. right. exact (read_manifest_crash _ _ _ Erm).
Qed.

Lemma build_bundle_dry_pure assets manifest output_dir (w : World FS) r w' :
  build_bundle assets manifest output_dir true w = (r, w') ->
  fs w' = fs w
  /\ exists evs, log w' = (log w ++ evs)%list
       /\ Forall (fun e => is_validate e = true) evs.
Proof.
  rewrite build_bundle_unfold. unfold bindM at 1, lift at 1.
  assert (Hsame : forall r0 : outcome JSON, (r0, w) = (r, w') ->
            fs w' = fs w
            /\ exists evs, log w' = (log w ++ evs)%list
                 /\ Forall (fun e => is_validate e = true) evs).
  { intros r0 [= _ <-]. split; [reflexivity|]. exists []. rewrite app_nil_r. auto. }
  destruct (manifest_modules manifest) as [defs|msg|e]; [|apply Hsame|apply Hsame].
  unfold bindM.
  destruct (build_loop _ _ _ _ _ w) as [[st|msg|e] w1] eqn:El;
    apply build_loop_dry_pure in El as (evs & Hlog & Hfs & Hval).
  - intros Hfin. apply finish_bundle_inv in Hfin.
    assert (Hw : w' = w1).
    { destruct r as [c|msg|e].
      - destruct Hfin as (_ & _ & Hw). exact Hw.
      - destruct Hfin as (_ & _ & Hw). exact Hw.
      - destruct Hfin as (_ & [[_ Hw]|(_ & Hd & _)]); [exact Hw | discriminate]. }
    subst w'. split; [exact Hfs|]. eauto.
  - intros [= _ <-]. split; [exact Hfs|]. eauto.
  - intros [= _ <-]. split; [exact Hfs|]. eauto.
Qed.

(** X8: a dry run of [main] never changes the file system, however it ends
    (status 0, status 1 or an exception): the world it leaves has the files
    it started with, and all it did was validate module definitions. *)
Theorem dry_run_leaves_files_alone (args : Args) (w : World FS) (r : main_result)
    (w' : World FS) :
  arg_dry_run args = true ->
  main args w = (r, w') ->
  fs w' = fs w
  /\ exists evs, log w' = (log w ++ evs)%list
       /\ Forall (fun e => is_validate e = true) evs.
Proof.
  intros Hdry. unfold main. rewrite Hdry. unfold bindM at 1, lift at 1.
  destruct (read_manifest (fs w) (manifest_path_of args)) as [manifest|msg|e0].
  - destruct (build_bundle _ manifest _ true w) as [r1 w1] eqn:Eb.
    apply build_bundle_dry_pure in Eb.
    destruct r1 as [c|msg|e1]; intros [= _ <-]; exact Eb.
  - intros [= _ <-]. split; [reflexivity|]. exists []. rewrite app_nil_r. auto.
  - intros [= _ <-]. split; [reflexivity|]. exists []. rewrite app_nil_r. auto.
Qed.

(** X9: the compiled manifest is written exactly when a real build returns:
    the creation of the output directory and the write of the returned
    document are then the last two events of the run, and nothing was
    written before; a dry run, a failed build and a build that raises write
    no manifest at all. *)
Theorem manifest_written_last (assets : Path) (manifest : JSON) (output_dir : Path)
    (dry_run : bool) (w : World FS) (r : outcome JSON) (w' : World FS) :
  build_bundle assets manifest output_dir dry_run w = (r, w') ->
  exists evs,
    log w' = (log w ++ evs)%list
    /\ match r with
       | Ok c =>
           if dry_run then Forall (fun e => is_write e = false) evs
           else exists before,
                  evs = (before ++ [EvMkdir output_dir;
                                    EvWrite (pdiv output_dir COMPILED_NAME) c])%list
                  /\ Forall (fun e => is_write e = false) before
       | _ => Forall (fun e => is_write e = false) evs
       end.
Proof.
  rewrite build_bundle_unfold. unfold bindM at 1, lift at 1.
  destruct (manifest_modules manifest) as [defs|msg|e] eqn:Hm.
  2:{ destruct (manifest_modules_not_invalid _ _ Hm). }
  2:{ intros [= <- <-]. exists []. rewrite app_nil_r. auto. }
  unfold bindM.
  destruct (build_loop _ _ _ _ _ w) as [[st|msg|e] w1] eqn:El;
    pose proof (build_loop_exn _ _ _ _ _ _ _ _ El) as Hexn;
    apply build_loop_no_write in El as (evs & Hlog & Hnw).
  - intros Hfin. apply finish_bundle_inv in Hfin.
    destruct r as [c|msg|e].
    + destruct Hfin as (_ & _ & Hw). destruct dry_run.
      * subst w'. eauto.
      * destruct Hw as (f1 & f2 & _ & _ & ->). simpl.
        eexists. split; [rewrite Hlog, <- app_assoc; reflexivity|]. eauto.
    + destruct Hfin as (_ & _ & ->). eauto.
    + destruct Hfin as (_ & [[_ ->]|(_ & _ & [->|(f1 & _ & ->)])]); eauto.
      simpl. eexists. split; [rewrite Hlog, <- app_assoc; reflexivity|].
      apply Forall_app. split; [exact Hnw|]. constructor; [reflexivity | constructor].
  - destruct Hexn.
  - intros [= <- <-]. eauto.
Qed.

End WholeRun.

(** A manifest whose second module has numeric materials: [main] ends with
    a TypeError. *)
Lemma main_uncaught_exceptions_witness : TypeError = TypeError \/ TypeError = OSError.
Proof.
  apply (@main_uncaught_exceptions SimFS SimFS_FileSystem sim_repr (demo_args false)
           (mkWorld demo_fs_crash []) TypeError
           (snd (@main SimFS _ sim_repr (demo_args false) (mkWorld demo_fs_crash [])))).
  vm_compute. reflexivity.
Defined.

(** The dry run of the demo manifest. *)
Lemma dry_run_leaves_files_alone_witness :
  fs (snd demo_dry_main) = fs demo_world_ok
  /\ exists evs, log (snd demo_dry_main) = (log demo_world_ok ++ evs)%list
       /\ Forall (fun e => is_validate e = true) evs.
Proof.
  apply (@dry_run_leaves_files_alone SimFS SimFS_FileSystem sim_repr (demo_args true)
           demo_world_ok (fst demo_dry_main) (snd demo_dry_main)).
  - reflexivity.
  - vm_compute. reflexivity.
Defined.

(** The real build of the demo manifest. *)
Lemma manifest_written_last_witness :
  exists evs,
    log (snd demo_real_build) = (log demo_world_ok ++ evs)%list
    /\ match fst demo_real_build with
       | Ok c =>
           exists before,
             evs = (before ++ [EvMkdir demo_out;
                               EvWrite (pdiv demo_out COMPILED_NAME) c])%list
             /\ Forall (fun e => is_write e = false) before
       | _ => Forall (fun e => is_write e = false) evs
       end.
Proof.
  apply (@manifest_written_last SimFS SimFS_FileSystem sim_repr demo_assets demo_manifest
           demo_out false demo_world_ok (fst demo_real_build) (snd demo_real_build)).
  vm_compute. reflexivity.
Defined.

(* ================================================================= *)
(** ** The modules of the compiled manifest *)

Section CompiledModules.

Context {FS : Type} `{FileSystem FS} `{!FileSystemLaws FS} `{PyRepr}.

(** A loop that ends without an error validated every definition, its
    records are those of the validated modules, in order, and in a real run
    every file of every module was copied. *)
Lemma build_loop_records assets output_dir dry_run module_defs st (w : World FS) st' w' :
  build_loop assets output_dir dry_run module_defs st w = (Ok st', w') ->
  errors st' = [] ->
  exists ms evs,
    Forall2 (fun d m => parse_module (fs w') d assets = Ok m) module_defs ms
    /\ modules_out st' = (modules_out st ++ map sanitized_record ms)%list
    /\ log w' = (log w ++ evs)%list
    /\ (dry_run = false -> forall m src, In m ms -> In src (module_files m) ->
          exists dest, In (EvCopy src dest) evs).
Proof.
  revert st w. induction module_defs as [|d rest IH]; intros st w Hrun Herr.
  - injection Hrun as <- <-. exists [], []. rewrite !app_nil_r.
    split; [constructor|]. split; [reflexivity|]. split; [reflexivity|].
    intros _ m src [].
  - destruct (build_loop_kept _ _ _ _ _ _ _ _ Hrun) as (_ & evs & _ & Hle & _).
    simpl in Hrun. unfold bindM at 1, record in Hrun.
    destruct (parse_module _ d assets) as [m|msg|e] eqn:Ep; simpl in Hrun, Ep.
    + apply bindM_ok in Hrun as (s & w1 & Hemit & Hrest).
      apply emit_module_ok in Hemit as (-> & e1 & Hl1 & Hc1).
      destruct (IH _ _ Hrest Herr) as (ms & e2 & Hall & Hout & Hl2 & Hc2).
      simpl in Hout, Hl1.
      exists (m :: ms), ([EvValidate d] ++ e1 ++ e2)%list.
      split; [|split; [|split]].
      * constructor; [|exact Hall]. eapply parse_module_mono; [exact Hle | exact Ep].
      * rewrite Hout, <- app_assoc. reflexivity.
      * rewrite Hl2, Hl1, <- !app_assoc. reflexivity.
      * intros Hd m' src [<-|Hin] Hsrc.
        -- destruct (Hc1 Hd src Hsrc) as (dest & Hdest). exists dest.
           rewrite !in_app_iff. auto.
        -- destruct (Hc2 Hd m' src Hin Hsrc) as (dest & Hdest). exists dest.
           rewrite !in_app_iff. auto.
    + apply build_loop_ok in Hrun as (outs & errs & evs' & _ & He & _). simpl in He.
      rewrite Herr in He. destruct (errors st); discriminate.
    + discriminate.
Qed.

(** X10: when [build_bundle] returns, in either mode, every module
    definition of the manifest validates against the file system the build
    left, and the compiled document lists the records of the validated
    modules one for one, in the order of the manifest, under the version of
    the manifest; so the module count [main] prints is the number of module
    definitions. *)
Theorem compiled_modules_follow_manifest (assets : Path) (manifest : JSON)
    (output_dir : Path) (dry_run : bool) (w : World FS) (c : JSON) (w' : World FS) :
  build_bundle assets manifest output_dir dry_run w = (Ok c, w') ->
  exists module_defs ms version,
    manifest_modules manifest = Ok module_defs
    /\ py_getitem manifest "version" = Ok version
    /\ Forall2 (fun d m => parse_module (fs w') d assets = Ok m) module_defs ms
    /\ c = JObj [("version", version); ("generated", JBool true);
                 ("modules", JList (map sanitized_record ms))]
    /\ modules_count c = List.length module_defs.
Proof.
  intros Hrun.
  apply build_bundle_ok in Hrun
    as (defs & st & w1 & version & Hm & Hloop & Herr & Hver & -> & Hle & _).
  destruct (build_loop_records _ _ _ _ _ _ _ _ Hloop Herr) as (ms & evs & Hall & Hout & _).
  simpl in Hout. exists defs, ms, version.
  split; [exact Hm|]. split; [exact Hver|]. split.
  - eapply Forall2_impl; [|exact Hall].
    intros d m Hp. eapply parse_module_mono; [exact Hle | exact Hp].
  - rewrite Hout. split; [reflexivity|].
    unfold modules_count. simpl. rewrite length_map.
    eapply Forall2_length_eq, Hall.
Qed.

(** X15: a real build that returns has copied every file of every module
    of the manifest, and when it ends every copy it made is on disk and
    nothing that existed before is gone. *)
Theorem successful_build_copied_everything (assets : Path) (manifest : JSON)
    (output_dir : Path) (w : World FS) (c : JSON) (w' : World FS) :
  build_bundle assets manifest output_dir false w = (Ok c, w') ->
  exists module_defs ms evs,
    manifest_modules manifest = Ok module_defs
    /\ Forall2 (fun d m => parse_module (fs w') d assets = Ok m) module_defs ms
    /\ log w' = (log w ++ evs)%list
    /\ fs_le (fs w) (fs w')
    /\ (forall src dest, In (EvCopy src dest) evs -> fs_exists (fs w') dest = true)
    /\ (forall m src, In m ms -> In src (module_files m) ->
          exists dest, In (EvCopy src dest) evs /\ fs_exists (fs w') dest = true).
Proof.
  rewrite build_bundle_unfold. unfold bindM at 1, lift at 1.
  destruct (manifest_modules manifest) as [defs|msg|e] eqn:Hm; try discriminate.
  unfold bindM.
  destruct (build_loop _ _ _ _ _ w) as [[st|msg|e] w1] eqn:El; try discriminate.
  intros Hfin. apply finish_bundle_inv in Hfin as (Herr & _ & f1 & f2 & Hmk & Hwr & ->).
  destruct (build_loop_kept _ _ _ _ _ _ _ _ El) as (_ & evs & Hlog & Hle & Hsound).
  destruct (build_loop_records _ _ _ _ _ _ _ _ El Herr)
    as (ms & evs' & Hall & _ & Hlog' & Hcopies).
  rewrite Hlog in Hlog'. apply app_inv_head in Hlog'. subst evs'.
  assert (Hle1 : fs_le (fs w1) f2).
  { eapply fs_le_trans; [eapply mkdir_p_le, Hmk | eapply write_json_le, Hwr]. }
  assert (Hex : forall src dest, In (EvCopy src dest) evs -> fs_exists f2 dest = true).
  { intros src dest Hin. rewrite Forall_forall in Hsound.
    apply (proj2 Hle1). exact (Hsound _ Hin). }
  exists defs, ms, (evs ++ [EvMkdir output_dir;
                            EvWrite (pdiv output_dir COMPILED_NAME) c])%list.
  simpl. split; [reflexivity|]. split.
  { eapply Forall2_impl; [|exact Hall].
    intros d m Hp. eapply parse_module_mono; [exact Hle1 | exact Hp]. }
  split; [rewrite Hlog, <- app_assoc; reflexivity|].
  split; [eapply fs_le_trans; eassumption|]. split.
  - intros src dest Hin. apply in_app_or in Hin as [Hin|Hin]; [eapply Hex, Hin|].
    simpl in Hin. destruct Hin as [Hin|[Hin|[]]]; discriminate.
  - intros m src Hin Hsrc. destruct (Hcopies eq_refl m src Hin Hsrc) as (dest & Hdest).
    exists dest. split; [apply in_or_app; left; exact Hdest | eapply Hex, Hdest].
Qed.

End CompiledModules.

(** The real build of the demo manifest: two definitions, two records. *)
Lemma compiled_modules_follow_manifest_witness :
  exists module_defs ms version,
    manifest_modules demo_manifest = Ok module_defs
    /\ py_getitem demo_manifest "version" = Ok version
    /\ Forall2 (fun d m =>
                  @parse_module SimFS _ sim_repr (fs (snd demo_real_build)) d demo_assets
                  = Ok m)
         module_defs ms
    /\ demo_compiled = JObj [("version", version); ("generated", JBool true);
                             ("modules", JList (map (@sanitized_record sim_repr) ms))]
    /\ modules_count demo_compiled = List.length module_defs.
Proof.
  apply (@compiled_modules_follow_manifest SimFS SimFS_FileSystem SimFS_laws sim_repr
           demo_assets demo_manifest demo_out false demo_world_ok demo_compiled
           (snd demo_real_build)).
  vm_compute. reflexivity.
Defined.

(** The real build of the demo manifest copied the files of both modules. *)
Lemma successful_build_copied_everything_witness :
  exists module_defs ms evs,
    manifest_modules demo_manifest = Ok module_defs
    /\ Forall2 (fun d m =>
                  @parse_module SimFS _ sim_repr (fs (snd demo_real_build)) d demo_assets
                  = Ok m)
         module_defs ms
    /\ log (snd demo_real_build) = (log demo_world_ok ++ evs)%list
    /\ fs_le (fs demo_world_ok) (fs (snd demo_real_build))
    /\ (forall src dest, In (EvCopy src dest) evs ->
          fs_exists (fs (snd demo_real_build)) dest = true)
    /\ (forall m src, In m ms -> In src (module_files m) ->
          exists dest, In (EvCopy src dest) evs
                       /\ fs_exists (fs (snd demo_real_build)) dest = true).
Proof.
  apply (@successful_build_copied_everything SimFS SimFS_FileSystem SimFS_laws sim_repr
           demo_assets demo_manifest demo_out demo_world_ok demo_compiled
           (snd demo_real_build)).
  vm_compute. reflexivity.
Defined.

(* ================================================================= *)
(** ** What [copy_into_bundle] does *)

Section CopyEffects.

Context {FS : Type} `{FileSystem FS} `{!FileSystemLaws FS} `{PyRepr}.

Lemma copy_loop_effects files bundle_root target copied (w : World FS) r w' :
  copy_loop files bundle_root target false copied w = (Ok r, w') ->
  r = (copied ++ map (dest_string target) files)%list
  /\ log w' = (log w ++ copy_events bundle_root target files)%list
  /\ fs_le (fs w) (fs w')
  /\ Forall (fun src => fs_exists (fs w') (dest_path bundle_root target src) = true) files.
Proof.
  revert copied w. induction files as [|src rest IH]; intros copied w Hrun.
  - injection Hrun as <- <-. simpl. rewrite !app_nil_r.
    split; [reflexivity|]. split; [reflexivity|]. split; [apply fs_le_refl | constructor].
  - simpl in Hrun. apply bindM_ok in Hrun as (u & w1 & Hstep & Hrest).
    apply bindM_ok in Hstep as (u1 & w0 & Hmk & Hcp).
    apply do_mkdir_ok in Hmk as (f0 & Hmk & ->).
    apply do_copy2_ok in Hcp as (f1 & Hcp & ->). simpl in Hcp.
    apply IH in Hrest as (-> & Hlog & Hle & Hall). simpl in Hlog, Hle.
    split; [simpl; rewrite <- app_assoc; reflexivity|].
    split; [rewrite Hlog; simpl; rewrite <- !app_assoc; reflexivity|].
    split.
    + eapply fs_le_trans; [eapply mkdir_p_le, Hmk|].
      eapply fs_le_trans; [eapply copy2_le, Hcp | exact Hle].
    + constructor; [|exact Hall].
      apply (proj2 Hle). eapply copy2_exists, Hcp.
Qed.

(** X11: what a call of [copy_into_bundle] that returns has done.  It
    returns one destination string per source file, in order, whatever the
    mode.  A dry run leaves the world as it was.  A real run has made, for
    each file in turn, the directory of its destination and then the copy,
    and nothing else; afterwards every destination exists and nothing that
    existed before is gone. *)
Theorem copy_into_bundle_effects (files : list Path) (bundle_root target : Path)
    (dry_run : bool) (w : World FS) (r : list string) (w' : World FS) :
  copy_into_bundle files bundle_root target dry_run w = (Ok r, w') ->
  r = map (dest_string target) files
  /\ if dry_run then w' = w
     else log w' = (log w ++ copy_events bundle_root target files)%list
          /\ fs_le (fs w) (fs w')
          /\ Forall (fun src => fs_exists (fs w') (dest_path bundle_root target src) = true)
               files.
Proof.
  unfold copy_into_bundle. destruct dry_run.
  - rewrite copy_loop_dry. intros [= <- <-]. auto.
  - intros Hrun. apply copy_loop_effects in Hrun as (-> & Hlog & Hle & Hall). auto.
Qed.

End CopyEffects.

(** A mesh and its collision file copied under [lod_0]. *)
Lemma copy_into_bundle_effects_witness :
  ["modules/hull/hull_a/lod_0/a.obj"; "modules/hull/hull_a/lod_0/a.col"]
  = map (dest_string demo_lod_target) demo_lod_sources
  /\ log (snd demo_copy)
     = (log demo_world ++ copy_events demo_out demo_lod_target demo_lod_sources)%list
  /\ fs_le (fs demo_world) (fs (snd demo_copy))
  /\ Forall (fun src =>
               fs_exists (fs (snd demo_copy)) (dest_path demo_out demo_lod_target src) = true)
       demo_lod_sources.
Proof.
  apply (@copy_into_bundle_effects SimFS SimFS_FileSystem SimFS_laws demo_lod_sources
           demo_out demo_lod_target false demo_world
           ["modules/hull/hull_a/lod_0/a.obj"; "modules/hull/hull_a/lod_0/a.col"]
           (snd demo_copy)).
  vm_compute. reflexivity.
Defined.

(* ================================================================= *)
(** ** A module definition with nothing optional *)

Lemma optional_fold_absent (src : Dict) (keys : list string) (acc : Dict) :
  (forall k, In k keys -> dict_get k src = None) ->
  fold_left
    (fun acc optional_key =>
       match dict_get optional_key src with
       | Some v => dict_set optional_key v acc
       | None => acc
       end)
    keys acc = acc.
Proof.
  revert acc. induction keys as [|k rest IH]; intros acc Hk; simpl; [reflexivity|].
  rewrite (Hk k (or_introl eq_refl)). apply IH. intros k' Hin. apply Hk. right. exact Hin.
Qed.

Section MinimalModule.

Context {FS : Type} `{FileSystem FS} `{PyRepr}.

(** X12: a definition that has none of the optional keys (display name,
    materials, thumbnails, legacy thumbnail, extra files, pass-through
    metadata) validates to a module whose display name is its id and whose
    three file lists are empty, and its record in the compiled manifest has
    exactly the four keys id, type, displayName and lods, in that order. *)
Theorem minimal_module_record (f : FS) (d : Dict) (assets : Path) (m : ModuleAsset) :
  parse_module f (JObj d) assets = Ok m ->
  (forall k,
     In k ("displayName" :: "materials" :: "thumbnails" :: "thumbnail" :: "extraFiles"
           :: OPTIONAL_KEYS) ->
     dict_get k d = None) ->
  display_name m = JStr (module_id m)
  /\ materials m = [] /\ thumbnails m = [] /\ extra_files m = []
  /\ sanitized_record m
     = JObj [("id", JStr (module_id m)); ("type", JStr (module_type m));
             ("displayName", JStr (module_id m));
             ("lods", JList (map (lod_record (module_target_of m)) (lods m)))].
Proof.
  intros Hok Habsent.
  apply parse_module_ok in Hok
    as (d' & raw & me & ee & [= <-] & Hsrc & _ & _ & Hdn & _ & _ & Hme & Hmat & Hth
        & Hee & Hex).
  assert (Hk : forall k,
            In k ["displayName"; "materials"; "thumbnails"; "thumbnail"; "extraFiles"] ->
            dict_get k d = None).
  { intros k Hin. apply Habsent. simpl in Hin. simpl. tauto. }
  assert (Hname : display_name m = JStr (module_id m)).
  { rewrite Hdn. unfold py_get_default. rewrite (Hk "displayName"); simpl; auto. }
  assert (Hm : materials m = []).
  { unfold iter_field, py_get_default in Hme. rewrite (Hk "materials") in Hme by (simpl; auto).
    simpl in Hme. injection Hme as <-. simpl in Hmat. injection Hmat as <-. reflexivity. }
  assert (Ht : thumbnails m = []).
  { unfold parse_thumbnails, py_get in Hth.
    rewrite (Hk "thumbnails"), (Hk "thumbnail") in Hth by (simpl; auto 6).
    injection Hth as <-. reflexivity. }
  assert (He : extra_files m = []).
  { unfold iter_field, py_get_default in Hee. rewrite (Hk "extraFiles") in Hee by (simpl; auto 6).
    simpl in Hee. injection Hee as <-. simpl in Hex. injection Hex as <-. reflexivity. }
  do 4 (split; [assumption|]).
  unfold sanitized_record. rewrite Hm, Ht, He, Hname, Hsrc. simpl map.
  unfold set_if_nonempty, copy_optional_keys.
  rewrite optional_fold_absent; [reflexivity|].
  intros k Hin. apply Habsent. do 5 right. exact Hin.
Qed.

End MinimalModule.

(** The hull module with an id, a type and one LOD. *)
Lemma minimal_module_record_witness :
  display_name module_fine_asset = JStr (module_id module_fine_asset)
  /\ materials module_fine_asset = [] /\ thumbnails module_fine_asset = []
  /\ extra_files module_fine_asset = []
  /\ @sanitized_record sim_repr module_fine_asset
     = JObj [("id", JStr (module_id module_fine_asset));
             ("type", JStr (module_type module_fine_asset));
             ("displayName", JStr (module_id module_fine_asset));
             ("lods", JList (map (@lod_record sim_repr (module_target_of module_fine_asset))
                               (lods module_fine_asset)))].
Proof.
  apply (@minimal_module_record SimFS SimFS_FileSystem sim_repr demo_fs module_fine_defn
           demo_assets module_fine_asset eq_refl).
  intros k Hin. simpl in Hin.
  repeat (destruct Hin as [<-|Hin]; [reflexivity|]). destruct Hin.
Defined.

(* ================================================================= *)
(** ** What [main] prints *)

Section MainReport.

Context {FS : Type} `{FileSystem FS} `{PyRepr}.

(** Where the errors of a loop that ran to its end come from: each one is
    the message of a module definition that failed validation at its
    turn. *)
Lemma build_loop_error_origin assets output_dir dry_run module_defs st (w : World FS)
    st' w' :
  build_loop assets output_dir dry_run module_defs st w = (Ok st', w') ->
  forall e, In e (errors st') ->
    In e (errors st)
    \/ exists pre d post st1 w1,
         module_defs = (pre ++ d :: post)%list
         /\ build_loop assets output_dir dry_run pre st w = (Ok st1, w1)
         /\ parse_module (fs w1) d assets = Invalid e.
Proof.
  revert st' w'. induction module_defs as [|x l IH] using rev_ind; intros st' w' Hrun e He.
  - injection Hrun as <- <-. left. exact He.
  - rewrite build_loop_app in Hrun.
    apply bindM_ok in Hrun as (st1 & w1 & Hl & Hx).
    simpl in Hx. unfold bindM at 1, record in Hx.
    destruct (parse_module _ x assets) as [m|msg|e0] eqn:Ep; simpl in Hx, Ep.
    + apply bindM_ok in Hx as (s & w2 & _ & Hret). injection Hret as <- <-.
      simpl in He. destruct (IH _ _ Hl e He) as [Hin|(pre & d & post & s1 & v1 & -> & Hpre & Hd)].
      * left. exact Hin.
      * right. exists pre, d, (post ++ [x])%list, s1, v1.
        rewrite <- app_assoc. auto.
    + injection Hx as <- <-. simpl in He. apply in_app_or in He as [He|[<-|[]]].
      * destruct (IH _ _ Hl e He) as [Hin|(pre & d & post & s1 & v1 & -> & Hpre & Hd)].
        -- left. exact Hin.
        -- right. exists pre, d, (post ++ [x])%list, s1, v1.
           rewrite <- app_assoc. auto.
      * right. exists l, x, [], st1, w1. auto.
    + discriminate.
Qed.

(** X13: when [main] returns a status, it is 0 or 1.  With status 0 it has
    printed nothing on the error stream and made two prints on the output
    stream: the first counts the module definitions of the manifest it
    read, the second tells the mode.  With status 1 it has printed nothing
    on the output stream and made one print on the error stream: ["error: "]
    followed either by the message of [read_manifest], the world being
    untouched, or by the combined message of the build, which spans several
    lines.  In that case the module loop ran to its end, its errors are not
    empty, and they are the messages of the module definitions that failed
    validation at their turn, no more and no less. *)
Theorem main_exit_report (args : Args) (w : World FS) (status : Z)
    (out err : list string) (w' : World FS) :
  main args w = (Exit status out err, w') ->
  (status = 0%Z /\ err = []
   /\ exists manifest module_defs,
        read_manifest (fs w) (manifest_path_of args) = Ok manifest
        /\ manifest_modules manifest = Ok module_defs
        /\ out = ["Packaged " ++ nat_to_string (List.length module_defs)
                    ++ " module(s) into " ++ as_posix (arg_output_dir args);
                  if arg_dry_run args then "Dry-run complete. No files were written."
                  else "Wrote compiled manifest: "
                         ++ as_posix (pdiv (arg_output_dir args) COMPILED_NAME)])
  \/ (status = 1%Z /\ out = []
      /\ exists msg,
           err = ["error: " ++ msg]
           /\ ((read_manifest (fs w) (manifest_path_of args) = Invalid msg /\ w' = w)
               \/ exists manifest module_defs st,
                    read_manifest (fs w) (manifest_path_of args) = Ok manifest
                    /\ manifest_modules manifest = Ok module_defs
                    /\ build_loop (arg_assets_dir args) (arg_output_dir args)
                         (arg_dry_run args) module_defs init_state w = (Ok st, w')
                    /\ errors st <> []
                    /\ msg = build_failed_msg (errors st)
                    /\ forall e,
                         In e (errors st) <->
                         exists pre d post st1 w1,
                           module_defs = (pre ++ d :: post)%list
                           /\ build_loop (arg_assets_dir args) (arg_output_dir args)
                                (arg_dry_run args) pre init_state w = (Ok st1, w1)
                           /\ parse_module (fs w1) d (arg_assets_dir args) = Invalid e)).
Proof.
  unfold main. unfold bindM at 1, lift at 1.
  destruct (read_manifest (fs w) (manifest_path_of args)) as [manifest|msg|e0] eqn:Erm.
  - destruct (build_bundle _ manifest _ _ w) as [[c|msg|e1] w1] eqn:Eb; try discriminate.
    + intros [= <- <- <- <-]. left. split; [reflexivity|]. split; [reflexivity|].
      rewrite build_bundle_unfold in Eb. unfold bindM at 1, lift at 1 in Eb.
      destruct (manifest_modules manifest) as [defs|msg|e] eqn:Hm; try discriminate.
      unfold bindM in Eb.
      destruct (build_loop _ _ _ _ _ w) as [[st|msg|e] w2] eqn:El; try discriminate.
      apply finish_bundle_inv in Eb as (Herr & (version & _ & ->) & _).
      apply build_loop_ok in El as (outs & errs & evs & Hout & He & Hlen & _).
      simpl in Hout, He. rewrite Herr in He. subst errs. simpl in Hlen.
      exists manifest, defs. split; [reflexivity|]. split; [exact Hm|].
      unfold modules_count. simpl. rewrite Hout, <- Hlen, Nat.add_0_r. reflexivity.
    + intros [= <- <- <- <-]. right. split; [reflexivity|]. split; [reflexivity|].
      exists msg. split; [reflexivity|]. right.
      rewrite build_bundle_unfold in Eb. unfold bindM at 1, lift at 1 in Eb.
      destruct (manifest_modules manifest) as [defs|msg'|e] eqn:Hm.
      * unfold bindM in Eb.
        destruct (build_loop _ _ _ _ _ w) as [[st|msg'|e] w2] eqn:El.
        -- apply finish_bundle_inv in Eb as (Hne & -> & ->).
           exists manifest, defs, st.
           split; [reflexivity|]. split; [exact Hm|]. split; [exact El|].
           split; [exact Hne|]. split; [reflexivity|].
           intros e. split.
           ++ intros He.
              destruct (build_loop_error_origin _ _ _ _ _ _ _ _ El e He) as [[]|Horigin].
              exact Horigin.
           ++ intros (pre & d & post & st1 & v1 & Hdefs & Hpre & Hd). subst defs.
              destruct (build_loop_keeps_failure _ _ _ _ _ _ _ _ _ _ El)
                as (st1' & v1' & Hpre' & Hin).
              unfold init_state in Hpre. rewrite Hpre in Hpre'.
              injection Hpre' as <- <-. exact (Hin e Hd).
        -- destruct (build_loop_exn _ _ _ _ _ _ _ _ El).
        -- discriminate.
      * destruct (manifest_modules_not_invalid _ _ Hm).
      * discriminate.
  - intros [= <- <- <- <-]. right. split; [reflexivity|]. split; [reflexivity|].
    exists msg. split; [reflexivity|]. left. split; reflexivity.
  - discriminate.
Qed.

End MainReport.

(** A real run on a manifest whose second module refers to a missing
    mesh: status 1, nothing on the output stream, and one print on the
    error stream that carries the combined message of the one failure. *)
Lemma main_exit_report_witness :
  exists msg,
    ["error: " ++ demo_failing_msg] = ["error: " ++ msg]
    /\ ((read_manifest (fs demo_world_failing) (manifest_path_of (demo_args false))
         = Invalid msg
         /\ snd demo_failing_main = demo_world_failing)
        \/ exists manifest module_defs st,
             read_manifest (fs demo_world_failing) (manifest_path_of (demo_args false))
             = Ok manifest
             /\ manifest_modules manifest = Ok module_defs
             /\ @build_loop SimFS _ sim_repr (arg_assets_dir (demo_args false))
                  (arg_output_dir (demo_args false)) (arg_dry_run (demo_args false))
                  module_defs init_state demo_world_failing
                = (Ok st, snd demo_failing_main)
             /\ errors st <> []
             /\ msg = build_failed_msg (errors st)
             /\ forall e,
                  In e (errors st) <->
                  exists pre d post st1 w1,
                    module_defs = (pre ++ d :: post)%list
                    /\ @build_loop SimFS _ sim_repr (arg_assets_dir (demo_args false))
                         (arg_output_dir (demo_args false))
                         (arg_dry_run (demo_args false)) pre init_state
                         demo_world_failing
                       = (Ok st1, w1)
                    /\ @parse_module SimFS _ sim_repr (fs w1) d
                         (arg_assets_dir (demo_args false))
                       = Invalid e).
Proof.
  destruct (@main_exit_report SimFS SimFS_FileSystem sim_repr (demo_args false)
              demo_world_failing 1%Z [] ["error: " ++ demo_failing_msg]
              (snd demo_failing_main) ltac:(vm_compute; reflexivity))
    as [(Hzero & _)|(_ & _ & Hmsg)].
  - discriminate Hzero.
  - exact Hmsg.
Defined.

(* ================================================================= *)
(** ** Reading a reported destination back *)

Lemma split_slash_app (s t : string) :
  has_slash s = false -> split_slash (s ++ String slash t) = s :: split_slash t.
Proof.
  induction s as [|c s IH]; simpl; intros Hs; [reflexivity|].
  destruct (Ascii.eqb c slash); [discriminate|]. simpl in Hs.
  rewrite (IH Hs). reflexivity.
Qed.

Lemma split_slash_root (t : string) :
  split_slash (String slash t) = "" :: split_slash t.
Proof. reflexivity. Qed.

Lemma split_slash_join (ps : list string) :
  ps <> [] -> Forall (fun s => has_slash s = false) ps ->
  split_slash (join "/" ps) = ps.
Proof.
  unfold join. induction ps as [|x ps IH]; intros Hne Hall; [contradiction|].
  inversion Hall as [|? ? Hx Hps]; subst.
  destruct ps as [|y ps]; [apply split_slash_single; exact Hx|].
  change (String.concat "/" (x :: y :: ps))
    with (x ++ String slash (String.concat "/" (y :: ps))).
  rewrite (split_slash_app _ _ Hx), IH by (discriminate || assumption). reflexivity.
Qed.

Lemma valid_part_inv (s : string) :
  valid_part s = true ->
  keep_part s = true /\ has_slash s = false
  /\ exists c rest, s = String c rest /\ Ascii.eqb c slash = false.
Proof.
  unfold valid_part. intros Hv. apply andb_true_iff in Hv as [Hk Hs].
  apply negb_true_iff in Hs. split; [exact Hk|]. split; [exact Hs|].
  destruct s as [|c rest]; [discriminate|]. exists c, rest. split; [reflexivity|].
  simpl in Hs. apply orb_false_iff in Hs as [Hc _]. exact Hc.
Qed.

Lemma filter_keep_valid (ps : list string) :
  Forall (fun s => valid_part s = true) ps -> filter keep_part ps = ps.
Proof.
  induction 1 as [|x ps Hx Hps IH]; simpl; [reflexivity|].
  destruct (valid_part_inv _ Hx) as (-> & _). rewrite IH. reflexivity.
Qed.

Lemma join_head (x : string) (xs : list string) (c : ascii) (rest : string) :
  x = String c rest -> exists rest', join "/" (x :: xs) = String c rest'.
Proof.
  intros ->. unfold join. destruct xs as [|y ys]; simpl; eauto.
Qed.

(** [Path(str(p))] is [p]. *)
Lemma parse_as_posix (p : Path) : wf_path p -> parse_path (as_posix p) = p.
Proof.
  destruct p as [r ps]. unfold wf_path. simpl. intros Hwf.
  pose proof (filter_keep_valid _ Hwf) as Hfilter.
  destruct ps as [|x xs]; [destruct r; reflexivity|].
  assert (Hns : Forall (fun s => has_slash s = false) (x :: xs)).
  { eapply Forall_impl; [|exact Hwf]. intros s Hs. apply valid_part_inv in Hs. tauto. }
  pose proof (split_slash_join (x :: xs) ltac:(discriminate) Hns) as Hsplit.
  inversion Hwf as [|? ? Hx _]; subst.
  destruct (valid_part_inv _ Hx) as (_ & _ & c & rest & Hxc & Hc).
  destruct (join_head x xs c rest Hxc) as (rest' & Hhead).
  unfold parse_path, as_posix. simpl root. simpl parts.
  destruct r; simpl root_str.
  - change ("" ++ join "/" (x :: xs)) with (join "/" (x :: xs)).
    rewrite Hsplit, Hfilter. f_equal.
    rewrite Hhead. simpl. rewrite Hc. reflexivity.
  - change ("/" ++ join "/" (x :: xs)) with (String slash (join "/" (x :: xs))).
    f_equal.
    + rewrite Hhead. simpl. rewrite Hc. reflexivity.
    + rewrite split_slash_root, Hsplit. simpl. exact Hfilter.
  - change ("//" ++ join "/" (x :: xs))
      with (String slash (String slash (join "/" (x :: xs)))).
    f_equal.
    + rewrite Hhead. simpl. rewrite Hc. reflexivity.
    + rewrite !split_slash_root, Hsplit. simpl. exact Hfilter.
Qed.

Section ReadBack.

Context {FS : Type} `{FileSystem FS} `{PyRepr}.

(** X14: the strings [copy_into_bundle] returns lead back to the copies:
    for a target made of proper path components, each returned string,
    read as a path and joined to the bundle root, is the destination the
    file at the same position was (or, in a dry run, would be) copied to. *)
Theorem reported_strings_locate_copies (files : list Path) (bundle_root target : Path)
    (dry_run : bool) (w : World FS) (r : list string) (w' : World FS) :
  wf_path target ->
  copy_into_bundle files bundle_root target dry_run w = (Ok r, w') ->
  map (fun s => pjoin bundle_root (parse_path s)) r
  = map (dest_path bundle_root target) files.
Proof.
  intros Hwf Hrun. unfold copy_into_bundle in Hrun.
  apply copy_loop_ok in Hrun as (-> & _). simpl. rewrite map_map.
  apply map_ext. intros src. unfold dest_string, dest_path.
  rewrite parse_as_posix; [reflexivity|].
  unfold pdiv. apply pjoin_wf; [exact Hwf | apply parse_path_wf].
Qed.

End ReadBack.

(** The two destinations of the demo copy, read back from the strings. *)
Lemma reported_strings_locate_copies_witness :
  map (fun s => pjoin demo_out (parse_path s))
    ["modules/hull/hull_a/lod_0/a.obj"; "modules/hull/hull_a/lod_0/a.col"]
  = map (dest_path demo_out demo_lod_target) demo_lod_sources.
Proof.
  apply (@reported_strings_locate_copies SimFS SimFS_FileSystem demo_lod_sources
           demo_out demo_lod_target false demo_world
           ["modules/hull/hull_a/lod_0/a.obj"; "modules/hull/hull_a/lod_0/a.col"]
           (snd demo_copy)).
  - apply parse_path_wf.
  - vm_compute. reflexivity.
Defined.

(* ================================================================= *)
(** ** From a definition to its record *)

Lemma dict_get_set_if_nonempty_some (k k' : string) (paths : list string) (d : Dict) :
  dict_get k (set_if_nonempty k' paths d) <> None -> k = k' \/ dict_get k d <> None.
Proof.
  rewrite dict_get_set_if_nonempty. destruct paths; [auto|].
  destruct (String.eqb_spec k' k); auto.
Qed.

Lemma dict_get_optional_fold_some (k : string) (src : Dict) (keys : list string)
    (d : Dict) :
  dict_get k
    (fold_left (fun acc key => match dict_get key src with
                               | Some v => dict_set key v acc
                               | None => acc
                               end) keys d) <> None ->
  In k keys \/ dict_get k d <> None.
Proof.
  rewrite dict_get_optional_fold.
  destruct (existsb (String.eqb k) keys) eqn:E; [|auto].
  intros _. left. apply existsb_exists in E as (x & Hin & Heq).
  apply String.eqb_eq in Heq. subst x. exact Hin.
Qed.

Lemma py_get_some (d : Dict) (key : string) (v : JSON) :
  py_get d key = v -> v <> JNull -> dict_get key d = Some v.
Proof.
  unfold py_get. destruct (dict_get key d); intros <- Hv; [reflexivity | contradiction].
Qed.

Section DefinitionToRecord.

Context {FS : Type} `{FileSystem FS} `{PyRepr}.

(** X16: from a module definition to its record in the compiled manifest.
    The record has the id and the type of the definition, its display name
    (the id when the definition has none) and, under each pass-through key,
    what the definition has there; it has no key besides the four
    mandatory ones, the three file lists and the pass-through keys:
    whatever else the definition carries never reaches the compiled
    manifest. *)
Theorem record_is_sanitized (f : FS) (d : Dict) (assets : Path) (m : ModuleAsset)
    (output_dir : Path) (dry_run : bool) (w w' : World FS) (rec : JSON) :
  parse_module f (JObj d) assets = Ok m ->
  emit_module m output_dir dry_run w = (Ok rec, w') ->
  exists s, rec = JObj s
    /\ dict_get "id" s = dict_get "id" d
    /\ dict_get "type" s = dict_get "type" d
    /\ dict_get "displayName" s
       = Some (py_get_default d "displayName" (JStr (module_id m)))
    /\ (forall key,
          In key ["description"; "sockets"; "interiorAnchor"; "metrics";
                  "compatibleSockets"; "mirrorOf"; "tags"; "dependencies"; "vfxHooks"] ->
          dict_get key s = dict_get key d)
    /\ (forall key, dict_get key s <> None -> In key RECORD_KEYS).
Proof.
  intros Hparse Hemit. apply emit_module_ok in Hemit as [-> _].
  pose proof (parse_module_ok _ _ _ _ Hparse)
    as (d0 & _ & _ & _ & [= <-] & _ & _ & _ & Hdn & _).
  destruct (parse_module_shape _ _ _ _ Hparse)
    as (d' & _ & _ & _ & _ & [= <-] & Hsrc & Hid & _ & Hty & _).
  destruct (sanitized_record_get m)
    as (s & Hs & Hsid & Hsty & Hsdn & _ & _ & _ & _ & Hopt).
  exists s. split; [exact Hs|].
  split; [rewrite Hsid; symmetry; apply py_get_some; [exact Hid | discriminate]|].
  split; [rewrite Hsty; symmetry; apply py_get_some; [exact Hty | discriminate]|].
  split; [rewrite Hsdn, Hdn; reflexivity|].
  split; [intros key Hin; rewrite (Hopt key Hin), Hsrc; reflexivity|].
  clear Hsid Hsty Hsdn Hopt.
  unfold sanitized_record in Hs. injection Hs as <-. intros key Hkey.
  unfold RECORD_KEYS.
  apply dict_get_set_if_nonempty_some in Hkey as [->|Hkey]; [simpl; auto 20|].
  apply dict_get_set_if_nonempty_some in Hkey as [->|Hkey]; [simpl; auto 20|].
  apply dict_get_set_if_nonempty_some in Hkey as [->|Hkey]; [simpl; auto 20|].
  unfold copy_optional_keys in Hkey.
  apply dict_get_optional_fold_some in Hkey as [Hin|Hkey].
  { exact (in_or_app
             ["id"; "type"; "displayName"; "lods"; "materials"; "thumbnails"; "extraFiles"]
             OPTIONAL_KEYS key (or_intror Hin)). }
  cbn [dict_get] in Hkey.
  destruct (String.eqb_spec "id" key) as [Heq|_]; [rewrite <- Heq; simpl; auto 20|].
  destruct (String.eqb_spec "type" key) as [Heq|_]; [rewrite <- Heq; simpl; auto 20|].
  destruct (String.eqb_spec "displayName" key) as [Heq|_]; [rewrite <- Heq; simpl; auto 20|].
  destruct (String.eqb_spec "lods" key) as [Heq|_]; [rewrite <- Heq; simpl; auto 20|].
  contradiction.
Qed.

(** X17: the LOD number in a ["must be an object"] failure is the position,
    counted from 0, of the first entry of the ["lods"] list that is no
    object: when the id and the type pass and the entries before it parse,
    that failure is the outcome, with the length of the prefix as number. *)
Theorem lod_index_is_position (f : FS) (assets : Path) (d : Dict) (mid ty : string)
    (pre : list JSON) (bad : JSON) (post : list JSON) (ls : list LodEntry) :
  check_module_id d = Ok mid ->
  check_module_type mid d = Ok ty ->
  py_get d "lods" = JList (pre ++ bad :: post)%list ->
  parse_lods f assets mid 0 pre [] [] = Ok ls ->
  (forall fields, bad <> JObj fields) ->
  parse_module f (JObj d) assets
  = Invalid ("Module '" ++ mid ++ "' LOD #" ++ nat_to_string (List.length pre)
               ++ " must be an object").
Proof.
  intros Hid Hty Hlods Hpre Hbad.
  unfold parse_module. rewrite Hid. simpl. rewrite Hty. simpl.
  unfold check_lods_field. rewrite Hlods.
  destruct (pre ++ bad :: post)%list as [|l0 raw'] eqn:Hraw;
    [destruct pre; discriminate|]. rewrite <- Hraw. clear Hraw. simpl bind.
  destruct (parse_lods_app _ _ _ _ _ _ _ _ Hpre) as (seen' & _ & Happ).
  rewrite Happ. simpl.
  destruct bad as [| | | | | |fields]; try reflexivity.
  destruct (Hbad fields eq_refl).
Qed.

End DefinitionToRecord.

Lemma Forall2_map_left {A B C : Type} (g : A -> B) (R : B -> C -> Prop)
    (l : list A) (l' : list C) :
  Forall2 R (map g l) l' -> Forall2 (fun a c => R (g a) c) l l'.
Proof.
  revert l'. induction l as [|a l IH]; intros l' Hall; simpl in Hall.
  - inversion Hall. constructor.
  - inversion Hall; subst. constructor; [assumption | apply IH; assumption].
Qed.

Section StringLists.

Context {FS : Type} `{FileSystem FS} `{PyRepr}.

(** X18: a ["materials"] or ["extraFiles"] value that is a string is not
    rejected and is not taken as one reference: the loop runs over its
    characters (its code points, a character outside ASCII being one of
    them), and each character is resolved as a file reference of its
    own. *)
Theorem string_list_read_by_character (f : FS) (d : Dict) (assets : Path)
    (m : ModuleAsset) :
  parse_module f (JObj d) assets = Ok m ->
  (forall s, dict_get "materials" d = Some (JStr s) ->
     Forall2 (fun ch p =>
                ensure_relative_path f assets (JStr ch) "materials" (module_id m) = Ok p)
       (chars s) (materials m))
  /\ (forall s, dict_get "extraFiles" d = Some (JStr s) ->
        Forall2 (fun ch p =>
                   ensure_relative_path f assets (JStr ch) "extraFiles" (module_id m)
                   = Ok p)
          (chars s) (extra_files m)).
Proof.
  intros Hok.
  destruct (parse_module_shape _ _ _ _ Hok)
    as (d' & raw & mats & extras & zs & [= <-] & _ & _ & _ & _ & _ & _ & _
        & _ & _ & _ & _ & Hmi & Hmat & _ & Hei & Hex).
  split; intros s Hs.
  - unfold py_get_default in Hmi. rewrite Hs in Hmi. injection Hmi as <-.
    apply Forall2_map_left in Hmat. exact Hmat.
  - unfold py_get_default in Hei. rewrite Hs in Hei. injection Hei as <-.
    apply Forall2_map_left in Hex. exact Hex.
Qed.

End StringLists.

(** The record of the hull module: its definition has a ["secret"] key,
    the record has not. *)
Lemma record_is_sanitized_witness :
  exists s, core_hull_record = JObj s
    /\ dict_get "id" s = dict_get "id" core_hull_defn
    /\ dict_get "type" s = dict_get "type" core_hull_defn
    /\ dict_get "displayName" s
       = Some (py_get_default core_hull_defn "displayName" (JStr (module_id core_hull_a)))
    /\ (forall key,
          In key ["description"; "sockets"; "interiorAnchor"; "metrics";
                  "compatibleSockets"; "mirrorOf"; "tags"; "dependencies"; "vfxHooks"] ->
          dict_get key s = dict_get key core_hull_defn)
    /\ (forall key, dict_get key s <> None -> In key RECORD_KEYS).
Proof.
  apply (@record_is_sanitized SimFS SimFS_FileSystem sim_repr demo_fs core_hull_defn
           demo_assets core_hull_a demo_out true demo_world demo_world core_hull_record).
  - vm_compute. reflexivity.
  - vm_compute. reflexivity.
Defined.

(** A string as second LOD entry: the failure names LOD #1. *)
Lemma lod_index_is_position_witness :
  @parse_module SimFS _ sim_repr demo_fs (JObj lod_string_defn) demo_assets
  = Invalid ("Module '" ++ "hull_s" ++ "' LOD #"
               ++ nat_to_string (List.length [JObj [("level", JInt 0); ("mesh", JStr "a.obj")]])
               ++ " must be an object").
Proof.
  apply (@lod_index_is_position SimFS SimFS_FileSystem sim_repr demo_fs demo_assets
           lod_string_defn "hull_s" "hull"
           [JObj [("level", JInt 0); ("mesh", JStr "a.obj")]] (JStr "b.obj") []
           [mkLodEntry (JInt 0) (mkPath Abs ["proj"; "assets"; "a.obj"]) None]).
  - reflexivity.
  - reflexivity.
  - reflexivity.
  - vm_compute. reflexivity.
  - intros fields. discriminate.
Defined.

(** The materials string of an accented e and an m: two references, to the
    file named by the accented e and to the file named [m]. *)
Lemma string_list_read_by_character_witness :
  Forall2 (fun ch p =>
             ensure_relative_path demo_fs_chars demo_assets (JStr ch) "materials"
               (module_id string_materials_asset) = Ok p)
    [e_acute; "m"] (materials string_materials_asset).
Proof.
  exact (proj1 (@string_list_read_by_character SimFS SimFS_FileSystem sim_repr
                  demo_fs_chars string_materials_defn demo_assets string_materials_asset
                  ltac:(vm_compute; reflexivity))
           (e_acute ++ "m") eq_refl).
Defined.
